(** * Statistical analysis toolkit ([scripts/utils/processing.py])

    A shallow embedding of the toolkit's functions and the properties of
    its specification.

    - Numeric cells are IEEE binary64 numbers (pandas' [float64], Rocq's
      primitive [float]), so missing values (NaN), infinities, division by
      zero and comparisons behave as they do in the program.
    - A table is an ordered collection of labelled rows, each row a mapping
      from column names to values.
    - The pandas operations the source calls (column selection, boolean
      masks, [isin], [groupby], [sum], [mean], [sort_values],
      [reset_index], [copy]) are written out with the semantics pandas
      documents for the default arguments the source relies on.
    - Sums are computed as the libraries compute them: the sum of a group
      by compensated (Kahan) summation, the sum of a column by numpy's
      pairwise summation; the two may differ in the last bit.
    - The sort of [sort_values] is numpy's default [argsort], written out
      in its portable form (quicksort with insertion sort on short ranges
      and heapsort at the depth limit); the kernels numpy selects by
      hardware are not modelled. Statements that hold of every sorting
      routine are made over a routine given by its contract.
    - The numerical routines of scipy ([ttest_ind], [chi2_contingency],
      [f_oneway], [mannwhitneyu]) are section variables: the toolkit
      delegates to them, and what it needs from them is stated as
      hypotheses. *)

From Stdlib Require Import Floats ZArith Lia Bool.
From Stdlib Require Import String List Permutation Sorted OrderedTypeEx.
Import ListNotations.

Set Warnings "-inexact-float".

(* ================================================================= *)
(** * Part I. The model *)

(* ----------------------------------------------------------------- *)
(** ** Numbers *)

(** The comparison of two binary64 numbers through their specification:
    [None] when one of them is NaN. *)
Definition fcmp (x y : float) : option comparison :=
  SFcompare (Prim2SF x) (Prim2SF y).

Definition notna (x : float) : bool := negb (is_nan x).

Definition float_of_Z (z : Z) : float :=
  match z with
  | Z0 => 0%float
  | Zpos _ => of_uint63 (Uint63.of_Z z)
  | Zneg p => (- of_uint63 (Uint63.of_Z (Zpos p)))%float
  end.

Definition float_of_nat (n : nat) : float := float_of_Z (Z.of_nat n).

(* ----------------------------------------------------------------- *)
(** ** Values, rows and tables *)

(** A cell holds a number or a string. A missing entry is NaN, in numeric
    and in categorical columns alike. The numbers are those of a [float64]
    column. The columns of machine integers ([int64]) are not part of this
    model: their sums are exact and wrap around at [2^63], which no
    statement below covers. *)
Inductive value : Type :=
| VNum (x : float)
| VStr (s : string).

Definition isna (v : value) : bool :=
  match v with
  | VNum x => is_nan x
  | VStr _ => false
  end.

(** Elementwise [==]: NaN equals nothing, [0.0 == -0.0], a number never
    equals a string. This is also the equality under which [groupby]
    collects the rows of one group. *)
Definition value_eqb (a b : value) : bool :=
  match a, b with
  | VNum x, VNum y => (x =? y)%float
  | VStr s, VStr t => String.eqb s t
  | _, _ => false
  end.

(** The equality of [isin]'s hash table: as [==], and NaN matches NaN. *)
Definition value_same (a b : value) : bool :=
  value_eqb a b || (isna a && isna b).

(** The order [groupby] sorts its keys by: numbers by [<], strings
    lexicographically by code, numbers before strings. *)
Definition value_ltb (a b : value) : bool :=
  match a, b with
  | VNum x, VNum y => (x <? y)%float
  | VStr s, VStr t => String.ltb s t
  | VNum _, VStr _ => true
  | VStr _, VNum _ => false
  end.

(** Column names: a plain name, a two-level name (the columns of an
    aggregation by a list of functions), or a boolean (the columns of a
    cross-tabulation against a condition). *)
Inductive colname : Type :=
| Name (s : string)
| Name2 (s t : string)
| NameB (b : bool).

Definition colname_eqb (a b : colname) : bool :=
  match a, b with
  | Name s, Name t => String.eqb s t
  | Name2 s1 s2, Name2 t1 t2 => String.eqb s1 t1 && String.eqb s2 t2
  | NameB x, NameB y => Bool.eqb x y
  | _, _ => false
  end.

(** Index labels: a row number, or a group key (the index of an
    aggregation before [reset_index]). *)
Inductive label : Type :=
| LInt (z : Z)
| LKey (v : value).

Record Row : Type := mkRow {
  label_of : label;
  cells : list (colname * value)
}.

Record DataFrame : Type := mkDF {
  columns : list colname;
  rows : list Row
}.

Fixpoint lookup (c : colname) (kvs : list (colname * value)) : option value :=
  match kvs with
  | [] => None
  | (k, v) :: kvs' => if colname_eqb c k then Some v else lookup c kvs'
  end.

(** The value of column [c] in a row; an entry the row does not carry is
    missing (NaN), as in a table built from records. *)
Definition cell (r : Row) (c : colname) : value :=
  match lookup c (cells r) with
  | Some v => v
  | None => VNum nan
  end.

(** The number held by column [c] of a row, NaN for a string. *)
Definition num_cell (r : Row) (c : colname) : float :=
  match cell r c with
  | VNum x => x
  | VStr _ => nan
  end.

Definition has_column (df : DataFrame) (c : colname) : bool :=
  existsb (colname_eqb c) (columns df).

(* ----------------------------------------------------------------- *)
(** ** Exceptions *)

(** [KeyError c] is a [KeyError] that names the column [c];
    [KeyErrors cs] is one [KeyError] that names several columns. *)
Inductive error : Type :=
| KeyError (c : colname)
| KeyErrors (cs : list colname)
| TypeError
| ValueError
| ReferenceError.

Inductive res (A : Type) : Type :=
| Ok (a : A)
| Raise (e : error).

Arguments Ok {A} a.
Arguments Raise {A} e.

Definition bind {A B : Type} (m : res A) (f : A -> res B) : res B :=
  match m with
  | Ok a => f a
  | Raise e => Raise e
  end.

Notation "x <- m ;; k" := (bind m (fun x => k))
  (at level 61, m at next level, right associativity).

Fixpoint mapM {A B : Type} (f : A -> res B) (l : list A) : res (list B) :=
  match l with
  | [] => Ok []
  | a :: l' => b <- f a ;; bs <- mapM f l' ;; Ok (b :: bs)
  end.

(* ----------------------------------------------------------------- *)
(** ** pandas: series *)

(** A series of numbers out of a column; a string in it is a type error
    for the arithmetic and the reductions below. *)
Definition as_float (v : value) : res float :=
  match v with
  | VNum x => Ok x
  | VStr _ => Raise TypeError
  end.

Definition to_numeric (s : list value) : res (list float) := mapM as_float s.

(** numpy's sum of an array of binary64 numbers ([np.add.reduce]), by
    pairwise summation. Fewer than 8 items are added in turn. Up to 128
    items go to 8 accumulators, item [i] to accumulator [i mod 8] as long
    as a whole block of 8 is left; the accumulators are added two by two,
    and the items left over are added in turn. More than 128 items are cut
    in two parts, the first of a length that is a multiple of 8, which are
    summed apart and added. *)
Fixpoint add_lists (r a : list float) : list float :=
  match r, a with
  | x :: r', y :: a' => (x + y)%float :: add_lists r' a'
  | _, _ => r
  end.

Fixpoint accumulate (blocks : nat) (r a : list float)
  : list float * list float :=
  match blocks with
  | O => (r, a)
  | S b => accumulate b (add_lists r (firstn 8 a)) (skipn 8 a)
  end.

Definition unrolled_sum (a : list float) : float :=
  let n := length a in
  let '(r, rest) := accumulate (n / 8 - 1) (firstn 8 a) (skipn 8 a) in
  let r_ i := nth i r 0%float in
  fold_left add rest
    (((r_ 0%nat + r_ 1%nat) + (r_ 2%nat + r_ 3%nat))
     + ((r_ 4%nat + r_ 5%nat) + (r_ 6%nat + r_ 7%nat)))%float.

(** The recursion halves the array: its depth is below the length, which
    is the [fuel] given by [numpy_sum]. *)
Fixpoint pairwise_sum (fuel : nat) (a : list float) : float :=
  let n := length a in
  if n <? 8 then fold_left add a (-0)%float
  else if n <=? 128 then unrolled_sum a
  else
    match fuel with
    | O => unrolled_sum a
    | S fuel' =>
        let n2 := n / 2 - (n / 2) mod 8 in
        (pairwise_sum fuel' (firstn n2 a)
         + pairwise_sum fuel' (skipn n2 a))%float
    end.

(** The sum of no item is 0; otherwise the reduction starts from -0, under
    which the sum of negative zeros is a negative zero. *)
Definition numpy_sum (a : list float) : float :=
  match a with
  | [] => 0%float
  | _ :: _ => (-0 + pairwise_sum (length a) a)%float
  end.

(** [Series.sum()] on a series of numbers (pandas' [nansum]): the missing
    values are replaced by 0 and the array is summed by numpy. *)
Definition series_sum (xs : list float) : float :=
  numpy_sum (map (fun x => if is_nan x then 0%float else x) xs).

(** [Series.count()]: the number of values that are not missing. *)
Definition series_count (xs : list float) : nat :=
  length (filter notna xs).

(** [Series.mean()] on a series of numbers (pandas' [nanmean]): the sum
    over the number of values that are not missing, NaN when there is
    none. *)
Definition series_mean (xs : list float) : float :=
  if Nat.eqb (series_count xs) 0 then nan
  else (series_sum xs / float_of_nat (series_count xs))%float.

(** The concatenation of a series of strings. *)
Fixpoint concat_strings (s : list value) : res string :=
  match s with
  | [] => Ok EmptyString
  | VStr t :: s' => u <- concat_strings s' ;; Ok (t ++ u)%string
  | VNum _ :: _ => Raise TypeError
  end.

(** [Series.sum()] on a column: the numeric sum of a series of numbers;
    on a series that holds a string, the sum is by [+] from left to right,
    which concatenates strings and is a type error between a string and a
    number. *)
Definition sum_of_series (s : list value) : res value :=
  match to_numeric s with
  | Ok xs => Ok (VNum (series_sum xs))
  | Raise _ => t <- concat_strings s ;; Ok (VStr t)
  end.

(** [Series.mean()] on a column: a string in it is a type error. *)
Definition mean_of_series (s : list value) : res value :=
  xs <- to_numeric s ;; Ok (VNum (series_mean xs)).

(** The sum of a group in a [groupby] (pandas' [group_sum]): the values
    that are not missing are added in turn with Kahan's compensation, a
    compensation that is NaN being reset to 0; the sum of nothing is 0. *)
Definition kahan_add (st : float * float) (val : float) : float * float :=
  let '(sumx, compensation) := st in
  let y := (val - compensation)%float in
  let t := (sumx + y)%float in
  let c := (t - sumx - y)%float in
  (t, if is_nan c then 0%float else c).

Definition group_sum (xs : list float) : float :=
  fst (fold_left kahan_add (filter notna xs) (0%float, 0%float)).

(** The mean of a group in a [groupby] (pandas' [group_mean]): the same
    compensated sum over the number of values that are not missing, NaN
    when there is none. *)
Definition group_mean (xs : list float) : float :=
  if Nat.eqb (series_count xs) 0 then nan
  else (group_sum xs / float_of_nat (series_count xs))%float.

(** [s == condition] *)
Definition series_eq (s : list value) (condition : value) : list bool :=
  map (fun v => value_eqb v condition) s.

(** [s.isin(values)] *)
Definition isin (s : list value) (values : list value) : list bool :=
  map (fun v => existsb (value_same v) values) s.

(** [s > threshold] *)
Definition series_gt (s : list value) (threshold : float) : res (list bool) :=
  xs <- to_numeric s ;; Ok (map (fun x => (threshold <? x)%float) xs).

Fixpoint zip_with {A B C : Type} (f : A -> B -> C) (l : list A) (m : list B)
  : res (list C) :=
  match l, m with
  | [], [] => Ok []
  | a :: l', b :: m' => cs <- zip_with f l' m' ;; Ok (f a b :: cs)
  | _, _ => Raise ValueError
  end.

(** [a - b] and [a / b] on two series of one table, [a * k] by a scalar. *)
Definition series_sub (a b : list value) : res (list value) :=
  xs <- to_numeric a ;; ys <- to_numeric b ;;
  zip_with (fun x y => VNum (x - y)%float) xs ys.

Definition series_div (a b : list value) : res (list value) :=
  xs <- to_numeric a ;; ys <- to_numeric b ;;
  zip_with (fun x y => VNum (x / y)%float) xs ys.

Definition series_mul (a : list value) (k : float) : res (list value) :=
  xs <- to_numeric a ;; Ok (map (fun x => VNum (x * k)%float) xs).

(* ----------------------------------------------------------------- *)
(** ** pandas: tables *)

(** [df[c]]: the column as a series, [KeyError] when there is none. *)
Definition getitem (df : DataFrame) (c : colname) : res (list value) :=
  if has_column df c then Ok (map (fun r => cell r c) (rows df))
  else Raise (KeyError c).

Fixpoint select_mask {A : Type} (mask : list bool) (xs : list A) : list A :=
  match mask, xs with
  | b :: mask', x :: xs' =>
      if b then x :: select_mask mask' xs' else select_mask mask' xs'
  | _, _ => []
  end.

(** [df[mask]]: the rows the boolean mask keeps, labels and order kept. *)
Definition getitem_mask (df : DataFrame) (mask : list bool) : DataFrame :=
  mkDF (columns df) (select_mask mask (rows df)).

(** [df.copy()] *)
Definition copy (df : DataFrame) : DataFrame :=
  mkDF (columns df) (rows df).

Fixpoint set_cell (c : colname) (v : value) (kvs : list (colname * value))
  : list (colname * value) :=
  match kvs with
  | [] => [(c, v)]
  | (k, w) :: kvs' =>
      if colname_eqb c k then (k, v) :: kvs' else (k, w) :: set_cell c v kvs'
  end.

(** [df[c] = s]: the column is replaced, or added as the last one. *)
Definition setitem (df : DataFrame) (c : colname) (s : list value)
  : res DataFrame :=
  rs <- zip_with (fun r v => mkRow (label_of r) (set_cell c v (cells r)))
          (rows df) s ;;
  Ok (mkDF (if has_column df c then columns df else columns df ++ [c]) rs).

Definition label_value (l : label) : value :=
  match l with
  | LInt z => VNum (float_of_Z z)
  | LKey v => v
  end.

Definition renumber (f : label -> list (colname * value) -> list (colname * value))
  (rs : list Row) : list Row :=
  map (fun ir => mkRow (LInt (Z.of_nat (fst ir))) (f (label_of (snd ir)) (cells (snd ir))))
      (combine (seq 0 (length rs)) rs).

(** [df.reset_index()]: the index becomes the first column, under [name],
    and the rows are numbered from 0; an error when the table already has
    a column of that name. *)
Definition reset_index (df : DataFrame) (name : colname) : res DataFrame :=
  if has_column df name then Raise ValueError
  else Ok (mkDF (name :: columns df)
                (renumber (fun l cs => (name, label_value l) :: cs) (rows df))).

(** [df.reset_index(drop=True)]: the index is dropped and the rows are
    numbered from 0. *)
Definition reset_index_drop (df : DataFrame) : DataFrame :=
  mkDF (columns df) (renumber (fun _ cs => cs) (rows df)).

(** [xs[indexer]] *)
Definition take {A : Type} (xs : list A) (indexer : list nat) : list A :=
  flat_map (fun i => match nth_error xs i with
                     | Some x => [x]
                     | None => []
                     end) indexer.

(* ----------------------------------------------------------------- *)
(** ** pandas: grouping *)

(** The groups of a [groupby]: the distinct keys in ascending order, each
    with its members in the order of the table. *)
Fixpoint add_to_group {A : Type} (k : value) (x : A)
  (gs : list (value * list A)) : list (value * list A) :=
  match gs with
  | [] => [(k, [x])]
  | (k', xs) :: gs' =>
      if value_eqb k k' then (k', xs ++ [x]) :: gs'
      else if value_ltb k k' then (k, [x]) :: gs
      else (k', xs) :: add_to_group k x gs'
  end.

Definition group_step {A : Type} (key : A -> value)
  (gs : list (value * list A)) (x : A) : list (value * list A) :=
  if isna (key x) then gs else add_to_group (key x) x gs.

(** With the defaults [sort=True] and [dropna=True]: the keys are sorted,
    and a row whose key is missing belongs to no group. *)
Definition group_by {A : Type} (key : A -> value) (xs : list A)
  : list (value * list A) :=
  fold_left (group_step key) xs [].

(** [df.groupby(c)] *)
Definition groupby (df : DataFrame) (c : colname)
  : res (list (value * list Row)) :=
  if has_column df c then Ok (group_by (fun r => cell r c) (rows df))
  else Raise (KeyError c).

Inductive aggfun : Type := AggSum | AggMean.

Definition agg_name (f : aggfun) : string :=
  match f with
  | AggSum => "sum"
  | AggMean => "mean"
  end.

Definition apply_agg (f : aggfun) (xs : list float) : float :=
  match f with
  | AggSum => group_sum xs
  | AggMean => group_mean xs
  end.

(** One cell of an aggregation: column [c] of the rows of a group reduced
    by [f]. *)
Definition agg_cell (f : aggfun) (c : colname) (g : list Row) : res value :=
  xs <- to_numeric (map (fun r => cell r c) g) ;;
  Ok (VNum (apply_agg f xs)).

(** The columns of a list without repetition, each at its first place. *)
Fixpoint dedup (cs : list colname) : list colname :=
  match cs with
  | [] => []
  | c :: cs' => c :: filter (fun d => negb (colname_eqb d c)) (dedup cs')
  end.

(** The columns of [cs] that the table does not have. *)
Definition missing_columns (df : DataFrame) (cs : list colname)
  : list colname :=
  dedup (filter (fun c => negb (has_column df c)) cs).

(** The order of column names: plain names by their strings. *)
Definition colname_leb (a b : colname) : bool :=
  match a, b with
  | Name s, Name t => String.leb s t
  | Name _, _ => true
  | Name2 _ _, Name _ => false
  | Name2 s1 s2, Name2 t1 t2 =>
      String.ltb s1 t1 || (String.eqb s1 t1 && String.leb s2 t2)
  | Name2 _ _, NameB _ => true
  | NameB x, NameB y => implb x y
  | NameB _, _ => false
  end.

Fixpoint insert_column (c : colname) (cs : list colname) : list colname :=
  match cs with
  | [] => [c]
  | d :: cs' =>
      if colname_leb c d then c :: cs else d :: insert_column c cs'
  end.

Definition sort_columns (cs : list colname) : list colname :=
  fold_right insert_column [] cs.

(** One [KeyError] for the columns that are missing, if any. *)
Definition raise_missing (cs : list colname) : res unit :=
  match cs with
  | [] => Ok tt
  | [c] => Raise (KeyError c)
  | _ :: _ :: _ => Raise (KeyErrors cs)
  end.

(** The selection [grouped[cs]] of columns of a grouped table: a
    [KeyError] names every column of [cs] that the table does not have.
    Python lists them in the order of a set, which is not fixed; they are
    here in the order of [cs]. *)
Definition require_columns (df : DataFrame) (cs : list colname) : res unit :=
  raise_missing (missing_columns df cs).

(** [.agg(...)] of a grouped table: one row per group, labelled by its key,
    with one column per entry [(out, c, f)] of [spec], holding [f] of
    column [c]. A [KeyError] names, in sorted order, the columns to
    aggregate that the table does not have. *)
Definition agg (df : DataFrame) (gs : list (value * list Row))
  (spec : list (colname * colname * aggfun)) : res DataFrame :=
  _ <- raise_missing
         (sort_columns
            (missing_columns df (map (fun e => snd (fst e)) spec))) ;;
  rs <- mapM (fun kg =>
          cs <- mapM (fun e =>
                  v <- agg_cell (snd e) (snd (fst e)) (snd kg) ;;
                  Ok (fst (fst e), v)) spec ;;
          Ok (mkRow (LKey (fst kg)) cs)) gs ;;
  Ok (mkDF (map (fun e => fst (fst e)) spec) rs).

(** [pd.crosstab(a, b)] for a series [a] and a boolean series [b]: the
    counts of the pairs, one row per value of [a] and one column per value
    of [b] that occurs. *)
Definition crosstab (a : list value) (b : list bool) : DataFrame :=
  let pairs := filter (fun p => negb (isna (fst p))) (combine a b) in
  let gs := group_by fst pairs in
  let cols := filter (fun c => existsb (fun p => Bool.eqb (snd p) c) pairs)
                [false; true] in
  mkDF (map NameB cols)
       (map (fun kg =>
          mkRow (LKey (fst kg))
            (map (fun c =>
               (NameB c,
                VNum (float_of_nat
                        (length (filter (fun p => Bool.eqb (snd p) c) (snd kg))))))
               cols)) gs).

(* ----------------------------------------------------------------- *)
(** ** pandas: sorting *)

Section Sorting.

(** numpy's [argsort] with the default [kind='quicksort']: the positions
    of the items in ascending order of the items. The order it gives to
    equal items is not part of its contract. *)
Variable argsort : list float -> list nat.

(** The indexer of [sort_values] on one column (pandas' [nargsort]):
    the missing values are set apart and go last; for a descending sort
    the items are reversed, sorted in ascending order, and the result is
    reversed. *)
Definition nargsort (items : list float) (ascending : bool) : list nat :=
  let idx := seq 0 (length items) in
  let mask := map is_nan items in
  let non_nans := select_mask (map negb mask) items in
  let non_nan_idx := select_mask (map negb mask) idx in
  let nan_idx := select_mask mask idx in
  let non_nans := if ascending then non_nans else rev non_nans in
  let non_nan_idx := if ascending then non_nan_idx else rev non_nan_idx in
  let indexer := take non_nan_idx (argsort non_nans) in
  let indexer := if ascending then indexer else rev indexer in
  indexer ++ nan_idx.

(** [df.sort_values(by=c, ascending=...)] on a numeric column. *)
Definition sort_values (df : DataFrame) (c : colname) (ascending : bool)
  : res DataFrame :=
  k <- getitem df c ;;
  items <- to_numeric k ;;
  Ok (mkDF (columns df) (take (rows df) (nargsort items ascending))).

End Sorting.

(* ----------------------------------------------------------------- *)
(** ** The toolkit: statistical tests *)

(** The result record of the four test runners. *)
Record TestResult : Type := mkTestResult {
  stat : float;
  p_value : float;
  significant : bool
}.

Section StatisticalTests.

(** [scipy.stats]: each routine is given the series as they are and
    returns its statistic and p-value, or raises. *)
Variable ttest_ind : list value -> list value -> res (float * float).
Variable chi2_contingency :
  DataFrame -> res (float * float * Z * list (list float)).
Variable f_oneway : list (list value) -> res (float * float).
Variable mannwhitneyu : list value -> list value -> res (float * float).

Definition perform_t_test (group_a group_b : DataFrame) (metric : string)
  : res TestResult :=
  a <- getitem group_a (Name metric) ;;
  b <- getitem group_b (Name metric) ;;
  r <- ttest_ind a b ;;
  let '(stat, p_value) := r in
  Ok (mkTestResult stat p_value (p_value <? 0.05)%float).

Definition perform_chi2_test (contingency_table : DataFrame)
  : res TestResult :=
  r <- chi2_contingency contingency_table ;;
  let '(stat, p_value, _, _) := r in
  Ok (mkTestResult stat p_value (p_value <? 0.05)%float).

Definition perform_anova_test (groups : list (list value))
  : res TestResult :=
  r <- f_oneway groups ;;
  let '(stat, p_value) := r in
  Ok (mkTestResult stat p_value (p_value <? 0.05)%float).

Definition perform_mannwhitneyu_test (group_a group_b : DataFrame)
  (metric : string) : res TestResult :=
  a <- getitem group_a (Name metric) ;;
  b <- getitem group_b (Name metric) ;;
  r <- mannwhitneyu a b ;;
  let '(stat, p_value) := r in
  Ok (mkTestResult stat p_value (p_value <? 0.05)%float).

End StatisticalTests.

(* ----------------------------------------------------------------- *)
(** ** The toolkit: data shaping *)

Definition generate_contingency_table (df : DataFrame)
  (column1 column2 : string) (threshold : float) : res DataFrame :=
  a <- getitem df (Name column1) ;;
  b <- getitem df (Name column2) ;;
  flags <- series_gt b threshold ;;
  Ok (crosstab a flags).

Definition segment_data (data : DataFrame) (column : string)
  (values_group_a values_group_b : list value)
  : res (DataFrame * DataFrame) :=
  sa <- getitem data (Name column) ;;
  let group_a := getitem_mask data (isin sa values_group_a) in
  sb <- getitem data (Name column) ;;
  let group_b := getitem_mask data (isin sb values_group_b) in
  Ok (group_a, group_b).

(** The entries of [.agg(["sum", "mean"])] over the selected metrics: for
    each metric, in turn, its sum and its mean, under two-level names. *)
Definition sum_mean_spec (metrics : list string)
  : list (colname * colname * aggfun) :=
  flat_map (fun m =>
    map (fun f => (Name2 m (agg_name f), Name m, f)) [AggSum; AggMean])
    metrics.

Definition aggregate_by_group (data : DataFrame) (group_column : string)
  (metrics : list string) : res DataFrame :=
  let data := copy data in
  gs <- groupby data (Name group_column) ;;
  _ <- require_columns data (map Name metrics) ;;
  _ <- match metrics with
       | [] => Raise ValueError
       | _ :: _ => Ok tt
       end ;;
  t <- agg data gs (sum_mean_spec metrics) ;;
  reset_index t (Name2 group_column "").

(** The scalar [compute_metric] returns, or [None]. *)
Definition compute_metric (data : DataFrame) (column : string)
  (condition : value) (metric_col : string) (operation : string)
  : res (option value) :=
  s <- getitem data (Name column) ;;
  let subset := getitem_mask data (series_eq s condition) in
  if String.eqb operation "mean" then
    m <- getitem subset (Name metric_col) ;;
    v <- mean_of_series m ;;
    Ok (Some v)
  else if String.eqb operation "sum" then
    m <- getitem subset (Name metric_col) ;;
    v <- sum_of_series m ;;
    Ok (Some v)
  else Ok None.

(* ----------------------------------------------------------------- *)
(** ** The toolkit: cost savings *)

Definition calculate_cost_savings (data : DataFrame)
  (group_col cost_col claim_col : string) : res DataFrame :=
  gs <- groupby data (Name group_col) ;;
  group_data <- agg data gs
    [(Name "TotalCost", Name cost_col, AggSum);
     (Name "TotalClaims", Name claim_col, AggSum)] ;;
  total_cost <- getitem group_data (Name "TotalCost") ;;
  total_claims <- getitem group_data (Name "TotalClaims") ;;
  potential <- series_sub total_cost total_claims ;;
  group_data <- setitem group_data (Name "SavingsPotential") potential ;;
  potential <- getitem group_data (Name "SavingsPotential") ;;
  total_cost <- getitem group_data (Name "TotalCost") ;;
  ratio <- series_div potential total_cost ;;
  percentage <- series_mul ratio 100 ;;
  group_data <- setitem group_data (Name "SavingsPercentage") percentage ;;
  reset_index group_data (Name group_col).

Section Ranking.

Variable argsort : list float -> list nat.

Definition rank_savings_opportunities (savings_summary : DataFrame)
  (threshold : float) : res DataFrame :=
  pct <- getitem savings_summary (Name "SavingsPercentage") ;;
  mask <- series_gt pct threshold ;;
  let filtered := getitem_mask savings_summary mask in
  sorted <- sort_values argsort filtered (Name "SavingsPercentage") false ;;
  Ok (reset_index_drop sorted).

End Ranking.

(** The default [threshold=0]. *)
Definition default_threshold : float := 0%float.

(* ----------------------------------------------------------------- *)
(** ** Sorting primitives *)

(** Insertion of position [i] into positions already sorted by their
    items: after the positions of equal items ([before_ties = false]) or
    before them ([before_ties = true]). *)
Fixpoint insert_pos (before_ties : bool) (xs : list float) (i : nat)
  (sorted : list nat) : list nat :=
  match sorted with
  | [] => [i]
  | j :: rest =>
      let xi := nth i xs nan in
      let xj := nth j xs nan in
      if (if before_ties then (xi <=? xj)%float else (xi <? xj)%float)
      then i :: sorted
      else j :: insert_pos before_ties xs i rest
  end.

Definition insertion_argsort (before_ties : bool) (xs : list float)
  : list nat :=
  fold_left (fun acc i => insert_pos before_ties xs i acc)
            (seq 0 (length xs)) [].

(** A stable [argsort] ([kind='stable']): equal items keep their order. *)
Definition stable_argsort : list float -> list nat :=
  insertion_argsort false.

(* ----------------------------------------------------------------- *)
(** ** numpy's default [argsort]

    [argsort] with [kind='quicksort'] on an array of binary64 numbers, as
    numpy's portable kernel does it (npysort, [aquicksort]): an introsort
    on the array [tosort] of the positions, which starts as [0 .. n-1].
    A range of more than 17 positions is partitioned around the median of
    its first, middle and last items; a range of at most 17 is sorted by
    insertion; and a range reached after more than [2 * log2 n] partitions
    is sorted by heapsort. numpy takes another kernel, which is not
    modelled, on processors for which it has a vectorized sort. *)




Section Quicksort.

Variable v : list float.

(** [v[tosort[p]]] *)
Definition key (t : list nat) (p : nat) : float := nth (nth p t 0) v nan.

















End Quicksort.


(* ----------------------------------------------------------------- *)
(** ** The statistic of the rank-sum test *)

Definition count_lt (pool : list float) (v : float) : Z :=
  Z.of_nat (length (filter (fun w => (w <? v)%float) pool)).

Definition count_eq (pool : list float) (v : float) : Z :=
  Z.of_nat (length (filter (fun w => (w =? v)%float) pool)).

(** Twice the rank of [v] in [pool], equal values sharing the average of
    their ranks (scipy's [rankdata]). *)
Definition rank2 (pool : list float) (v : float) : Z :=
  2 * count_lt pool v + count_eq pool v + 1.

Definition sumZ (l : list Z) : Z := fold_right Z.add 0%Z l.

(** Twice the statistic [mannwhitneyu] documents for its first sample:
    [U1 = R1 - n1 (n1 + 1) / 2], [R1] the sum of the ranks of [x] in the
    pooled sample. *)
Definition mannwhitneyu_U2 (x y : list float) : Z :=
  sumZ (map (rank2 (x ++ y)) x)
  - Z.of_nat (length x) * (Z.of_nat (length x) + 1).

Definition half (u : Z) : float := (float_of_Z u / 2)%float.

Definition mannwhitneyu_statistic (x y : list float) : float :=
  half (mannwhitneyu_U2 x y).

(** Test routines for the examples: one that returns the same statistic
    and p-value whatever the samples, and a rank-sum test with the
    documented statistic. *)
Definition constant_test {A B : Type} (s p : float)
  : A -> B -> res (float * float) :=
  fun _ _ => Ok (s, p).

Definition rank_sum_test (p : float) (a b : list value)
  : res (float * float) :=
  xs <- to_numeric a ;; ys <- to_numeric b ;;
  Ok (mannwhitneyu_statistic xs ys, p).

(* ----------------------------------------------------------------- *)
(** ** The toolkit over a store of tables

    The same functions with the tables held in a store and passed by
    reference, as Python passes them: an operation of pandas that returns
    a table allocates it, a column assignment writes the table it is
    applied to. *)

Module Heap.

Definition Store : Type := list DataFrame.

Definition M (A : Type) : Type := Store -> res A * Store.

Definition ret {A : Type} (a : A) : M A := fun s => (Ok a, s).

Definition lift {A : Type} (r : res A) : M A := fun s => (r, s).

Definition bindM {A B : Type} (m : M A) (f : A -> M B) : M B :=
  fun s =>
    match m s with
    | (Ok a, s') => f a s'
    | (Raise e, s') => (Raise e, s')
    end.

Notation "x <~ m ;; k" := (bindM m (fun x => k))
  (at level 61, m at next level, right associativity).

Definition read (l : nat) : M DataFrame :=
  fun s =>
    match nth_error s l with
    | Some d => (Ok d, s)
    | None => (Raise ReferenceError, s)
    end.

Definition alloc (d : DataFrame) : M nat :=
  fun s => (Ok (length s), s ++ [d]).

Definition write (l : nat) (d : DataFrame) : M unit :=
  fun s =>
    if l <? length s then (Ok tt, firstn l s ++ d :: skipn (S l) s)
    else (Raise ReferenceError, s).

(** pandas on references *)

Definition df_getitem (l : nat) (c : colname) : M (list value) :=
  d <~ read l ;; lift (getitem d c).

Definition df_getitem_mask (l : nat) (mask : list bool) : M nat :=
  d <~ read l ;; alloc (getitem_mask d mask).

Definition df_copy (l : nat) : M nat :=
  d <~ read l ;; alloc (copy d).

Definition df_setitem (l : nat) (c : colname) (s : list value) : M unit :=
  d <~ read l ;; d' <~ lift (setitem d c s) ;; write l d'.

Definition df_groupby (l : nat) (c : colname)
  : M (list (value * list Row)) :=
  d <~ read l ;; lift (groupby d c).

Definition df_agg (l : nat) (gs : list (value * list Row))
  (spec : list (colname * colname * aggfun)) : M nat :=
  d <~ read l ;; t <~ lift (agg d gs spec) ;; alloc t.

Definition df_reset_index (l : nat) (name : colname) : M nat :=
  d <~ read l ;; t <~ lift (reset_index d name) ;; alloc t.

Definition df_reset_index_drop (l : nat) : M nat :=
  d <~ read l ;; alloc (reset_index_drop d).

Definition df_sort_values (argsort : list float -> list nat) (l : nat)
  (c : colname) (ascending : bool) : M nat :=
  d <~ read l ;; t <~ lift (sort_values argsort d c ascending) ;; alloc t.

Definition df_require_columns (l : nat) (cs : list colname) : M unit :=
  d <~ read l ;; lift (require_columns d cs).

Section StatisticalTests.

Variable ttest_ind : list value -> list value -> res (float * float).
Variable chi2_contingency :
  DataFrame -> res (float * float * Z * list (list float)).
Variable f_oneway : list (list value) -> res (float * float).
Variable mannwhitneyu : list value -> list value -> res (float * float).

Definition perform_t_test (group_a group_b : nat) (metric : string)
  : M TestResult :=
  a <~ df_getitem group_a (Name metric) ;;
  b <~ df_getitem group_b (Name metric) ;;
  r <~ lift (ttest_ind a b) ;;
  let '(stat, p_value) := r in
  ret (mkTestResult stat p_value (p_value <? 0.05)%float).

Definition perform_chi2_test (contingency_table : nat) : M TestResult :=
  t <~ read contingency_table ;;
  r <~ lift (chi2_contingency t) ;;
  let '(stat, p_value, _, _) := r in
  ret (mkTestResult stat p_value (p_value <? 0.05)%float).

Definition perform_anova_test (groups : list (list value))
  : M TestResult :=
  r <~ lift (f_oneway groups) ;;
  let '(stat, p_value) := r in
  ret (mkTestResult stat p_value (p_value <? 0.05)%float).

Definition perform_mannwhitneyu_test (group_a group_b : nat)
  (metric : string) : M TestResult :=
  a <~ df_getitem group_a (Name metric) ;;
  b <~ df_getitem group_b (Name metric) ;;
  r <~ lift (mannwhitneyu a b) ;;
  let '(stat, p_value) := r in
  ret (mkTestResult stat p_value (p_value <? 0.05)%float).

End StatisticalTests.

Definition generate_contingency_table (df : nat) (column1 column2 : string)
  (threshold : float) : M nat :=
  a <~ df_getitem df (Name column1) ;;
  b <~ df_getitem df (Name column2) ;;
  flags <~ lift (series_gt b threshold) ;;
  alloc (crosstab a flags).

Definition segment_data (data : nat) (column : string)
  (values_group_a values_group_b : list value) : M (nat * nat) :=
  sa <~ df_getitem data (Name column) ;;
  group_a <~ df_getitem_mask data (isin sa values_group_a) ;;
  sb <~ df_getitem data (Name column) ;;
  group_b <~ df_getitem_mask data (isin sb values_group_b) ;;
  ret (group_a, group_b).

Definition aggregate_by_group (data : nat) (group_column : string)
  (metrics : list string) : M nat :=
  data <~ df_copy data ;;
  gs <~ df_groupby data (Name group_column) ;;
  _ <~ df_require_columns data (map Name metrics) ;;
  _ <~ lift (match metrics with
             | [] => Raise ValueError
             | _ :: _ => Ok tt
             end) ;;
  t <~ df_agg data gs (sum_mean_spec metrics) ;;
  df_reset_index t (Name2 group_column "").

Definition compute_metric (data : nat) (column : string)
  (condition : value) (metric_col : string) (operation : string)
  : M (option value) :=
  s <~ df_getitem data (Name column) ;;
  subset <~ df_getitem_mask data (series_eq s condition) ;;
  if String.eqb operation "mean" then
    m <~ df_getitem subset (Name metric_col) ;;
    v <~ lift (mean_of_series m) ;;
    ret (Some v)
  else if String.eqb operation "sum" then
    m <~ df_getitem subset (Name metric_col) ;;
    v <~ lift (sum_of_series m) ;;
    ret (Some v)
  else ret None.

Definition calculate_cost_savings (data : nat)
  (group_col cost_col claim_col : string) : M nat :=
  gs <~ df_groupby data (Name group_col) ;;
  group_data <~ df_agg data gs
    [(Name "TotalCost", Name cost_col, AggSum);
     (Name "TotalClaims", Name claim_col, AggSum)] ;;
  total_cost <~ df_getitem group_data (Name "TotalCost") ;;
  total_claims <~ df_getitem group_data (Name "TotalClaims") ;;
  potential <~ lift (series_sub total_cost total_claims) ;;
  _ <~ df_setitem group_data (Name "SavingsPotential") potential ;;
  potential <~ df_getitem group_data (Name "SavingsPotential") ;;
  total_cost <~ df_getitem group_data (Name "TotalCost") ;;
  ratio <~ lift (series_div potential total_cost) ;;
  percentage <~ lift (series_mul ratio 100) ;;
  _ <~ df_setitem group_data (Name "SavingsPercentage") percentage ;;
  df_reset_index group_data (Name group_col).

Definition rank_savings_opportunities (argsort : list float -> list nat)
  (savings_summary : nat) (threshold : float) : M nat :=
  pct <~ df_getitem savings_summary (Name "SavingsPercentage") ;;
  mask <~ lift (series_gt pct threshold) ;;
  filtered <~ df_getitem_mask savings_summary mask ;;
  sorted <~ df_sort_values argsort filtered (Name "SavingsPercentage") false ;;
  df_reset_index_drop sorted.

End Heap.

(* ----------------------------------------------------------------- *)
(** ** Example data *)

Definition province_rows : list Row :=
  [ mkRow (LInt 0) [(Name "Province", VStr "A");
                    (Name "TotalPremium", VNum 100);
                    (Name "TotalClaims", VNum 40)];
    mkRow (LInt 1) [(Name "Province", VStr "A");
                    (Name "TotalPremium", VNum 50);
                    (Name "TotalClaims", VNum 30)];
    mkRow (LInt 2) [(Name "Province", VStr "B");
                    (Name "TotalPremium", VNum 200);
                    (Name "TotalClaims", VNum 250)] ].

(** The three rows of the specification's example. *)
Definition province_data : DataFrame :=
  mkDF [Name "Province"; Name "TotalPremium"; Name "TotalClaims"]
       province_rows.

(* ----------------------------------------------------------------- *)
(** ** Comparison of values *)

(** The comparison behind [value_eqb] and [value_ltb]: [None] when a
    missing value is involved. *)
Definition vcmp (a b : value) : option comparison :=
  match a, b with
  | VNum x, VNum y => fcmp x y
  | VStr s, VStr t => Some (String.compare s t)
  | VNum x, VStr _ => if is_nan x then None else Some Lt
  | VStr _, VNum y => if is_nan y then None else Some Gt
  end.

(** Two sets of values are disjoint when no value of one is matched by a
    value of the other. *)
Definition disjoint_values (A B : list value) : Prop :=
  forall a b, In a A -> In b B -> value_same a b = false.

(** Membership of a row's value in a set of values, as [isin] tests it. *)
Definition row_isin (c : colname) (values : list value) (r : Row) : bool :=
  existsb (value_same (cell r c)) values.

(* ----------------------------------------------------------------- *)
(** ** Groups *)

(** The order of the groups of a [groupby]: strictly ascending keys. *)
Definition keys_lt {A : Type} (g h : value * list A) : Prop :=
  value_ltb (fst g) (fst h) = true.

(** The members of the group of key [k]: the items whose key equals [k],
    in their order. *)
Definition members {A : Type} (key : A -> value) (k : value) (xs : list A)
  : list A :=
  filter (fun x => value_eqb (key x) k) xs.

(** A group whose key is not missing. *)
Definition key_present {A : Type} (g : value * list A) : Prop :=
  isna (fst g) = false.

(* ----------------------------------------------------------------- *)
(** ** Cost savings: the summary row of a group *)

(** A column is numeric when every row holds a number in it. *)
Definition numeric_column (df : DataFrame) (c : colname) : Prop :=
  forall r, In r (rows df) -> exists x, cell r c = VNum x.

(** The names [calculate_cost_savings] gives its output columns. *)
Definition summary_names : list string :=
  ["TotalCost"; "TotalClaims"; "SavingsPotential"; "SavingsPercentage"]%string.

(** The cells [calculate_cost_savings] computes for a group of rows. *)
Definition summary_cells (cost_col claim_col : string) (g : list Row)
  : list (colname * value) :=
  let total_cost := group_sum (map (fun r => num_cell r (Name cost_col)) g) in
  let total_claims :=
    group_sum (map (fun r => num_cell r (Name claim_col)) g) in
  [(Name "TotalCost", VNum total_cost);
   (Name "TotalClaims", VNum total_claims);
   (Name "SavingsPotential", VNum (total_cost - total_claims)%float);
   (Name "SavingsPercentage",
    VNum ((total_cost - total_claims) / total_cost * 100)%float)].

(** The rows of a table numbered from 0. *)
Definition range_labels (n : nat) : list label :=
  map (fun i => LInt (Z.of_nat i)) (seq 0 n).

(** The table the specification's example expects for the three rows. *)
Definition province_summary : DataFrame :=
  mkDF [Name "Province"; Name "TotalCost"; Name "TotalClaims";
        Name "SavingsPotential"; Name "SavingsPercentage"]
       [ mkRow (LInt 0) [(Name "Province", VStr "A");
                         (Name "TotalCost", VNum 150);
                         (Name "TotalClaims", VNum 70);
                         (Name "SavingsPotential", VNum 80);
                         (Name "SavingsPercentage", VNum (80 / 150 * 100)%float)];
         mkRow (LInt 1) [(Name "Province", VStr "B");
                         (Name "TotalCost", VNum 200);
                         (Name "TotalClaims", VNum 250);
                         (Name "SavingsPotential", VNum (-50));
                         (Name "SavingsPercentage", VNum (-25))] ].

(** Two rows of one group, the metric of the second one missing. *)
Definition missing_metric_data : DataFrame :=
  mkDF [Name "g"; Name "m"]
       [ mkRow (LInt 0) [(Name "g", VStr "A"); (Name "m", VNum 1)];
         mkRow (LInt 1) [(Name "g", VStr "A"); (Name "m", VNum nan)] ].

(** The columns of [aggregate_by_group]: the group column, then the sum and
    the mean of each metric. *)
Definition aggregate_columns (group_column : string) (metrics : list string)
  : list colname :=
  Name2 group_column ""
  :: flat_map (fun m => [Name2 m "sum"; Name2 m "mean"]) metrics.

(* ----------------------------------------------------------------- *)
(** ** The contract of [argsort] *)

(** The item at a position. *)
Definition item (xs : list float) (i : nat) : float := nth i xs nan.

Definition ascending_at (xs : list float) (i j : nat) : Prop :=
  (item xs i <=? item xs j)%float = true.

Definition descending_at (xs : list float) (i j : nat) : Prop :=
  (item xs j <=? item xs i)%float = true.

(** Positions of equal items are in increasing order. *)
Definition ties_in_order (xs : list float) (i j : nat) : Prop :=
  (item xs i =? item xs j)%float = true -> i < j.

(** What any [kind] of [argsort] gives on items without NaN: each position
    once, in ascending order of the items. *)
Record ArgsortContract (argsort : list float -> list nat) : Prop := {
  argsort_perm :
    forall xs, forallb notna xs = true ->
               Permutation (argsort xs) (seq 0 (length xs));
  argsort_sorted :
    forall xs, forallb notna xs = true ->
               StronglySorted (ascending_at xs) (argsort xs)
}.

(** What a stable [kind] gives besides. *)
Definition StableArgsort (argsort : list float -> list nat) : Prop :=
  forall xs, forallb notna xs = true ->
             StronglySorted (ties_in_order xs) (argsort xs).

(** The same, of one array of items: [argsort] sorts it, and keeps the
    positions of its equal items in order. *)
Definition SortsItems (argsort : list float -> list nat) (ys : list float)
  : Prop :=
  Permutation (argsort ys) (seq 0 (length ys))
  /\ StronglySorted (ascending_at ys) (argsort ys).

Definition KeepsTies (argsort : list float -> list nat) (ys : list float)
  : Prop :=
  StronglySorted (ties_in_order ys) (argsort ys).

(** The savings percentage of a row, and the filter of
    [rank_savings_opportunities]. *)
Definition percentage (r : Row) : float :=
  num_cell r (Name "SavingsPercentage").

Definition above (threshold : float) (r : Row) : bool :=
  (threshold <? percentage r)%float.

(** The rows of a table whose percentage is tied with [k], by their
    cells. *)
Definition tied_cells (k : float) (rs : list Row)
  : list (list (colname * value)) :=
  map cells (filter (fun r => (percentage r =? k)%float) rs).


(* ----------------------------------------------------------------- *)
(** ** The contracts of the statistical routines *)

(** A probability. *)
Definition unit_interval (p : float) : Prop :=
  (0 <=? p)%float = true /\ (p <=? 1)%float = true.

(** The p-value of a routine of scipy: a probability, or NaN when the
    statistic is not defined on the samples, as for two samples of one
    observation each. *)
Definition p_value_range (p : float) : Prop :=
  unit_interval p \/ is_nan p = true.

Section Routines.

Variable ttest_ind : list value -> list value -> res (float * float).
Variable chi2_contingency :
  DataFrame -> res (float * float * Z * list (list float)).
Variable f_oneway : list (list value) -> res (float * float).
Variable mannwhitneyu : list value -> list value -> res (float * float).

(** The results of the four test runners. *)
Inductive returned : TestResult -> Prop :=
| returned_t_test group_a group_b metric r :
    perform_t_test ttest_ind group_a group_b metric = Ok r -> returned r
| returned_chi2_test contingency_table r :
    perform_chi2_test chi2_contingency contingency_table = Ok r -> returned r
| returned_anova_test groups r :
    perform_anova_test f_oneway groups = Ok r -> returned r
| returned_mannwhitneyu_test group_a group_b metric r :
    perform_mannwhitneyu_test mannwhitneyu group_a group_b metric = Ok r ->
    returned r.

(** Each routine returns a probability, or NaN, as its p-value. *)
Record PValueContract : Prop := {
  ttest_ind_p :
    forall a b s p, ttest_ind a b = Ok (s, p) -> p_value_range p;
  chi2_contingency_p :
    forall t s p d e, chi2_contingency t = Ok (s, p, d, e) -> p_value_range p;
  f_oneway_p :
    forall gs s p, f_oneway gs = Ok (s, p) -> p_value_range p;
  mannwhitneyu_p :
    forall a b s p, mannwhitneyu a b = Ok (s, p) -> p_value_range p
}.

End Routines.

(** The claim on the range: every result of a runner has its p-value in
    [0, 1]. *)
Definition p_values_in_unit_interval
  (ttest_ind : list value -> list value -> res (float * float)) : Prop :=
  forall chi2_contingency f_oneway mannwhitneyu r,
    returned ttest_ind chi2_contingency f_oneway mannwhitneyu r ->
    unit_interval (p_value r).

(** Two samples of one observation each. *)
Definition single_a : DataFrame :=
  mkDF [Name "m"] [ mkRow (LInt 0) [(Name "m", VNum 1)] ].

Definition single_b : DataFrame :=
  mkDF [Name "m"] [ mkRow (LInt 0) [(Name "m", VNum 2)] ].

(** Equality of two statistics as numbers ([0.0] and [-0.0] are equal),
    two undefined statistics being the same. *)
Definition float_same (x y : float) : Prop :=
  (x =? y)%float = true \/ (is_nan x = true /\ is_nan y = true).

(** The two-sided Welch test on swapped samples: the same p-value and the
    opposite statistic. *)
Definition TTestSwap
  (ttest_ind : list value -> list value -> res (float * float)) : Prop :=
  forall a b s p,
    ttest_ind a b = Ok (s, p) ->
    exists s', ttest_ind b a = Ok (s', p) /\ float_same s' (- s)%float.

(** The two-sided rank-sum test on two samples of numbers, none missing
    and none empty: the statistic is the documented one, of the first
    sample, and the p-value is the same when the samples are swapped. *)
Definition MannWhitneyContract
  (mannwhitneyu : list value -> list value -> res (float * float)) : Prop :=
  forall xs ys,
    forallb notna xs = true -> forallb notna ys = true ->
    xs <> [] -> ys <> [] ->
    exists p,
      mannwhitneyu (map VNum xs) (map VNum ys)
      = Ok (mannwhitneyu_statistic xs ys, p)
      /\ mannwhitneyu (map VNum ys) (map VNum xs)
         = Ok (mannwhitneyu_statistic ys xs, p).

(** A column of numbers, none missing. *)
Definition complete_column (df : DataFrame) (c : colname) : Prop :=
  forall r, In r (rows df) -> exists x, cell r c = VNum x /\ notna x = true.

(** The claim on the rank-sum test: swapping the groups negates the
    statistic. *)
Definition swap_negates_statistic
  (mannwhitneyu : list value -> list value -> res (float * float)) : Prop :=
  forall group_a group_b metric r r',
    perform_mannwhitneyu_test mannwhitneyu group_a group_b metric = Ok r ->
    perform_mannwhitneyu_test mannwhitneyu group_b group_a metric = Ok r' ->
    (stat r' =? - stat r)%float = true.

(** The score of [w] against [v]: 2 when below, 1 when tied, else 0. *)
Definition score (v w : float) : Z :=
  (if (w <? v)%float then 2 else 0) + (if (w =? v)%float then 1 else 0).

Definition double_sum (f : float -> float -> Z) (x y : list float) : Z :=
  sumZ (map (fun v => sumZ (map (f v) y)) x).

(** Two samples for the rank-sum test. *)
Definition sample_a : DataFrame :=
  mkDF [Name "m"]
       [ mkRow (LInt 0) [(Name "m", VNum 1)];
         mkRow (LInt 1) [(Name "m", VNum 2)];
         mkRow (LInt 2) [(Name "m", VNum 5)] ].

Definition sample_b : DataFrame :=
  mkDF [Name "m"]
       [ mkRow (LInt 0) [(Name "m", VNum 3)];
         mkRow (LInt 1) [(Name "m", VNum 4)] ].

(* ----------------------------------------------------------------- *)
(** ** The frame condition on the store *)

(** A computation leaves the first [n] tables of the store as they are,
    and its result satisfies [Q]. *)
Definition preserves {A : Type} (n : nat) (Q : A -> Prop) (m : Heap.M A)
  : Prop :=
  forall s, n <= length s ->
    firstn n (snd (m s)) = firstn n s
    /\ n <= length (snd (m s))
    /\ forall a, fst (m s) = Ok a -> Q a.

(** A reference allocated after the first [n] tables. *)
Definition fresh (n : nat) (l : nat) : Prop := n <= l.

Definition anything {A : Type} (_ : A) : Prop := True.

(* ----------------------------------------------------------------- *)
(** ** The store-passing toolkit against the toolkit on values *)

(** The outcome of a call that returns a reference: the reference holds
    the table the function on values returns, or both raise the same
    exception. *)
Definition returns_table (out : res nat * Heap.Store) (r : res DataFrame)
  : Prop :=
  match fst out, r with
  | Ok l, Ok t => nth_error (snd out) l = Some t
  | Raise e, Raise e' => e = e'
  | _, _ => False
  end.

(** The same for a call that returns two references. *)
Definition returns_tables (out : res (nat * nat) * Heap.Store)
  (r : res (DataFrame * DataFrame)) : Prop :=
  match fst out, r with
  | Ok (la, lb), Ok (ta, tb) =>
      nth_error (snd out) la = Some ta /\ nth_error (snd out) lb = Some tb
  | Raise e, Raise e' => e = e'
  | _, _ => False
  end.

(** The outcome of a call that returns a value: the value, or the
    exception, of the function on values. *)
Definition returns_value {A : Type} (out : res A * Heap.Store) (r : res A)
  : Prop :=
  fst out = r.

(** The outcome of an operation that allocates the table [r], when there
    is one. *)
Definition allocated (s : Heap.Store) (r : res DataFrame)
  : res nat * Heap.Store :=
  match r with
  | Ok t => (Ok (length s), s ++ [t])
  | Raise e => (Raise e, s)
  end.

(* ----------------------------------------------------------------- *)
(** ** Cross-tabulation against a threshold *)

(** The key of a row of a grouped table: the value its label holds. *)
Definition key_of (r : Row) : value := label_value (label_of r).

(** Whether a row's value in [column2] is above the threshold: the flag
    [generate_contingency_table] tabulates. *)
Definition exceeds (column2 : string) (threshold : float) (r : Row) : bool :=
  (threshold <? num_cell r (Name column2))%float.

(** The number of rows of a table with the key [k] in [column1] and the
    flag [b]. *)
Definition cross_count (df : DataFrame) (column1 column2 : string)
  (threshold : float) (k : value) (b : bool) : nat :=
  length
    (filter (fun r => value_eqb (cell r (Name column1)) k
                      && Bool.eqb (exceeds column2 threshold r) b)
       (rows df)).



(* ----------------------------------------------------------------- *)
(** ** The columns a [KeyError] names *)

Definition is_key_error (e : error) : bool :=
  match e with
  | KeyError _ | KeyErrors _ => true
  | _ => false
  end.

Definition named_columns (e : error) : list colname :=
  match e with
  | KeyError c => [c]
  | KeyErrors cs => cs
  | _ => []
  end.

(** Two provinces without premium, one of them without claims, and a
    third with both. *)
Definition zero_cost_data : DataFrame :=
  mkDF [Name "Province"; Name "TotalPremium"; Name "TotalClaims"]
       [ mkRow (LInt 0) [(Name "Province", VStr "A");
                         (Name "TotalPremium", VNum 0);
                         (Name "TotalClaims", VNum 10)];
         mkRow (LInt 1) [(Name "Province", VStr "B");
                         (Name "TotalPremium", VNum 0);
                         (Name "TotalClaims", VNum 0)];
         mkRow (LInt 2) [(Name "Province", VStr "C");
                         (Name "TotalPremium", VNum 100);
                         (Name "TotalClaims", VNum 40)] ].

(** A group whose metric is missing in every row, and another group. *)
Definition all_missing_data : DataFrame :=
  mkDF [Name "g"; Name "m"]
       [ mkRow (LInt 0) [(Name "g", VStr "A"); (Name "m", VNum nan)];
         mkRow (LInt 1) [(Name "g", VStr "A"); (Name "m", VNum nan)];
         mkRow (LInt 2) [(Name "g", VStr "B"); (Name "m", VNum 2)] ].

(* ================================================================= *)
(** * Part II. Properties *)

(* ----------------------------------------------------------------- *)
(** ** Ordering of binary64 numbers *)

Module FloatOrder.

Ltac sf_cases :=
  repeat match goal with
  | s : bool |- _ => destruct s
  end; simpl in *; try congruence;
  repeat match goal with
  | H : context [Z.compare ?a ?b] |- _ => destruct (Z.compare_spec a b); subst
  | |- context [Z.compare ?a ?b] => destruct (Z.compare_spec a b); subst
  | H : context [Pos.compare_cont Eq ?a ?b] |- _ =>
      change (Pos.compare_cont Eq a b) with (Pos.compare a b) in H;
      destruct (Pos.compare_spec a b); subst
  | |- context [Pos.compare_cont Eq ?a ?b] =>
      change (Pos.compare_cont Eq a b) with (Pos.compare a b);
      destruct (Pos.compare_spec a b); subst
  end; simpl in *; try congruence; try lia.

Lemma SFcompare_antisym a b :
  SFcompare b a = option_map CompOpp (SFcompare a b).
Proof. destruct a, b; simpl; try reflexivity; sf_cases. Qed.

Lemma SFcompare_refl a : a <> S754_nan -> SFcompare a a = Some Eq.
Proof. destruct a; simpl; intros; try congruence; sf_cases. Qed.

Lemma SFcompare_trans c x y z :
  SFcompare x y = Some c -> SFcompare y z = Some c -> SFcompare x z = Some c.
Proof.
  destruct x, y, z; simpl; intros H1 H2; try discriminate; try assumption;
    destruct c; sf_cases.
Qed.

Lemma SFcompare_eq_l x y z :
  SFcompare x y = Some Eq -> SFcompare x z = SFcompare y z.
Proof.
  destruct x, y, z; simpl; intros H1; try discriminate; try reflexivity;
    sf_cases.
Qed.

Lemma SFcompare_None x y :
  SFcompare x y = None <-> x = S754_nan \/ y = S754_nan.
Proof.
  destruct x, y; simpl; split; intros H; try discriminate; auto;
    destruct H; discriminate.
Qed.

Lemma eqb_fcmp x y :
  (x =? y)%float = match fcmp x y with Some Eq => true | _ => false end.
Proof. apply FloatAxioms.eqb_spec. Qed.

Lemma ltb_fcmp x y :
  (x <? y)%float = match fcmp x y with Some Lt => true | _ => false end.
Proof. apply FloatAxioms.ltb_spec. Qed.

Lemma leb_fcmp x y :
  (x <=? y)%float =
  match fcmp x y with Some (Lt | Eq) => true | _ => false end.
Proof. apply FloatAxioms.leb_spec. Qed.

Lemma fcmp_antisym x y : fcmp y x = option_map CompOpp (fcmp x y).
Proof. apply SFcompare_antisym. Qed.

Lemma not_nan_spec x : is_nan x = false <-> Prim2SF x <> S754_nan.
Proof.
  unfold is_nan. rewrite eqb_fcmp. unfold fcmp. split.
  - intros H E. rewrite E in H. discriminate.
  - intros H. rewrite (SFcompare_refl _ H). reflexivity.
Qed.

Lemma fcmp_refl x : is_nan x = false -> fcmp x x = Some Eq.
Proof. intros H. apply SFcompare_refl, not_nan_spec, H. Qed.

Lemma fcmp_total x y :
  is_nan x = false -> is_nan y = false -> exists c, fcmp x y = Some c.
Proof.
  intros Hx Hy. destruct (fcmp x y) as [c|] eqn:E; [eauto|].
  apply SFcompare_None in E. rewrite not_nan_spec in Hx, Hy. tauto.
Qed.

Lemma fcmp_nan_l x y : is_nan x = true -> fcmp x y = None.
Proof.
  intros H. apply SFcompare_None. left.
  destruct (Prim2SF x) eqn:E; try reflexivity;
    assert (N : is_nan x = false) by (apply not_nan_spec; congruence);
    congruence.
Qed.

Lemma fcmp_nan_r x y : is_nan y = true -> fcmp x y = None.
Proof.
  intros H. rewrite fcmp_antisym, (fcmp_nan_l y x H). reflexivity.
Qed.

Lemma fcmp_some_l x y c : fcmp x y = Some c -> is_nan x = false.
Proof.
  intros H. destruct (is_nan x) eqn:E; [|reflexivity].
  rewrite (fcmp_nan_l x y E) in H. discriminate.
Qed.

Lemma fcmp_some_r x y c : fcmp x y = Some c -> is_nan y = false.
Proof.
  intros H. destruct (is_nan y) eqn:E; [|reflexivity].
  rewrite (fcmp_nan_r x y E) in H. discriminate.
Qed.

Lemma fcmp_trans c x y z :
  fcmp x y = Some c -> fcmp y z = Some c -> fcmp x z = Some c.
Proof. apply SFcompare_trans. Qed.

Lemma fcmp_eq_l x y z : fcmp x y = Some Eq -> fcmp x z = fcmp y z.
Proof. apply SFcompare_eq_l. Qed.

Lemma fcmp_eq_r x y z : fcmp x y = Some Eq -> fcmp z x = fcmp z y.
Proof.
  intros H. rewrite (fcmp_antisym x z), (fcmp_antisym y z).
  f_equal. apply fcmp_eq_l, H.
Qed.

End FloatOrder.

(* ----------------------------------------------------------------- *)
(** ** Lists, masks and the error monad *)

Lemma select_mask_map {A : Type} (p : A -> bool) (xs : list A) :
  select_mask (map p xs) xs = filter p xs.
Proof.
  induction xs as [|x xs IH]; simpl; [reflexivity|].
  rewrite IH. reflexivity.
Qed.

Lemma select_mask_map2 {A B : Type} (f : A -> B) (p : B -> bool)
  (xs : list A) :
  select_mask (map p (map f xs)) xs = filter (fun x => p (f x)) xs.
Proof. rewrite map_map. apply select_mask_map. Qed.

Lemma has_column_In df c : has_column df c = true -> In c (columns df).
Proof.
  unfold has_column. rewrite existsb_exists. intros [k [Hk E]].
  destruct c, k; simpl in E; try discriminate.
  - apply String.eqb_eq in E. now subst.
  - apply andb_true_iff in E. destruct E as [E1 E2].
    apply String.eqb_eq in E1, E2. now subst.
  - apply Bool.eqb_prop in E. now subst.
Qed.

Lemma colname_eqb_refl c : colname_eqb c c = true.
Proof.
  destruct c; simpl; rewrite ?String.eqb_refl; auto. apply Bool.eqb_reflx.
Qed.

Lemma colname_eqb_eq a b : colname_eqb a b = true <-> a = b.
Proof.
  split; [|intros ->; apply colname_eqb_refl].
  destruct a, b; simpl; intros E; try discriminate.
  - apply String.eqb_eq in E. now subst.
  - apply andb_true_iff in E. destruct E as [E1 E2].
    apply String.eqb_eq in E1, E2. now subst.
  - apply Bool.eqb_prop in E. now subst.
Qed.

Lemma In_has_column df c : In c (columns df) -> has_column df c = true.
Proof.
  intros H. unfold has_column. apply existsb_exists.
  exists c. split; [assumption|apply colname_eqb_refl].
Qed.

Lemma missing_columns_none (df : DataFrame) (cs : list colname) :
  (forall c, In c cs -> has_column df c = true) -> missing_columns df cs = [].
Proof.
  intros H. unfold missing_columns.
  induction cs as [|c cs IH]; [reflexivity|]. cbn [filter].
  rewrite (H c (or_introl eq_refl)). apply IH.
  intros d Hd. apply H. now right.
Qed.

Lemma getitem_ok df c :
  has_column df c = true ->
  getitem df c = Ok (map (fun r => cell r c) (rows df)).
Proof. unfold getitem. now intros ->. Qed.

(* ----------------------------------------------------------------- *)
(** ** [compute_metric] *)

(** C8. When [column] is a column of the data and [operation] is neither
    "mean" nor "sum", [compute_metric] returns [None]: it raises nothing
    and returns no number, whatever the metric column and the condition. *)
Theorem compute_metric_unknown_operation
  (data : DataFrame) (column : string) (condition : value)
  (metric_col operation : string) :
  has_column data (Name column) = true ->
  operation <> "mean"%string ->
  operation <> "sum"%string ->
  compute_metric data column condition metric_col operation = Ok None.
Proof.
  intros Hc Hm Hs. unfold compute_metric.
  rewrite (getitem_ok _ _ Hc). simpl.
  apply String.eqb_neq in Hm, Hs. rewrite Hm, Hs. reflexivity.
Qed.

Lemma compute_metric_unknown_operation_witness :
  compute_metric province_data "Province" (VStr "A") "TotalClaims" "median"
  = Ok None.
Proof.
  apply compute_metric_unknown_operation;
    [reflexivity | discriminate | discriminate].
Defined.

(* ----------------------------------------------------------------- *)
(** ** Ordering of values *)

Module ValueOrder.

Import FloatOrder.

Lemma string_compare_refl s : String.compare s s = Eq.
Proof. apply String_as_OT.cmp_eq. reflexivity. Qed.

Lemma string_compare_trans c s t u :
  String.compare s t = c -> String.compare t u = c -> String.compare s u = c.
Proof.
  destruct c; intros H1 H2.
  - apply String_as_OT.cmp_eq in H1, H2. subst. apply string_compare_refl.
  - apply String_as_OT.cmp_lt in H1, H2. apply String_as_OT.cmp_lt.
    eapply String_as_OT.lt_trans; eassumption.
  - rewrite String.compare_antisym in H1, H2.
    rewrite String.compare_antisym.
    destruct (String.compare u t) eqn:E1; try discriminate.
    destruct (String.compare t s) eqn:E2; try discriminate.
    apply String_as_OT.cmp_lt in E1, E2.
    assert (E : String.compare u s = Lt)
      by (apply String_as_OT.cmp_lt; eapply String_as_OT.lt_trans; eassumption).
    rewrite E. reflexivity.
Qed.

Lemma vcmp_antisym a b : vcmp b a = option_map CompOpp (vcmp a b).
Proof.
  destruct a as [x|s], b as [y|t]; simpl.
  - apply fcmp_antisym.
  - destruct (is_nan x); reflexivity.
  - destruct (is_nan y); reflexivity.
  - rewrite String.compare_antisym. reflexivity.
Qed.

Lemma vcmp_some_l a b c : vcmp a b = Some c -> isna a = false.
Proof.
  destruct a as [x|s], b as [y|t]; simpl; intros H; try reflexivity.
  - eapply fcmp_some_l; eassumption.
  - destruct (is_nan x); [discriminate|reflexivity].
Qed.

Lemma vcmp_some_r a b c : vcmp a b = Some c -> isna b = false.
Proof.
  intros H. apply (vcmp_some_l b a (CompOpp c)).
  rewrite vcmp_antisym, H. reflexivity.
Qed.

Lemma vcmp_total a b :
  isna a = false -> isna b = false -> exists c, vcmp a b = Some c.
Proof.
  destruct a as [x|s], b as [y|t]; simpl; intros Ha Hb.
  - apply fcmp_total; assumption.
  - rewrite Ha. eauto.
  - rewrite Hb. eauto.
  - eauto.
Qed.

Lemma vcmp_refl a : isna a = false -> vcmp a a = Some Eq.
Proof.
  destruct a as [x|s]; simpl; intros H.
  - apply fcmp_refl, H.
  - rewrite string_compare_refl. reflexivity.
Qed.

Lemma vcmp_trans c a b d :
  vcmp a b = Some c -> vcmp b d = Some c -> vcmp a d = Some c.
Proof.
  destruct a as [x|s], b as [y|t], d as [z|u]; simpl; intros H1 H2.
  - eapply fcmp_trans; eassumption.
  - apply fcmp_some_l in H1. rewrite H1.
    destruct (is_nan y); congruence.
  - destruct (is_nan x), (is_nan z); congruence.
  - destruct (is_nan x); congruence.
  - rewrite (fcmp_some_r _ _ _ H2). destruct (is_nan y); congruence.
  - destruct (is_nan y); congruence.
  - exact H2.
  - f_equal. injection H1 as H1. injection H2 as H2.
    eapply string_compare_trans; eassumption.
Qed.

Lemma vcmp_eq_l a b d : vcmp a b = Some Eq -> vcmp a d = vcmp b d.
Proof.
  destruct a as [x|s], b as [y|t], d as [z|u]; simpl; intros H.
  - apply fcmp_eq_l, H.
  - rewrite (fcmp_some_l _ _ _ H), (fcmp_some_r _ _ _ H). reflexivity.
  - destruct (is_nan x); congruence.
  - destruct (is_nan x); congruence.
  - destruct (is_nan y); congruence.
  - destruct (is_nan y); congruence.
  - injection H as H. apply String_as_OT.cmp_eq in H. now subst.
  - injection H as H. apply String_as_OT.cmp_eq in H. now subst.
Qed.

Lemma vcmp_eq_r a b d : vcmp a b = Some Eq -> vcmp d a = vcmp d b.
Proof.
  intros H. rewrite (vcmp_antisym a d), (vcmp_antisym b d).
  f_equal. apply vcmp_eq_l, H.
Qed.

Lemma value_eqb_vcmp a b :
  value_eqb a b = match vcmp a b with Some Eq => true | _ => false end.
Proof.
  destruct a as [x|s], b as [y|t]; simpl.
  - apply eqb_fcmp.
  - destruct (is_nan x); reflexivity.
  - destruct (is_nan y); reflexivity.
  - destruct (String.eqb_spec s t) as [->|N].
    + rewrite string_compare_refl. reflexivity.
    + destruct (String.compare s t) eqn:E; try reflexivity.
      apply String_as_OT.cmp_eq in E. contradiction.
Qed.

Lemma value_ltb_vcmp a b :
  isna a = false ->
  value_ltb a b = match vcmp a b with Some Lt => true | _ => false end.
Proof.
  destruct a as [x|s], b as [y|t]; simpl; intros Ha.
  - apply ltb_fcmp.
  - rewrite Ha. reflexivity.
  - destruct (is_nan y); reflexivity.
  - unfold String.ltb. destruct (String.compare s t); reflexivity.
Qed.

Lemma value_eqb_notna_l a b : value_eqb a b = true -> isna a = false.
Proof.
  rewrite value_eqb_vcmp. destruct (vcmp a b) as [c|] eqn:E; [|discriminate].
  intros _. eapply vcmp_some_l; eassumption.
Qed.

Lemma value_eqb_notna_r a b : value_eqb a b = true -> isna b = false.
Proof.
  rewrite value_eqb_vcmp. destruct (vcmp a b) as [c|] eqn:E; [|discriminate].
  intros _. eapply vcmp_some_r; eassumption.
Qed.

Lemma value_eqb_Eq a b : value_eqb a b = true <-> vcmp a b = Some Eq.
Proof.
  rewrite value_eqb_vcmp. destruct (vcmp a b) as [[]|]; split; congruence.
Qed.

Lemma value_eqb_refl a : isna a = false -> value_eqb a a = true.
Proof. intros H. apply value_eqb_Eq, vcmp_refl, H. Qed.

Lemma value_eqb_sym a b : value_eqb a b = value_eqb b a.
Proof.
  rewrite !value_eqb_vcmp, (vcmp_antisym a b).
  destruct (vcmp a b) as [[]|]; reflexivity.
Qed.

Lemma value_eqb_trans a b c :
  value_eqb a b = true -> value_eqb b c = true -> value_eqb a c = true.
Proof. rewrite !value_eqb_Eq. apply vcmp_trans. Qed.

Lemma value_eqb_cong_l a b c :
  value_eqb a b = true -> value_eqb a c = value_eqb b c.
Proof.
  intros H. apply value_eqb_Eq in H.
  rewrite !value_eqb_vcmp, (vcmp_eq_l _ _ c H). reflexivity.
Qed.

Lemma value_eqb_cong_r a b c :
  value_eqb a b = true -> value_eqb c a = value_eqb c b.
Proof.
  intros H. rewrite (value_eqb_sym c a), (value_eqb_sym c b).
  apply value_eqb_cong_l, H.
Qed.

Lemma value_ltb_cong_l a b c :
  value_eqb a b = true -> value_ltb a c = value_ltb b c.
Proof.
  intros H. pose proof (value_eqb_notna_l _ _ H) as Ha.
  pose proof (value_eqb_notna_r _ _ H) as Hb.
  apply value_eqb_Eq in H.
  rewrite !value_ltb_vcmp by assumption. rewrite (vcmp_eq_l _ _ c H).
  reflexivity.
Qed.

Lemma value_ltb_cong_r a b c :
  isna c = false ->
  value_eqb a b = true -> value_ltb c a = value_ltb c b.
Proof.
  intros Hc H. apply value_eqb_Eq in H.
  rewrite !value_ltb_vcmp by assumption. rewrite (vcmp_eq_r _ _ c H).
  reflexivity.
Qed.

Lemma value_ltb_trans a b c :
  isna a = false -> isna b = false ->
  value_ltb a b = true -> value_ltb b c = true -> value_ltb a c = true.
Proof.
  intros Ha Hb. rewrite !value_ltb_vcmp by assumption.
  destruct (vcmp a b) as [[]|] eqn:E1; try discriminate.
  destruct (vcmp b c) as [[]|] eqn:E2; try discriminate.
  rewrite (vcmp_trans _ _ _ _ E1 E2). reflexivity.
Qed.

Lemma value_ltb_not_eqb a b :
  isna a = false -> value_ltb a b = true -> value_eqb a b = false.
Proof.
  intros Ha. rewrite value_ltb_vcmp, value_eqb_vcmp by assumption.
  destruct (vcmp a b) as [[]|]; congruence.
Qed.

Lemma value_ltb_asym a b :
  isna a = false -> isna b = false ->
  value_ltb a b = true -> value_ltb b a = false.
Proof.
  intros Ha Hb. rewrite !value_ltb_vcmp by assumption.
  rewrite (vcmp_antisym a b). destruct (vcmp a b) as [[]|]; simpl; congruence.
Qed.

Lemma value_trichotomy a b :
  isna a = false -> isna b = false ->
  value_eqb a b = false -> value_ltb a b = false -> value_ltb b a = true.
Proof.
  intros Ha Hb. rewrite !value_ltb_vcmp, value_eqb_vcmp by assumption.
  rewrite (vcmp_antisym a b).
  destruct (vcmp_total a b Ha Hb) as [c ->]. destruct c; simpl; congruence.
Qed.

(** The equality of [isin] is an equivalence on all values. *)
Lemma value_same_sym a b : value_same a b = value_same b a.
Proof.
  unfold value_same. rewrite value_eqb_sym, (andb_comm (isna a)).
  reflexivity.
Qed.

Lemma value_same_trans a b c :
  value_same a b = true -> value_same b c = true -> value_same a c = true.
Proof.
  unfold value_same. intros H1 H2.
  apply orb_true_iff in H1, H2. apply orb_true_iff.
  destruct H1 as [H1|H1], H2 as [H2|H2].
  - left. eapply value_eqb_trans; eassumption.
  - apply value_eqb_notna_r in H1. apply andb_true_iff in H2.
    destruct H2; congruence.
  - apply value_eqb_notna_l in H2. apply andb_true_iff in H1.
    destruct H1; congruence.
  - right. apply andb_true_iff in H1, H2. apply andb_true_iff. tauto.
Qed.

End ValueOrder.

Lemma filter_none {A : Type} (p : A -> bool) (l : list A) :
  (forall x, In x l -> p x = false) -> filter p l = [].
Proof.
  induction l as [|x l IH]; simpl; intros H; [reflexivity|].
  rewrite (H x (or_introl eq_refl)). apply IH. intros y Hy. apply H. now right.
Qed.

(** C10. When [column] and [metric_col] are columns of the data and no row
    has [column == condition], [compute_metric] raises nothing: the sum is
    exactly 0 and the mean is NaN. *)
Theorem compute_metric_no_match
  (data : DataFrame) (column : string) (condition : value)
  (metric_col : string) :
  has_column data (Name column) = true ->
  has_column data (Name metric_col) = true ->
  (forall r, In r (rows data) ->
             value_eqb (cell r (Name column)) condition = false) ->
  compute_metric data column condition metric_col "sum" = Ok (Some (VNum 0))
  /\ compute_metric data column condition metric_col "mean" = Ok (Some (VNum nan))
  /\ is_nan nan = true.
Proof.
  intros Hc Hm Hnone.
  assert (E : getitem_mask data
                (series_eq (map (fun r => cell r (Name column)) (rows data))
                           condition)
              = mkDF (columns data) []).
  { unfold getitem_mask, series_eq. f_equal.
    rewrite (select_mask_map2 (fun r => cell r (Name column))
               (fun v => value_eqb v condition)).
    apply filter_none. exact Hnone. }
  unfold compute_metric. rewrite (getitem_ok _ _ Hc). simpl bind.
  rewrite E. unfold getitem.
  change (has_column (mkDF (columns data) []) (Name metric_col))
    with (has_column data (Name metric_col)).
  rewrite Hm. simpl. repeat split; reflexivity.
Qed.

Lemma compute_metric_no_match_witness :
  compute_metric province_data "Province" (VStr "C") "TotalClaims" "sum"
  = Ok (Some (VNum 0))
  /\ compute_metric province_data "Province" (VStr "C") "TotalClaims" "mean"
     = Ok (Some (VNum nan))
  /\ is_nan nan = true.
Proof.
  apply compute_metric_no_match; [reflexivity | reflexivity |].
  intros r Hr. simpl in Hr.
  repeat (destruct Hr as [<-|Hr]; [reflexivity|]). contradiction.
Defined.

(* ----------------------------------------------------------------- *)
(** ** [segment_data] *)

Lemma row_isin_disjoint c A B r :
  disjoint_values A B ->
  row_isin c A r = true -> row_isin c B r = true -> False.
Proof.
  unfold row_isin. intros D HA HB.
  apply existsb_exists in HA, HB.
  destruct HA as [a [Ia Sa]], HB as [b [Ib Sb]].
  rewrite ValueOrder.value_same_sym in Sa.
  pose proof (ValueOrder.value_same_trans _ _ _ Sa Sb) as S.
  rewrite (D a b Ia Ib) in S. discriminate.
Qed.

Lemma segment_rows data column values :
  rows (getitem_mask data
          (isin (map (fun r => cell r (Name column)) (rows data)) values))
  = filter (row_isin (Name column) values) (rows data).
Proof.
  unfold getitem_mask, isin. simpl.
  apply (select_mask_map2 (fun r => cell r (Name column))
           (fun v => existsb (value_same v) values)).
Qed.

Lemma filter_disjoint_union {A : Type} (p q : A -> bool) (l : list A) :
  (forall x, In x l -> p x = true -> q x = true -> False) ->
  Permutation (filter p l ++ filter q l) (filter (fun x => p x || q x) l).
Proof.
  induction l as [|x l IH]; simpl; intros D; [constructor|].
  assert (IH' := IH (fun y Hy => D y (or_intror Hy))).
  destruct (p x) eqn:Ep, (q x) eqn:Eq; simpl.
  - exfalso. apply (D x); auto.
  - constructor. exact IH'.
  - apply Permutation_sym, Permutation_cons_app, Permutation_sym, IH'.
  - exact IH'.
Qed.

(** C6. For disjoint value sets, [segment_data] returns two groups such
    that no input row is in both, a row is in one of them exactly when it
    is an input row whose value in [column] belongs to one of the sets,
    and the two groups together hold each such row once. *)
Theorem segment_data_partition
  (data : DataFrame) (column : string)
  (values_group_a values_group_b : list value) :
  has_column data (Name column) = true ->
  disjoint_values values_group_a values_group_b ->
  exists group_a group_b,
    segment_data data column values_group_a values_group_b
    = Ok (group_a, group_b)
    /\ (forall r, In r (rows group_a) -> In r (rows group_b) -> False)
    /\ (forall r,
          In r (rows group_a) \/ In r (rows group_b) <->
          In r (rows data)
          /\ (row_isin (Name column) values_group_a r = true
              \/ row_isin (Name column) values_group_b r = true))
    /\ Permutation (rows group_a ++ rows group_b)
         (filter (fun r => row_isin (Name column) values_group_a r
                           || row_isin (Name column) values_group_b r)
                 (rows data)).
Proof.
  intros Hc D. unfold segment_data. rewrite (getitem_ok _ _ Hc). simpl bind.
  eexists. eexists. split; [reflexivity|].
  rewrite !segment_rows. repeat split.
  - intros r Ha Hb. apply filter_In in Ha, Hb.
    destruct Ha as [_ Ha], Hb as [_ Hb].
    exact (row_isin_disjoint _ _ _ _ D Ha Hb).
  - destruct H as [H|H]; apply filter_In in H; tauto.
  - destruct H as [H|H]; apply filter_In in H; tauto.
  - intros [Hr [H|H]]; [left|right]; apply filter_In; auto.
  - apply filter_disjoint_union. intros r _.
    apply row_isin_disjoint. exact D.
Qed.

Lemma segment_data_partition_witness :
  exists group_a group_b,
    segment_data province_data "Province" [VStr "A"] [VStr "B"]
    = Ok (group_a, group_b)
    /\ (forall r, In r (rows group_a) -> In r (rows group_b) -> False)
    /\ (forall r,
          In r (rows group_a) \/ In r (rows group_b) <->
          In r (rows province_data)
          /\ (row_isin (Name "Province") [VStr "A"] r = true
              \/ row_isin (Name "Province") [VStr "B"] r = true))
    /\ Permutation (rows group_a ++ rows group_b)
         (filter (fun r => row_isin (Name "Province") [VStr "A"] r
                           || row_isin (Name "Province") [VStr "B"] r)
                 (rows province_data)).
Proof.
  apply segment_data_partition; [reflexivity|].
  intros a b Ha Hb. simpl in Ha, Hb.
  destruct Ha as [<-|[]], Hb as [<-|[]]. reflexivity.
Defined.

(* ----------------------------------------------------------------- *)
(** ** [groupby] *)

Section GroupBy.

Import ValueOrder.

Variable A : Type.
Variable key : A -> value.

Lemma add_to_group_spec (k : value) (x : A) (gs : list (value * list A)) :
  isna k = false ->
  StronglySorted keys_lt gs ->
  Forall key_present gs ->
  StronglySorted keys_lt (add_to_group k x gs)
  /\ Forall key_present (add_to_group k x gs)
  /\ (forall k' ms', In (k', ms') (add_to_group k x gs) ->
        (k' = k /\ ms' = [x]
         /\ forall g, In g gs -> value_eqb k (fst g) = false)
        \/ (value_eqb k k' = true
            /\ exists ms, In (k', ms) gs /\ ms' = ms ++ [x])
        \/ (value_eqb k k' = false /\ In (k', ms') gs))
  /\ (forall g, In g gs -> exists ms', In (fst g, ms') (add_to_group k x gs))
  /\ (exists g, In g (add_to_group k x gs) /\ value_eqb k (fst g) = true).
Proof.
  intros Hk. induction gs as [|[k0 ms0] gs IH]; intros Hs Hp.
  - simpl. repeat split.
    + repeat constructor.
    + repeat constructor. exact Hk.
    + intros k' ms' [E|[]]. injection E as <- <-. left.
      split; [reflexivity|]. split; [reflexivity|]. intros g [].
    + intros g [].
    + exists (k, [x]). split; [now left|]. apply value_eqb_refl, Hk.
  - apply StronglySorted_inv in Hs. destruct Hs as [Hs Hall].
    rewrite Forall_forall in Hall.
    inversion Hp as [|? ? Hp0 Hp']; subst. unfold key_present in Hp0.
    simpl in Hp0. simpl.
    destruct (value_eqb k k0) eqn:E0.
    + (* the key is that of the first group *)
      assert (Hrest : forall g, In g gs -> value_eqb k (fst g) = false).
      { intros g Hg. specialize (Hall g Hg).
        unfold keys_lt in Hall. simpl in Hall.
        rewrite (value_eqb_cong_l _ _ (fst g) E0).
        apply value_ltb_not_eqb; assumption. }
      repeat split.
      * constructor; [exact Hs|]. apply Forall_forall. exact Hall.
      * constructor; [exact Hp0|exact Hp'].
      * intros k' ms' [E|Hin].
        -- injection E as <- <-. right. left. split; [exact E0|].
           exists ms0. split; [now left|reflexivity].
        -- right. right. split; [apply (Hrest (k', ms') Hin)|now right].
      * intros g [<-|Hg]; simpl; eauto.
        exists (snd g). right. destruct g; exact Hg.
      * exists (k0, ms0 ++ [x]). split; [now left|exact E0].
    + destruct (value_ltb k k0) eqn:L0.
      * (* a new first group *)
        assert (Hrest : forall g, In g ((k0, ms0) :: gs) ->
                                  value_ltb k (fst g) = true).
        { intros g [<-|Hg]; [exact L0|].
          specialize (Hall g Hg). unfold keys_lt in Hall. simpl in Hall.
          exact (value_ltb_trans _ _ _ Hk Hp0 L0 Hall). }
        repeat split.
        -- constructor.
           ++ constructor; [exact Hs|]. apply Forall_forall. exact Hall.
           ++ apply Forall_forall. intros g Hg. apply Hrest, Hg.
        -- constructor; [exact Hk|constructor; assumption].
        -- intros k' ms' [E|Hin].
           ++ injection E as <- <-. left.
              split; [reflexivity|]. split; [reflexivity|]. intros g Hg.
              apply value_ltb_not_eqb; [exact Hk|apply Hrest, Hg].
           ++ right. right. split; [|exact Hin].
              apply value_ltb_not_eqb; [exact Hk|].
              apply (Hrest (k', ms') Hin).
        -- intros g Hg. exists (snd g). right. destruct g; exact Hg.
        -- exists (k, [x]). split; [now left|apply value_eqb_refl, Hk].
      * (* the key goes further *)
        assert (G0 : value_ltb k0 k = true).
        { apply value_trichotomy; assumption. }
        destruct (IH Hs Hp') as (IHs & IHp & IHm & IHo & IHn).
        repeat split.
        -- constructor; [exact IHs|]. apply Forall_forall. intros [k' ms'] Hg.
           unfold keys_lt. simpl.
           destruct (IHm k' ms' Hg) as [(-> & _ & _)|[(_ & ms & Hi & _)|(_ & Hi)]].
           ++ exact G0.
           ++ apply (Hall (k', ms) Hi).
           ++ apply (Hall (k', ms') Hi).
        -- constructor; [exact Hp0|exact IHp].
        -- intros k' ms' [E|Hin].
           ++ injection E as <- <-. right. right. split; [exact E0|now left].
           ++ destruct (IHm k' ms' Hin)
                as [(-> & Em & Hn)|[(Ek & ms & Hi & Em)|(Ek & Hi)]].
              ** left. split; [reflexivity|]. split; [exact Em|].
                 intros g [<-|Hg]; [exact E0|apply Hn, Hg].
              ** right. left. split; [exact Ek|]. exists ms.
                 split; [now right|exact Em].
              ** right. right. split; [exact Ek|now right].
        -- intros g [<-|Hg]; [exists ms0; now left|].
           destruct (IHo g Hg) as [ms' Hm]. exists ms'. now right.
        -- destruct IHn as [g [Hg Eg]]. exists g. split; [now right|exact Eg].
Qed.

Lemma members_app (k : value) (xs ys : list A) :
  members key k (xs ++ ys) = members key k xs ++ members key k ys.
Proof. apply filter_app. Qed.

Lemma members_In (k : value) (xs : list A) (x : A) :
  In x (members key k xs) <-> In x xs /\ value_eqb (key x) k = true.
Proof. apply filter_In. Qed.

Lemma group_by_snoc (xs : list A) (x : A) :
  group_by key (xs ++ [x]) = group_step key (group_by key xs) x.
Proof. unfold group_by. rewrite fold_left_app. reflexivity. Qed.

(** The groups of [group_by]: strictly ascending keys, none missing; each
    group holds, in their order, the items whose key equals its key, and
    its key is the key of one of them; every item with a key is in a
    group. *)
Lemma group_by_spec (xs : list A) :
  StronglySorted keys_lt (group_by key xs)
  /\ Forall key_present (group_by key xs)
  /\ (forall k ms, In (k, ms) (group_by key xs) ->
        ms = members key k xs /\ exists x, In x xs /\ key x = k)
  /\ (forall x, In x xs -> isna (key x) = false ->
        exists k ms, In (k, ms) (group_by key xs)
                     /\ value_eqb (key x) k = true).
Proof.
  induction xs as [|x xs IH] using rev_ind.
  - simpl. repeat split; try constructor; intros; contradiction.
  - destruct IH as (IHs & IHp & IHm & IHc).
    rewrite group_by_snoc. unfold group_step.
    destruct (isna (key x)) eqn:Nx.
    + (* a missing key: no group changes *)
      split; [exact IHs|]. split; [exact IHp|]. split.
      * intros k ms Hin. destruct (IHm k ms Hin) as [-> [y [Hy Ey]]].
        split.
        -- rewrite members_app. simpl.
           destruct (value_eqb (key x) k) eqn:E.
           ++ apply value_eqb_notna_l in E. congruence.
           ++ rewrite app_nil_r. reflexivity.
        -- exists y. split; [apply in_or_app; now left|exact Ey].
      * intros y Hy Ny. apply in_app_or in Hy. destruct Hy as [Hy|[<-|[]]].
        -- exact (IHc y Hy Ny).
        -- congruence.
    + destruct (add_to_group_spec (key x) x (group_by key xs) Nx IHs IHp)
        as (Hs & Hp & Hm & Ho & Hn).
      split; [exact Hs|]. split; [exact Hp|]. split.
      * intros k ms Hin. rewrite members_app. simpl.
        destruct (Hm k ms Hin)
          as [(-> & -> & Hnone)|[(Ek & ms0 & Hi & ->)|(Ek & Hi)]].
        -- rewrite (value_eqb_refl _ Nx). split.
           ++ replace (members key (key x) xs) with (@nil A); [reflexivity|].
              symmetry. apply filter_none. intros y Hy.
              destruct (value_eqb (key y) (key x)) eqn:E; [|reflexivity].
              destruct (IHc y Hy (value_eqb_notna_l _ _ E)) as (k & ms & Hi & Ek).
              specialize (Hnone (k, ms) Hi). simpl in Hnone.
              rewrite value_eqb_sym in E.
              rewrite (value_eqb_trans _ _ _ E Ek) in Hnone. discriminate.
           ++ exists x. split; [apply in_or_app; right; now left|reflexivity].
        -- rewrite Ek. destruct (IHm k ms0 Hi) as [-> [y [Hy Ey]]].
           split; [reflexivity|].
           exists y. split; [apply in_or_app; now left|exact Ey].
        -- rewrite Ek. rewrite app_nil_r.
           destruct (IHm k ms Hi) as [-> [y [Hy Ey]]].
           split; [reflexivity|].
           exists y. split; [apply in_or_app; now left|exact Ey].
      * intros y Hy Ny. apply in_app_or in Hy. destruct Hy as [Hy|[<-|[]]].
        -- destruct (IHc y Hy Ny) as (k & ms & Hi & Ek).
           destruct (Ho (k, ms) Hi) as [ms' Hi']. simpl in Hi'.
           exists k, ms'. split; assumption.
        -- destruct Hn as [[k ms] [Hi Ek]]. exists k, ms. split; assumption.
Qed.

End GroupBy.

(* ----------------------------------------------------------------- *)
(** ** Series and tables built by [map] *)

Lemma mapM_ok {A B : Type} (f : A -> res B) (g : A -> B) (l : list A) :
  (forall a, In a l -> f a = Ok (g a)) -> mapM f l = Ok (map g l).
Proof.
  induction l as [|a l IH]; simpl; intros H; [reflexivity|].
  rewrite (H a (or_introl eq_refl)). simpl.
  rewrite IH by (intros b Hb; apply H; now right). reflexivity.
Qed.

Lemma to_numeric_VNum {A : Type} (h : A -> float) (l : list A) :
  to_numeric (map (fun x => VNum (h x)) l) = Ok (map h l).
Proof.
  unfold to_numeric. induction l as [|a l IH]; simpl; [reflexivity|].
  rewrite IH. reflexivity.
Qed.

Lemma to_numeric_cells (c : colname) (g : list Row) :
  (forall r, In r g -> exists x, cell r c = VNum x) ->
  to_numeric (map (fun r => cell r c) g)
  = Ok (map (fun r => num_cell r c) g).
Proof.
  intros H. unfold to_numeric.
  induction g as [|r g IH]; simpl; [reflexivity|].
  destruct (H r (or_introl eq_refl)) as [x Ex].
  unfold num_cell at 1. rewrite Ex. simpl.
  rewrite IH by (intros s Hs; apply H; now right). reflexivity.
Qed.

Lemma zip_with_map {A B C D : Type} (f : B -> C -> D) (a : A -> B)
  (b : A -> C) (l : list A) :
  zip_with f (map a l) (map b l) = Ok (map (fun x => f (a x) (b x)) l).
Proof.
  induction l as [|x l IH]; simpl; [reflexivity|]. rewrite IH. reflexivity.
Qed.

Lemma setitem_map {A : Type} (cols : list colname) (F : A -> Row)
  (V : A -> value) (l : list A) (c : colname) :
  setitem (mkDF cols (map F l)) c (map V l)
  = Ok (mkDF (if has_column (mkDF cols (map F l)) c then cols else cols ++ [c])
          (map (fun x => mkRow (label_of (F x)) (set_cell c (V x) (cells (F x))))
               l)).
Proof.
  unfold setitem. simpl rows.
  rewrite (zip_with_map
             (fun r v => mkRow (label_of r) (set_cell c v (cells r))) F V l).
  reflexivity.
Qed.

Lemma renumber_map {A : Type}
  (f : label -> list (colname * value) -> list (colname * value))
  (F : A -> Row) (l : list A) :
  renumber f (map F l)
  = map (fun ix => mkRow (LInt (Z.of_nat (fst ix)))
                     (f (label_of (F (snd ix))) (cells (F (snd ix)))))
        (combine (seq 0 (length l)) l).
Proof.
  unfold renumber. rewrite length_map.
  generalize 0. induction l as [|x l IH]; intros n; simpl; [reflexivity|].
  rewrite IH. reflexivity.
Qed.

(* ----------------------------------------------------------------- *)
(** ** [calculate_cost_savings] *)

Lemma group_rows_in_data (data : DataFrame) (c : colname) k ms r :
  In (k, ms) (group_by (fun r => cell r c) (rows data)) ->
  In r ms -> In r (rows data).
Proof.
  intros Hin Hr.
  destruct (group_by_spec Row (fun r => cell r c) (rows data))
    as (_ & _ & Hm & _).
  destruct (Hm k ms Hin) as [-> _]. apply members_In in Hr. tauto.
Qed.

Lemma agg_cell_sum (data : DataFrame) (c : colname) (g : list Row) :
  numeric_column data c ->
  (forall r, In r g -> In r (rows data)) ->
  agg_cell AggSum c g
  = Ok (VNum (group_sum (map (fun r => num_cell r c) g))).
Proof.
  intros Hn Hg. unfold agg_cell.
  rewrite to_numeric_cells by (intros r Hr; apply Hn, Hg, Hr).
  reflexivity.
Qed.

Lemma not_in_summary_names (s : string) :
  ~ In s summary_names ->
  String.eqb s "TotalCost" = false /\ String.eqb s "TotalClaims" = false
  /\ String.eqb s "SavingsPotential" = false
  /\ String.eqb s "SavingsPercentage" = false.
Proof.
  intros H. repeat split; apply String.eqb_neq; intros ->; apply H;
    simpl; tauto.
Qed.

(** The steps of [calculate_cost_savings] after the aggregation, on the
    table of the totals of each group. *)
Lemma savings_columns {A : Type} (k : A -> value) (tc tcl : A -> float)
  (l : list A) (group_col : string) :
  ~ In group_col summary_names ->
  (let group_data :=
     mkDF [Name "TotalCost"; Name "TotalClaims"]
       (map (fun x => mkRow (LKey (k x))
                        [(Name "TotalCost", VNum (tc x));
                         (Name "TotalClaims", VNum (tcl x))]) l) in
   total_cost <- getitem group_data (Name "TotalCost") ;;
   total_claims <- getitem group_data (Name "TotalClaims") ;;
   potential <- series_sub total_cost total_claims ;;
   group_data <- setitem group_data (Name "SavingsPotential") potential ;;
   potential <- getitem group_data (Name "SavingsPotential") ;;
   total_cost <- getitem group_data (Name "TotalCost") ;;
   ratio <- series_div potential total_cost ;;
   percentage <- series_mul ratio 100 ;;
   group_data <- setitem group_data (Name "SavingsPercentage") percentage ;;
   reset_index group_data (Name group_col))
  = Ok (mkDF (Name group_col :: map Name summary_names)
          (map (fun ix =>
                  mkRow (LInt (Z.of_nat (fst ix)))
                    [(Name group_col, k (snd ix));
                     (Name "TotalCost", VNum (tc (snd ix)));
                     (Name "TotalClaims", VNum (tcl (snd ix)));
                     (Name "SavingsPotential",
                      VNum (tc (snd ix) - tcl (snd ix))%float);
                     (Name "SavingsPercentage",
                      VNum ((tc (snd ix) - tcl (snd ix)) / tc (snd ix) * 100)%float)])
               (combine (seq 0 (length l)) l))).
Proof.
  intros Hname. apply not_in_summary_names in Hname.
  destruct Hname as (N1 & N2 & N3 & N4).
  cbv zeta.
  unfold getitem at 1 2. simpl. rewrite !map_map. unfold cell. simpl.
  unfold series_sub. rewrite !to_numeric_VNum. simpl.
  rewrite (zip_with_map (fun x y => VNum (x - y)%float) tc tcl l). simpl.
  rewrite (setitem_map _ _ (fun x => VNum (tc x - tcl x)%float)). simpl.
  rewrite !map_map. unfold cell. simpl.
  unfold series_div. rewrite !to_numeric_VNum. simpl.
  rewrite (zip_with_map (fun x y => VNum (x / y)%float)
             (fun x => (tc x - tcl x)%float) tc l). simpl.
  unfold series_mul. rewrite to_numeric_VNum. simpl. rewrite map_map.
  rewrite (setitem_map _ _
             (fun x => VNum ((tc x - tcl x) / tc x * 100)%float)). simpl.
  unfold reset_index, has_column. simpl. rewrite N1, N2, N3, N4. simpl.
  rewrite renumber_map. reflexivity.
Qed.

(** The table [calculate_cost_savings] returns, written out: one row per
    group, numbered from 0, with the group's key and its summary cells. *)
Lemma calculate_cost_savings_rows
  (data : DataFrame) (group_col cost_col claim_col : string) :
  has_column data (Name group_col) = true ->
  has_column data (Name cost_col) = true ->
  has_column data (Name claim_col) = true ->
  numeric_column data (Name cost_col) ->
  numeric_column data (Name claim_col) ->
  ~ In group_col summary_names ->
  calculate_cost_savings data group_col cost_col claim_col
  = Ok (mkDF (Name group_col :: map Name summary_names)
          (map (fun ig =>
                  mkRow (LInt (Z.of_nat (fst ig)))
                    ((Name group_col, fst (snd ig))
                     :: summary_cells cost_col claim_col (snd (snd ig))))
               (combine
                  (seq 0 (length (group_by (fun r => cell r (Name group_col))
                                           (rows data))))
                  (group_by (fun r => cell r (Name group_col)) (rows data))))).
Proof.
  intros Hg Hcost Hclaim Ncost Nclaim Hname.
  unfold calculate_cost_savings, groupby. rewrite Hg.
  set (gs := group_by (fun r => cell r (Name group_col)) (rows data)).
  unfold agg. rewrite missing_columns_none.
  2:{ intros c [<-|[<-|[]]]; assumption. }
  cbn [sort_columns fold_right raise_missing]. unfold bind at 1 2.
  rewrite (mapM_ok _
    (fun kg => mkRow (LKey (fst kg))
       [(Name "TotalCost",
         VNum (group_sum (map (fun r => num_cell r (Name cost_col)) (snd kg))));
        (Name "TotalClaims",
         VNum (group_sum (map (fun r => num_cell r (Name claim_col)) (snd kg))))])).
  2:{ intros [k ms] Hin. simpl.
      rewrite (agg_cell_sum data), (agg_cell_sum data);
        try assumption;
        try (intros r Hr; eapply group_rows_in_data; eassumption).
      reflexivity. }
  exact (savings_columns fst
           (fun kg => group_sum
                        (map (fun r => num_cell r (Name cost_col)) (snd kg)))
           (fun kg => group_sum
                        (map (fun r => num_cell r (Name claim_col)) (snd kg)))
           gs group_col Hname).
Qed.

Lemma map_snd_enumerate {A : Type} (l : list A) (s : nat) :
  map snd (combine (seq s (length l)) l) = l.
Proof.
  revert s. induction l as [|x l IH]; intros s; simpl; [reflexivity|].
  rewrite IH. reflexivity.
Qed.

Lemma map_fst_enumerate {A : Type} (l : list A) (s : nat) :
  map fst (combine (seq s (length l)) l) = seq s (length l).
Proof.
  revert s. induction l as [|x l IH]; intros s; simpl; [reflexivity|].
  rewrite IH. reflexivity.
Qed.

Lemma length_enumerate {A : Type} (l : list A) (s : nat) :
  length (combine (seq s (length l)) l) = length l.
Proof. rewrite length_combine, length_seq. apply Nat.min_id. Qed.

Lemma StronglySorted_map {A B : Type} (R : B -> B -> Prop) (f : A -> B)
  (l : list A) :
  StronglySorted R (map f l) <-> StronglySorted (fun a b => R (f a) (f b)) l.
Proof.
  induction l as [|x l IH]; simpl; split; intros H; try constructor;
    apply StronglySorted_inv in H; destruct H as [H1 H2].
  - apply IH, H1.
  - rewrite Forall_map in H2. exact H2.
  - apply IH, H1.
  - rewrite Forall_map. exact H2.
Qed.

Lemma StronglySorted_impl {A : Type} (R R' : A -> A -> Prop) (l : list A) :
  (forall a b, R a b -> R' a b) -> StronglySorted R l -> StronglySorted R' l.
Proof.
  intros H. induction 1 as [|a l Hs IH Ha]; constructor; [exact IH|].
  eapply Forall_impl; [|exact Ha]. intros b. apply H.
Qed.

Lemma cell_head (l : label) (c : colname) (v : value)
  (cs : list (colname * value)) :
  cell (mkRow l ((c, v) :: cs)) c = v.
Proof. unfold cell. simpl. rewrite colname_eqb_refl. reflexivity. Qed.

Lemma num_cell_summary (l : label) (group_col cost_col claim_col : string)
  (k : value) (g : list Row) :
  ~ In group_col summary_names ->
  let o := mkRow l ((Name group_col, k)
                    :: summary_cells cost_col claim_col g) in
  num_cell o (Name "TotalCost")
  = group_sum (map (fun r => num_cell r (Name cost_col)) g)
  /\ num_cell o (Name "TotalClaims")
     = group_sum (map (fun r => num_cell r (Name claim_col)) g)
  /\ num_cell o (Name "SavingsPotential")
     = (num_cell o (Name "TotalCost") - num_cell o (Name "TotalClaims"))%float
  /\ num_cell o (Name "SavingsPercentage")
     = (num_cell o (Name "SavingsPotential") / num_cell o (Name "TotalCost")
        * 100)%float.
Proof.
  intros Hname. apply not_in_summary_names in Hname.
  destruct Hname as (N1 & N2 & N3 & N4).
  rewrite String.eqb_sym in N1, N2, N3, N4.
  unfold num_cell, cell, summary_cells. cbv zeta.
  cbn [cells lookup colname_eqb]. rewrite N1, N2, N3, N4.
  repeat split; reflexivity.
Qed.



(* ----------------------------------------------------------------- *)
(** ** [aggregate_by_group] *)

Lemma sum_mean_spec_names (metrics : list string) :
  map (fun e : colname * colname * aggfun => fst (fst e))
      (sum_mean_spec metrics)
  = flat_map (fun m => [Name2 m "sum"; Name2 m "mean"]) metrics.
Proof.
  induction metrics as [|m ms IH]; simpl; [reflexivity|].
  rewrite IH. reflexivity.
Qed.

Lemma sum_mean_spec_columns (metrics : list string) e :
  In e (sum_mean_spec metrics) ->
  exists m, In m metrics /\ snd (fst e) = Name m.
Proof.
  unfold sum_mean_spec. rewrite in_flat_map. intros [m [Hm He]].
  exists m. split; [exact Hm|].
  simpl in He. destruct He as [<-|[<-|[]]]; reflexivity.
Qed.

Lemma group_column_fresh (group_column : string) (metrics : list string) :
  existsb (colname_eqb (Name2 group_column ""))
    (flat_map (fun m => [Name2 m "sum"; Name2 m "mean"]) metrics) = false.
Proof.
  induction metrics as [|m ms IH]; simpl; [reflexivity|].
  rewrite IH, !andb_false_r. reflexivity.
Qed.

Lemma lookup_sum_mean (F : colname * colname * aggfun -> value)
  (metrics : list string) (m : string) (f : aggfun) :
  In m metrics ->
  lookup (Name2 m (agg_name f))
    (map (fun e => (fst (fst e), F e)) (sum_mean_spec metrics))
  = Some (F (Name2 m (agg_name f), Name m, f)).
Proof.
  induction metrics as [|m0 ms IH]; simpl; [contradiction|].
  intros Hin. destruct (String.eqb_spec m m0) as [->|N].
  - destruct f; simpl; rewrite ?String.eqb_refl; reflexivity.
  - destruct Hin as [->|Hin]; [contradiction|].
    simpl. apply IH, Hin.
Qed.

(** The table [aggregate_by_group] returns, written out. *)
Lemma aggregate_by_group_rows
  (data : DataFrame) (group_column : string) (metrics : list string) :
  has_column data (Name group_column) = true ->
  metrics <> [] ->
  (forall m, In m metrics ->
     has_column data (Name m) = true /\ numeric_column data (Name m)) ->
  aggregate_by_group data group_column metrics
  = Ok (mkDF (aggregate_columns group_column metrics)
          (map (fun ig =>
                  mkRow (LInt (Z.of_nat (fst ig)))
                    ((Name2 group_column "", fst (snd ig))
                     :: map (fun e =>
                          (fst (fst e),
                           VNum (apply_agg (snd e)
                                   (map (fun r => num_cell r (snd (fst e)))
                                        (snd (snd ig))))))
                        (sum_mean_spec metrics)))
               (combine
                  (seq 0 (length (group_by
                                    (fun r => cell r (Name group_column))
                                    (rows data))))
                  (group_by (fun r => cell r (Name group_column))
                            (rows data))))).
Proof.
  intros Hg Hne Hm. unfold aggregate_by_group, groupby, copy.
  change (has_column (mkDF (columns data) (rows data)) (Name group_column))
    with (has_column data (Name group_column)).
  rewrite Hg. simpl rows.
  set (gs := group_by (fun r => cell r (Name group_column)) (rows data)).
  unfold bind at 1. unfold require_columns.
  rewrite missing_columns_none.
  2:{ intros c Hc. apply in_map_iff in Hc. destruct Hc as [m [<- Hin]].
      exact (proj1 (Hm m Hin)). }
  cbn [raise_missing]. unfold bind at 1.
  destruct metrics as [|m0 ms] eqn:Em; [contradiction|]. rewrite <- Em in *.
  unfold bind at 1. unfold agg.
  rewrite missing_columns_none.
  2:{ intros c Hc. apply in_map_iff in Hc. destruct Hc as [e [<- He]].
      destruct (sum_mean_spec_columns metrics e He) as [m [Hin ->]].
      exact (proj1 (Hm m Hin)). }
  cbn [sort_columns fold_right raise_missing]. unfold bind at 1 2.
  rewrite (mapM_ok _
    (fun kg => mkRow (LKey (fst kg))
       (map (fun e =>
          (fst (fst e),
           VNum (apply_agg (snd e)
                   (map (fun r => num_cell r (snd (fst e))) (snd kg)))))
          (sum_mean_spec metrics)))).
  2:{ intros [k g] Hin. simpl fst. simpl snd.
      rewrite (mapM_ok _
        (fun e => (fst (fst e),
                   VNum (apply_agg (snd e)
                           (map (fun r => num_cell r (snd (fst e))) g))))).
      - reflexivity.
      - intros e He.
        destruct (sum_mean_spec_columns metrics e He) as [m [Hmi Ec]].
        unfold agg_cell. rewrite Ec.
        rewrite to_numeric_cells.
        + reflexivity.
        + intros r Hr. apply (proj2 (Hm m Hmi)).
          eapply group_rows_in_data; eassumption. }
  unfold bind at 1. cbv beta iota.
  unfold reset_index, has_column. simpl columns.
  rewrite sum_mean_spec_names, group_column_fresh. simpl rows.
  rewrite renumber_map. reflexivity.
Qed.

(** The mean of a group is its sum over its number of values: with no
    value the sum is 0 and the quotient is NaN. *)
Lemma group_mean_quotient (xs : list float) :
  group_mean xs = (group_sum xs / float_of_nat (series_count xs))%float.
Proof.
  unfold group_mean. destruct (Nat.eqb_spec (series_count xs) 0) as [E|E];
    [|reflexivity].
  rewrite E. unfold group_sum. unfold series_count in E.
  apply length_zero_iff_nil in E. rewrite E. reflexivity.
Qed.

Lemma series_count_all (xs : list float) :
  forallb notna xs = true -> series_count xs = length xs.
Proof.
  unfold series_count. induction xs as [|x xs IH]; simpl; [reflexivity|].
  intros H. apply andb_true_iff in H. destruct H as [Hx Hxs].
  rewrite Hx. simpl. rewrite IH by exact Hxs. reflexivity.
Qed.

Lemma num_cell_aggregate (l : label) (group_column : string) (k : value)
  (g : list Row) (metrics : list string) (m : string) (f : aggfun) :
  In m metrics ->
  num_cell
    (mkRow l
       ((Name2 group_column "", k)
        :: map (fun e : colname * colname * aggfun =>
             (fst (fst e),
              VNum (apply_agg (snd e)
                      (map (fun r => num_cell r (snd (fst e))) g))))
           (sum_mean_spec metrics)))
    (Name2 m (agg_name f))
  = apply_agg f (map (fun r => num_cell r (Name m)) g).
Proof.
  intros Hin. unfold num_cell at 1. unfold cell at 1.
  cbn [cells lookup colname_eqb].
  replace (String.eqb (agg_name f) "") with false by (destruct f; reflexivity).
  rewrite andb_false_r.
  rewrite (lookup_sum_mean
             (fun e => VNum (apply_agg (snd e)
                               (map (fun r => num_cell r (snd (fst e))) g)))
             metrics m f Hin).
  reflexivity.
Qed.

(** C5, as the code has it. With the group column and the metrics present,
    the metrics numeric and at least one of them listed,
    [aggregate_by_group] returns one row per distinct value of the group
    column that is not missing, in ascending order of the key, numbered
    from 0; for each metric the "sum" column is the sum of the metric's
    values that are not missing in the group, as [group_sum] computes it
    on a [float64] column (compensated), and the "mean" column is that sum
    divided by the number of these values, which is the group's row count
    when none of them is missing. *)
Theorem aggregate_by_group_sum_mean
  (data : DataFrame) (group_column : string) (metrics : list string) :
  has_column data (Name group_column) = true ->
  metrics <> [] ->
  (forall m, In m metrics ->
     has_column data (Name m) = true /\ numeric_column data (Name m)) ->
  exists out,
    aggregate_by_group data group_column metrics = Ok out
    /\ columns out = aggregate_columns group_column metrics
    /\ map label_of (rows out) = range_labels (length (rows out))
    /\ StronglySorted
         (fun r s => value_ltb (cell r (Name2 group_column ""))
                               (cell s (Name2 group_column "")) = true)
         (rows out)
    /\ (forall r, In r (rows data) ->
          isna (cell r (Name group_column)) = false ->
          exists o, In o (rows out)
                    /\ value_eqb (cell r (Name group_column))
                                 (cell o (Name2 group_column "")) = true)
    /\ (forall o, In o (rows out) ->
          let g := members (fun r => cell r (Name group_column))
                     (cell o (Name2 group_column "")) (rows data) in
          (exists r, In r (rows data)
                     /\ cell r (Name group_column)
                        = cell o (Name2 group_column ""))
          /\ forall m, In m metrics ->
               let xs := map (fun r => num_cell r (Name m)) g in
               num_cell o (Name2 m "sum") = group_sum xs
               /\ num_cell o (Name2 m "mean")
                  = (num_cell o (Name2 m "sum")
                     / float_of_nat (series_count xs))%float
               /\ (forallb notna xs = true -> series_count xs = length g)).
Proof.
  intros Hg Hne Hm.
  rewrite (aggregate_by_group_rows data group_column metrics Hg Hne Hm).
  set (keyf := fun r => cell r (Name group_column)).
  destruct (group_by_spec Row keyf (rows data)) as (Hs & Hp & Hmem & Hc).
  set (gs := group_by keyf (rows data)) in *.
  eexists. split; [reflexivity|]. simpl columns. simpl rows.
  split; [reflexivity|]. split; [|split; [|split]].
  - rewrite map_map. simpl. rewrite length_map, length_enumerate.
    unfold range_labels.
    rewrite <- (map_fst_enumerate gs 0) at 2. rewrite map_map. reflexivity.
  - apply (proj2 (StronglySorted_map _ _ _)).
    assert (G : StronglySorted keys_lt
                  (map snd (combine (seq 0 (length gs)) gs)))
      by (rewrite map_snd_enumerate; exact Hs).
    apply (proj1 (StronglySorted_map _ _ _)) in G.
    eapply StronglySorted_impl; [|exact G].
    intros a b Hab. rewrite !cell_head. exact Hab.
  - intros r Hr Nr. destruct (Hc r Hr Nr) as (k & ms & Hin & Ek).
    rewrite <- (map_snd_enumerate gs 0) in Hin. apply in_map_iff in Hin.
    destruct Hin as [[i g] [Eg Hin]]. simpl in Eg. subst g.
    eexists. split.
    + apply in_map_iff. exists (i, (k, ms)). split; [reflexivity|exact Hin].
    + rewrite cell_head. exact Ek.
  - intros o Ho. apply in_map_iff in Ho. destruct Ho as [[i [k ms]] [<- Hin]].
    apply in_combine_r in Hin. simpl fst. simpl snd.
    destruct (Hmem k ms Hin) as [-> [r [Hr Er]]].
    rewrite cell_head. split; [exists r; split; assumption|].
    intros m Hmi.
    rewrite (num_cell_aggregate _ group_column k _ metrics m AggSum Hmi).
    rewrite (num_cell_aggregate _ group_column k _ metrics m AggMean Hmi).
    split; [reflexivity|]. split; [apply group_mean_quotient|].
    intros Hall. rewrite (series_count_all _ Hall). apply length_map.
Qed.

Lemma aggregate_by_group_sum_mean_witness :
  exists out,
    aggregate_by_group province_data "Province" ["TotalPremium"%string]
    = Ok out
    /\ columns out = aggregate_columns "Province" ["TotalPremium"%string]
    /\ map label_of (rows out) = range_labels (length (rows out))
    /\ StronglySorted
         (fun r s => value_ltb (cell r (Name2 "Province" ""))
                               (cell s (Name2 "Province" "")) = true)
         (rows out)
    /\ (forall r, In r (rows province_data) ->
          isna (cell r (Name "Province")) = false ->
          exists o, In o (rows out)
                    /\ value_eqb (cell r (Name "Province"))
                                 (cell o (Name2 "Province" "")) = true)
    /\ (forall o, In o (rows out) ->
          let g := members (fun r => cell r (Name "Province"))
                     (cell o (Name2 "Province" "")) (rows province_data) in
          (exists r, In r (rows province_data)
                     /\ cell r (Name "Province")
                        = cell o (Name2 "Province" ""))
          /\ forall m, In m ["TotalPremium"%string] ->
               let xs := map (fun r => num_cell r (Name m)) g in
               num_cell o (Name2 m "sum") = group_sum xs
               /\ num_cell o (Name2 m "mean")
                  = (num_cell o (Name2 m "sum")
                     / float_of_nat (series_count xs))%float
               /\ (forallb notna xs = true -> series_count xs = length g)).
Proof.
  apply aggregate_by_group_sum_mean; [reflexivity|discriminate|].
  intros m [<-|[]]. split; [reflexivity|].
  intros r Hr. simpl in Hr.
  repeat (destruct Hr as [<-|Hr]; [eexists; reflexivity|]). contradiction.
Defined.

(** C5, as stated, fails: in a group of two rows whose second metric value
    is missing, the sum is 1 and the mean is 1, not the sum divided by the
    row count of the group. *)
Lemma aggregate_by_group_mean_counterexample :
  exists out o,
    aggregate_by_group missing_metric_data "g" ["m"%string] = Ok out
    /\ rows out = [o]
    /\ length (members (fun r => cell r (Name "g")) (cell o (Name2 "g" ""))
                 (rows missing_metric_data)) = 2
    /\ num_cell o (Name2 "m" "sum") = 1%float
    /\ num_cell o (Name2 "m" "mean") = 1%float
    /\ (num_cell o (Name2 "m" "mean")
        =? num_cell o (Name2 "m" "sum") / float_of_nat 2)%float = false.
Proof.
  eexists. eexists. split; [reflexivity|]. split; [reflexivity|].
  repeat split; reflexivity.
Qed.

(* ----------------------------------------------------------------- *)
(** ** Comparisons of numbers that are not missing *)

Module FloatCompare.

Import FloatOrder.

Lemma eqb_sym x y : (x =? y)%float = (y =? x)%float.
Proof.
  rewrite !eqb_fcmp, (fcmp_antisym x y).
  destruct (fcmp x y) as [[]|]; reflexivity.
Qed.

Lemma eqb_trans x y z :
  (x =? y)%float = true -> (y =? z)%float = true -> (x =? z)%float = true.
Proof.
  rewrite !eqb_fcmp.
  destruct (fcmp x y) as [[]|] eqn:E1; try discriminate.
  destruct (fcmp y z) as [[]|] eqn:E2; try discriminate.
  rewrite (fcmp_trans _ _ _ _ E1 E2). reflexivity.
Qed.

Lemma eqb_notna_l x y : (x =? y)%float = true -> notna x = true.
Proof.
  rewrite eqb_fcmp. destruct (fcmp x y) as [c|] eqn:E; [|discriminate].
  intros _. unfold notna. rewrite (fcmp_some_l _ _ _ E). reflexivity.
Qed.

Lemma ltb_leb x y : (x <? y)%float = true -> (x <=? y)%float = true.
Proof.
  rewrite ltb_fcmp, leb_fcmp. destruct (fcmp x y) as [[]|]; congruence.
Qed.

Lemma eqb_leb x y : (x =? y)%float = true -> (x <=? y)%float = true.
Proof.
  rewrite eqb_fcmp, leb_fcmp. destruct (fcmp x y) as [[]|]; congruence.
Qed.

Lemma ltb_not_eqb x y : (x <? y)%float = true -> (x =? y)%float = false.
Proof.
  rewrite ltb_fcmp, eqb_fcmp. destruct (fcmp x y) as [[]|]; congruence.
Qed.

Lemma ltb_notna_r x y : (x <? y)%float = true -> notna y = true.
Proof.
  rewrite ltb_fcmp. destruct (fcmp x y) as [c|] eqn:E; [|discriminate].
  intros _. unfold notna. rewrite (fcmp_some_r _ _ _ E). reflexivity.
Qed.

Lemma leb_total x y :
  notna x = true -> notna y = true ->
  (x <? y)%float = false -> (y <=? x)%float = true.
Proof.
  unfold notna. intros Hx Hy. apply negb_true_iff in Hx, Hy.
  rewrite ltb_fcmp, leb_fcmp, (fcmp_antisym x y).
  destruct (fcmp_total x y Hx Hy) as [c ->]. destruct c; simpl; congruence.
Qed.

Lemma ltb_total x y :
  notna x = true -> notna y = true ->
  (x <=? y)%float = false -> (y <? x)%float = true.
Proof.
  unfold notna. intros Hx Hy. apply negb_true_iff in Hx, Hy.
  rewrite ltb_fcmp, leb_fcmp, (fcmp_antisym x y).
  destruct (fcmp_total x y Hx Hy) as [c ->]. destruct c; simpl; congruence.
Qed.

Lemma leb_trans x y z :
  (x <=? y)%float = true -> (y <=? z)%float = true -> (x <=? z)%float = true.
Proof.
  rewrite !leb_fcmp.
  destruct (fcmp x y) as [[]|] eqn:E1; try discriminate;
    destruct (fcmp y z) as [[]|] eqn:E2; try discriminate; intros _ _.
  - rewrite (fcmp_trans _ _ _ _ E1 E2). reflexivity.
  - rewrite (fcmp_eq_l _ _ z E1), E2. reflexivity.
  - rewrite (fcmp_eq_r _ _ x E2) in E1. rewrite E1. reflexivity.
  - rewrite (fcmp_trans _ _ _ _ E1 E2). reflexivity.
Qed.

Lemma ltb_leb_trans x y z :
  (x <? y)%float = true -> (y <=? z)%float = true -> (x <? z)%float = true.
Proof.
  rewrite !ltb_fcmp, leb_fcmp.
  destruct (fcmp x y) as [[]|] eqn:E1; try discriminate;
    destruct (fcmp y z) as [[]|] eqn:E2; try discriminate; intros _ _.
  - rewrite (fcmp_eq_r _ _ x E2) in E1. rewrite E1. reflexivity.
  - rewrite (fcmp_trans _ _ _ _ E1 E2). reflexivity.
Qed.


End FloatCompare.

(* ----------------------------------------------------------------- *)
(** ** Sorted lists and indexers *)

Section SortedLists.

Variable A : Type.

Lemma StronglySorted_impl_In (R R' : A -> A -> Prop) (l : list A) :
  (forall a b, In a l -> In b l -> R a b -> R' a b) ->
  StronglySorted R l -> StronglySorted R' l.
Proof.
  intros H Hs. induction Hs as [|a l Hs IH Ha]; constructor.
  - apply IH. intros x y Hx Hy. apply H; now right.
  - rewrite Forall_forall in *. intros b Hb.
    apply H; [now left|now right|apply Ha, Hb].
Qed.

Lemma StronglySorted_app (R : A -> A -> Prop) (l1 l2 : list A) :
  StronglySorted R l1 -> StronglySorted R l2 ->
  (forall x y, In x l1 -> In y l2 -> R x y) ->
  StronglySorted R (l1 ++ l2).
Proof.
  intros H1 H2 H. induction H1 as [|a l Hs IH Ha]; simpl; [exact H2|].
  constructor.
  - apply IH. intros x y Hx Hy. apply H; [now right|exact Hy].
  - apply Forall_app. split; [exact Ha|].
    apply Forall_forall. intros y Hy. apply H; [now left|exact Hy].
Qed.

Lemma StronglySorted_rev (R : A -> A -> Prop) (l : list A) :
  StronglySorted R l -> StronglySorted (fun a b => R b a) (rev l).
Proof.
  induction 1 as [|a l Hs IH Ha]; simpl; [constructor|].
  apply StronglySorted_app; [exact IH|repeat constructor|].
  intros x y Hx [<-|[]]. apply in_rev in Hx.
  rewrite Forall_forall in Ha. apply Ha, Hx.
Qed.

Lemma StronglySorted_filter (R : A -> A -> Prop) (p : A -> bool)
  (l : list A) :
  StronglySorted R l -> StronglySorted R (filter p l).
Proof.
  induction 1 as [|a l Hs IH Ha]; simpl; [constructor|].
  destruct (p a); [|exact IH]. constructor; [exact IH|].
  rewrite Forall_forall in *. intros b Hb. apply filter_In in Hb.
  apply Ha. tauto.
Qed.

Lemma Permutation_filter (p : A -> bool) (l m : list A) :
  Permutation l m -> Permutation (filter p l) (filter p m).
Proof.
  induction 1 as [|x l m H IH|x y l|l m n H1 IH1 H2 IH2]; simpl.
  - constructor.
  - destruct (p x); [constructor|]; exact IH.
  - destruct (p x), (p y); try reflexivity. constructor.
  - etransitivity; eassumption.
Qed.

Lemma take_nth (d : A) (l : list A) (ix : list nat) :
  Forall (fun i => i < length l) ix ->
  take l ix = map (fun i => nth i l d) ix.
Proof.
  unfold take. induction 1 as [|i ix Hi Hix IH]; simpl; [reflexivity|].
  rewrite IH. destruct (nth_error l i) eqn:E.
  - rewrite (nth_error_nth _ _ d E). reflexivity.
  - apply nth_error_None in E. lia.
Qed.

Lemma map_nth_seq (d : A) (l : list A) :
  map (fun i => nth i l d) (seq 0 (length l)) = l.
Proof.
  induction l as [|x l IH]; simpl; [reflexivity|].
  rewrite <- seq_shift, map_map. simpl. rewrite IH. reflexivity.
Qed.

End SortedLists.

Lemma sorted_lt_unique (l m : list nat) :
  StronglySorted lt l -> StronglySorted lt m -> Permutation l m -> l = m.
Proof.
  intros Hl. revert m. induction Hl as [|a l Hl IH Ha]; intros m Hm P.
  - apply Permutation_nil in P. now subst.
  - destruct m as [|b m].
    + apply Permutation_sym, Permutation_nil in P. discriminate.
    + apply StronglySorted_inv in Hm. destruct Hm as [Hm Hb].
      rewrite Forall_forall in Ha, Hb.
      assert (E : a = b).
      { assert (Ia : In a (b :: m))
          by (eapply Permutation_in; [exact P|now left]).
        assert (Ib : In b (a :: l))
          by (eapply Permutation_in;
              [apply Permutation_sym; exact P|now left]).
        destruct Ia as [->|Ia]; [reflexivity|].
        destruct Ib as [->|Ib]; [reflexivity|].
        specialize (Ha b Ib). specialize (Hb a Ia). lia. }
      subst b. f_equal. apply IH; [exact Hm|].
      eapply Permutation_cons_inv. exact P.
Qed.

Lemma seq_sorted (s n : nat) : StronglySorted lt (seq s n).
Proof.
  revert s. induction n as [|n IH]; intros s; simpl; constructor.
  - apply IH.
  - apply Forall_forall. intros x Hx. apply in_seq in Hx. lia.
Qed.

(* ----------------------------------------------------------------- *)
(** ** The insertion sorts meet the contract of [argsort] *)

Section InsertionArgsort.

Import FloatCompare.

Variable before_ties : bool.
Variable xs : list float.
Hypothesis xs_notna : forallb notna xs = true.

Lemma item_notna (i : nat) : i < length xs -> notna (item xs i) = true.
Proof.
  intros Hi. rewrite forallb_forall in xs_notna. apply xs_notna.
  unfold item. apply nth_In, Hi.
Qed.

Lemma insert_pos_perm (i : nat) (acc : list nat) :
  Permutation (insert_pos before_ties xs i acc) (i :: acc).
Proof.
  induction acc as [|j rest IH]; simpl; [reflexivity|].
  destruct (if before_ties then _ else _); [reflexivity|].
  rewrite IH. apply perm_swap.
Qed.

Lemma insert_pos_In (i : nat) (acc : list nat) (y : nat) :
  In y (insert_pos before_ties xs i acc) -> y = i \/ In y acc.
Proof.
  intros H. apply (Permutation_in _ (insert_pos_perm i acc)) in H.
  destruct H as [->|H]; auto.
Qed.

Lemma insert_pos_sorted (i : nat) (acc : list nat) :
  i < length xs ->
  Forall (fun j => j < length xs) acc ->
  StronglySorted (ascending_at xs) acc ->
  StronglySorted (ascending_at xs) (insert_pos before_ties xs i acc).
Proof.
  intros Hi Hr Hs. induction Hs as [|j rest Hs IH Hj]; simpl.
  - repeat constructor.
  - inversion Hr as [|? ? Rj Rrest]; subst.
    fold (item xs i). fold (item xs j).
    pose proof (item_notna i Hi) as Ni. pose proof (item_notna j Rj) as Nj.
    rewrite Forall_forall in Hj.
    destruct (if before_ties then _ else _) eqn:T.
    + assert (Lij : ascending_at xs i j).
      { unfold ascending_at. destruct before_ties; [exact T|].
        apply ltb_leb, T. }
      constructor; [constructor; [exact Hs|apply Forall_forall, Hj]|].
      constructor; [exact Lij|]. apply Forall_forall. intros y Hy.
      unfold ascending_at in *. eapply leb_trans; [exact Lij|apply Hj, Hy].
    + assert (Lji : ascending_at xs j i).
      { unfold ascending_at. destruct before_ties.
        - apply ltb_leb, ltb_total; assumption.
        - apply leb_total; assumption. }
      constructor; [apply IH, Rrest|]. apply Forall_forall. intros y Hy.
      apply insert_pos_In in Hy. destruct Hy as [->|Hy];
        [exact Lji|apply Hj, Hy].
Qed.

End InsertionArgsort.

Lemma insert_pos_ties (xs : list float) (i : nat) (acc : list nat) :
  Forall (fun j => j < i) acc ->
  StronglySorted (ascending_at xs) acc ->
  StronglySorted (ties_in_order xs) acc ->
  StronglySorted (ties_in_order xs) (insert_pos false xs i acc).
Proof.
  intros Hlt Hs Ht. induction Ht as [|j rest Ht IH Hj]; simpl.
  - repeat constructor.
  - inversion Hlt as [|? ? Lj Lrest]; subst.
    apply StronglySorted_inv in Hs. destruct Hs as [Hs Ha].
    rewrite Forall_forall in Hj, Ha.
    fold (item xs i). fold (item xs j).
    destruct (item xs i <? item xs j)%float eqn:T.
    + constructor; [constructor; [exact Ht|apply Forall_forall, Hj]|].
      apply Forall_forall. intros y Hy E. exfalso.
      assert (L : (item xs i <? item xs y)%float = true).
      { destruct Hy as [<-|Hy]; [exact T|].
        eapply FloatCompare.ltb_leb_trans; [exact T|apply Ha, Hy]. }
      rewrite (FloatCompare.ltb_not_eqb _ _ L) in E. discriminate.
    + constructor; [apply IH; assumption|].
      apply Forall_forall. intros y Hy.
      apply (insert_pos_In false xs) in Hy. destruct Hy as [->|Hy].
      * intros _. exact Lj.
      * apply Hj, Hy.
Qed.

Lemma insertion_argsort_prefix (b : bool) (xs : list float) (m : nat) :
  forallb notna xs = true ->
  m <= length xs ->
  let acc := fold_left (fun acc i => insert_pos b xs i acc) (seq 0 m) [] in
  Permutation acc (seq 0 m)
  /\ StronglySorted (ascending_at xs) acc
  /\ (b = false -> StronglySorted (ties_in_order xs) acc).
Proof.
  intros Hx. induction m as [|m IH]; intros Hm; cbv zeta.
  - simpl. repeat split; constructor.
  - rewrite seq_S, fold_left_app. simpl.
    destruct (IH (Nat.lt_le_incl _ _ Hm)) as (P & S & T).
    set (acc := fold_left (fun acc i => insert_pos b xs i acc) (seq 0 m) [])
      in *.
    assert (R : Forall (fun j => j < m) acc).
    { apply Forall_forall. intros j Hj.
      apply (Permutation_in _ P), in_seq in Hj. lia. }
    repeat split.
    + rewrite insert_pos_perm, P. apply Permutation_cons_append.
    + apply insert_pos_sorted; [exact Hx|exact Hm| |exact S].
      eapply Forall_impl; [|exact R]. simpl. intros; lia.
    + intros ->. apply insert_pos_ties; [exact R|exact S|apply T; reflexivity].
Qed.

Lemma insertion_argsort_contract (b : bool) :
  ArgsortContract (insertion_argsort b).
Proof.
  split; intros xs Hx;
    destruct (insertion_argsort_prefix b xs (length xs) Hx (le_n _))
      as (P & S & _); assumption.
Qed.

Lemma stable_argsort_stable : StableArgsort stable_argsort.
Proof.
  intros xs Hx.
  destruct (insertion_argsort_prefix false xs (length xs) Hx (le_n _))
    as (_ & _ & T). apply T. reflexivity.
Qed.

(* ----------------------------------------------------------------- *)
(** ** The indexer of a descending sort *)

Lemma select_mask_all {A : Type} (l : list A) :
  select_mask (repeat true (length l)) l = l.
Proof. induction l as [|x l IH]; simpl; [reflexivity|]. now rewrite IH. Qed.

Lemma select_mask_none {A : Type} (n : nat) (l : list A) :
  select_mask (repeat false n) l = [].
Proof.
  revert l. induction n as [|n IH]; intros [|x l]; simpl; auto.
Qed.

Lemma notna_masks (xs : list float) :
  forallb notna xs = true ->
  map negb (map is_nan xs) = repeat true (length xs)
  /\ map is_nan xs = repeat false (length xs).
Proof.
  induction xs as [|x xs IH]; simpl; intros H; [split; reflexivity|].
  apply andb_true_iff in H. destruct H as [Hx Hxs].
  destruct (IH Hxs) as [E1 E2]. rewrite E1, E2.
  unfold notna in Hx. apply negb_true_iff in Hx. rewrite Hx.
  split; reflexivity.
Qed.

Lemma forallb_rev {A : Type} (p : A -> bool) (l : list A) :
  forallb p l = true -> forallb p (rev l) = true.
Proof.
  rewrite !forallb_forall. intros H x Hx. apply H, in_rev, Hx.
Qed.

Lemma take_perm {A : Type} (l : list A) (ix : list nat) :
  Permutation ix (seq 0 (length l)) -> Permutation (take l ix) l.
Proof.
  intros P. destruct l as [|d l'] eqn:E.
  - simpl in P. apply Permutation_sym, Permutation_nil in P. subst.
    reflexivity.
  - rewrite <- E in *.
    rewrite (take_nth _ d).
    + apply Permutation_trans
        with (map (fun i => nth i l d) (seq 0 (length l)));
        [apply Permutation_map, P|rewrite map_nth_seq; reflexivity].
    + apply Forall_forall. intros i Hi.
      apply (Permutation_in _ P), in_seq in Hi. lia.
Qed.

Lemma nth_rev_seq (n p : nat) :
  p < n -> nth p (rev (seq 0 n)) 0 = n - S p.
Proof.
  intros Hp. rewrite rev_nth by (rewrite length_seq; exact Hp).
  rewrite length_seq. rewrite seq_nth by lia. reflexivity.
Qed.

Lemma item_rev (xs : list float) (p : nat) :
  p < length xs -> item (rev xs) p = item xs (length xs - S p).
Proof. intros Hp. unfold item. apply rev_nth, Hp. Qed.

Section Nargsort.

Variable argsort : list float -> list nat.
Variable xs : list float.
Hypothesis xs_notna : forallb notna xs = true.
Hypothesis argsort_ok : SortsItems argsort (rev xs).

Lemma argsort_in_range (p : nat) :
  In p (argsort (rev xs)) -> p < length xs.
Proof.
  intros Hp.
  apply (Permutation_in _ (proj1 argsort_ok)) in Hp.
  apply in_seq in Hp. rewrite length_rev in Hp. lia.
Qed.

(** On items without NaN the descending indexer is the reversed ascending
    indexer of the reversed items, taken through the reversed positions. *)
Lemma nargsort_descending :
  nargsort argsort xs false
  = rev (map (fun p => length xs - S p) (argsort (rev xs))).
Proof.
  unfold nargsort. cbv zeta. destruct (notna_masks xs xs_notna) as [E1 E2].
  rewrite E1, E2. rewrite (select_mask_all xs), select_mask_none, app_nil_r.
  replace (repeat true (length xs))
    with (repeat true (length (seq 0 (length xs))))
    by (rewrite length_seq; reflexivity).
  rewrite (select_mask_all (seq 0 (length xs))).
  f_equal. rewrite (take_nth _ 0).
  - apply map_ext_in. intros p Hp. apply nth_rev_seq, argsort_in_range, Hp.
  - apply Forall_forall. intros p Hp. rewrite length_rev, length_seq.
    apply argsort_in_range, Hp.
Qed.

Lemma nargsort_perm :
  Permutation (nargsort argsort xs false) (seq 0 (length xs)).
Proof.
  unfold nargsort. cbv zeta. destruct (notna_masks xs xs_notna) as [E1 E2].
  rewrite E1, E2. rewrite (select_mask_all xs), select_mask_none, app_nil_r.
  replace (repeat true (length xs))
    with (repeat true (length (seq 0 (length xs))))
    by (rewrite length_seq; reflexivity).
  rewrite (select_mask_all (seq 0 (length xs))).
  rewrite <- Permutation_rev.
  rewrite take_perm.
  - symmetry. apply Permutation_rev.
  - rewrite length_rev, length_seq. rewrite <- (length_rev xs).
    exact (proj1 argsort_ok).
Qed.

Lemma nargsort_sorted :
  StronglySorted (descending_at xs) (nargsort argsort xs false).
Proof.
  rewrite nargsort_descending.
  apply (StronglySorted_rev _ (ascending_at xs)).
  apply (proj2 (StronglySorted_map _ _ _)).
  eapply StronglySorted_impl_In; [|exact (proj2 argsort_ok)].
  intros p q Hp Hq. unfold ascending_at.
  rewrite !item_rev by (apply argsort_in_range; assumption). auto.
Qed.

Lemma nargsort_stable :
  KeepsTies argsort (rev xs) ->
  StronglySorted (ties_in_order xs) (nargsort argsort xs false).
Proof.
  intros St. rewrite nargsort_descending.
  apply (StronglySorted_rev _ (fun u v => ties_in_order xs v u)).
  apply (proj2 (StronglySorted_map _ _ _)).
  eapply StronglySorted_impl_In; [|exact St].
  intros p q Hp Hq T. unfold ties_in_order in *.
  pose proof (argsort_in_range p Hp). pose proof (argsort_in_range q Hq).
  rewrite !item_rev in T by assumption.
  intros E. rewrite FloatCompare.eqb_sym in E. specialize (T E). lia.
Qed.

End Nargsort.

(* ----------------------------------------------------------------- *)
(** ** [rank_savings_opportunities] *)


Lemma renumber_keep (rs : list Row) :
  renumber (fun _ cs => cs) rs
  = map (fun ir => mkRow (LInt (Z.of_nat (fst ir))) (cells (snd ir)))
        (combine (seq 0 (length rs)) rs).
Proof. reflexivity. Qed.

Lemma renumber_labels
  (f : label -> list (colname * value) -> list (colname * value))
  (rs : list Row) :
  map label_of (renumber f rs) = range_labels (length (renumber f rs)).
Proof.
  unfold renumber, range_labels. rewrite length_map, length_enumerate.
  rewrite map_map. simpl.
  rewrite <- (map_map fst (fun i => LInt (Z.of_nat i))).
  rewrite map_fst_enumerate. reflexivity.
Qed.

Lemma renumber_keep_cells (rs : list Row) :
  map cells (renumber (fun _ cs => cs) rs) = map cells rs.
Proof.
  rewrite renumber_keep, map_map. simpl.
  rewrite <- (map_map snd cells). rewrite map_snd_enumerate. reflexivity.
Qed.

Lemma renumber_keep_sorted (R : float -> float -> Prop) (rs : list Row) :
  StronglySorted (fun r s => R (percentage r) (percentage s)) rs ->
  StronglySorted (fun r s => R (percentage r) (percentage s))
    (renumber (fun _ cs => cs) rs).
Proof.
  intros H. rewrite renumber_keep.
  apply (proj2 (StronglySorted_map _ _ _)).
  rewrite <- (map_snd_enumerate rs 0) in H.
  apply (proj1 (StronglySorted_map _ _ _)) in H. exact H.
Qed.

Lemma renumber_keep_In (rs : list Row) (o : Row) :
  In o (renumber (fun _ cs => cs) rs) ->
  exists r, In r rs /\ cells o = cells r.
Proof.
  rewrite renumber_keep. intros H. apply in_map_iff in H.
  destruct H as [[i r] [<- H]]. apply in_combine_r in H.
  exists r. split; [exact H|reflexivity].
Qed.



Lemma above_notna (threshold : float) (rs : list Row) :
  forallb notna (map percentage (filter (above threshold) rs)) = true.
Proof.
  apply forallb_forall. intros x Hx. apply in_map_iff in Hx.
  destruct Hx as [r [<- Hr]]. apply filter_In in Hr.
  eapply FloatCompare.ltb_notna_r. exact (proj2 Hr).
Qed.

Lemma numeric_column_filter (df : DataFrame) (c : colname)
  (p : Row -> bool) :
  numeric_column df c ->
  numeric_column (mkDF (columns df) (filter p (rows df))) c.
Proof.
  intros H r Hr. simpl in Hr. apply filter_In in Hr. apply H. tauto.
Qed.

Section RankSavings.

Variable argsort : list float -> list nat.

(** The table [rank_savings_opportunities] returns, written out. *)
Lemma rank_savings_opportunities_rows
  (savings_summary : DataFrame) (threshold : float) :
  has_column savings_summary (Name "SavingsPercentage") = true ->
  numeric_column savings_summary (Name "SavingsPercentage") ->
  let filtered := filter (above threshold) (rows savings_summary) in
  rank_savings_opportunities argsort savings_summary threshold
  = Ok (mkDF (columns savings_summary)
          (renumber (fun _ cs => cs)
             (take filtered
                (nargsort argsort (map percentage filtered) false)))).
Proof.
  intros Hc Hn filtered. unfold rank_savings_opportunities.
  rewrite (getitem_ok _ _ Hc). unfold bind at 1. unfold series_gt.
  rewrite (to_numeric_cells _ _ Hn). unfold bind at 2. unfold bind at 1.
  assert (E : getitem_mask savings_summary
                (map (fun x => (threshold <? x)%float)
                   (map (fun r => num_cell r (Name "SavingsPercentage"))
                      (rows savings_summary)))
              = mkDF (columns savings_summary) filtered).
  { unfold getitem_mask. f_equal.
    apply (select_mask_map2
             (fun r => num_cell r (Name "SavingsPercentage"))
             (fun x => (threshold <? x)%float)). }
  rewrite E. unfold sort_values, getitem.
  change (has_column (mkDF (columns savings_summary) filtered)
            (Name "SavingsPercentage"))
    with (has_column savings_summary (Name "SavingsPercentage")).
  rewrite Hc. unfold bind at 2. simpl rows.
  rewrite (to_numeric_cells (Name "SavingsPercentage") filtered).
  - reflexivity.
  - apply (numeric_column_filter savings_summary _ (above threshold) Hn).
Qed.

Lemma percentage_item (d : Row) (rs : list Row) (i : nat) :
  i < length rs -> item (map percentage rs) i = percentage (nth i rs d).
Proof.
  intros Hi. unfold item.
  rewrite (nth_indep _ nan (percentage d)) by (rewrite length_map; exact Hi).
  apply map_nth.
Qed.

(** The rows sorted by an [argsort] that sorts their reversed
    percentages. *)
Lemma sorted_rows_at (fl : list Row) :
  forallb notna (map percentage fl) = true ->
  SortsItems argsort (rev (map percentage fl)) ->
  Permutation (take fl (nargsort argsort (map percentage fl) false)) fl
  /\ StronglySorted
       (fun r s => (percentage s <=? percentage r)%float = true)
       (take fl (nargsort argsort (map percentage fl) false))
  /\ (KeepsTies argsort (rev (map percentage fl)) ->
      forall k,
        tied_cells k (take fl (nargsort argsort (map percentage fl) false))
        = tied_cells k fl).
Proof.
  intros Hx Hat.
  pose proof (nargsort_perm argsort _ Hx Hat) as P.
  rewrite length_map in P.
  pose proof (nargsort_sorted argsort _ Hx Hat) as S.
  pose proof (nargsort_stable argsort _ Hx Hat) as T.
  set (ix := nargsort argsort (map percentage fl) false) in *.
  assert (R : Forall (fun i => i < length fl) ix).
  { apply Forall_forall. intros i Hi.
    apply (Permutation_in _ P), in_seq in Hi. lia. }
  split; [apply take_perm, P|].
  set (d := mkRow (LInt 0) []).
  rewrite (take_nth _ d _ _ R). split.
  - apply (proj2 (StronglySorted_map _ _ _)).
    eapply StronglySorted_impl_In; [|exact S].
    intros i j Hi Hj. rewrite Forall_forall in R.
    unfold descending_at.
    rewrite !(percentage_item d) by (apply R; assumption). auto.
  - intros St k. unfold tied_cells. f_equal.
    replace (filter (fun r => (percentage r =? k)%float) fl)
      with (filter (fun r => (percentage r =? k)%float)
              (map (fun i => nth i fl d) (seq 0 (length fl))))
      by (rewrite map_nth_seq; reflexivity).
    rewrite !filter_map_swap. f_equal.
    apply sorted_lt_unique.
    + eapply StronglySorted_impl_In;
        [|apply StronglySorted_filter, (T St)].
      intros i j Hi Hj Tij. apply filter_In in Hi, Hj.
      destruct Hi as [Hi Ei], Hj as [Hj Ej]. rewrite Forall_forall in R.
      apply Tij. rewrite !(percentage_item d) by (apply R; assumption).
      eapply FloatCompare.eqb_trans; [exact Ei|].
      rewrite FloatCompare.eqb_sym. exact Ej.
    + apply StronglySorted_filter, seq_sorted.
    + apply Permutation_filter, P.
Qed.

Hypothesis argsort_ok : ArgsortContract argsort.

Lemma sorted_rows_spec (fl : list Row) :
  forallb notna (map percentage fl) = true ->
  Permutation (take fl (nargsort argsort (map percentage fl) false)) fl
  /\ StronglySorted
       (fun r s => (percentage s <=? percentage r)%float = true)
       (take fl (nargsort argsort (map percentage fl) false))
  /\ (StableArgsort argsort ->
      forall k,
        tied_cells k (take fl (nargsort argsort (map percentage fl) false))
        = tied_cells k fl).
Proof.
  intros Hx.
  assert (Hr : forallb notna (rev (map percentage fl)) = true)
    by (apply forallb_rev, Hx).
  destruct (sorted_rows_at fl Hx
              (conj (argsort_perm _ argsort_ok _ Hr)
                    (argsort_sorted _ argsort_ok _ Hr)))
    as (P & S & T).
  split; [exact P|]. split; [exact S|].
  intros St. apply T, St, Hr.
Qed.

End RankSavings.

Lemma percentage_ext (o r : Row) :
  cells o = cells r -> percentage o = percentage r.
Proof.
  intros E. unfold percentage, num_cell, cell. rewrite E. reflexivity.
Qed.

Lemma summary_percentage_numeric
  (group_col cost_col claim_col : string)
  (gs : list (value * list Row)) :
  ~ In group_col summary_names ->
  numeric_column
    (mkDF (Name group_col :: map Name summary_names)
       (map (fun ig : nat * (value * list Row) =>
               mkRow (LInt (Z.of_nat (fst ig)))
                 ((Name group_col, fst (snd ig))
                  :: summary_cells cost_col claim_col (snd (snd ig))))
            (combine (seq 0 (length gs)) gs)))
    (Name "SavingsPercentage").
Proof.
  intros Hname r Hr. simpl in Hr. apply in_map_iff in Hr.
  destruct Hr as [[i [k g]] [<- _]].
  apply not_in_summary_names in Hname. destruct Hname as (_ & _ & _ & N4).
  rewrite String.eqb_sym in N4.
  unfold cell, summary_cells. cbv zeta. cbn [cells lookup colname_eqb].
  rewrite N4. simpl. eexists. reflexivity.
Qed.

(** C3. For an [argsort] that meets its contract, and a summary with a
    numeric SavingsPercentage column, [rank_savings_opportunities] returns
    exactly the rows whose percentage is strictly above the threshold,
    each once, in non-increasing order of the percentage, numbered from 0
    without gaps; after [calculate_cost_savings], with the default
    threshold 0, every returned row has a percentage above 0. *)
Theorem rank_savings_opportunities_ranked
  (argsort : list float -> list nat) :
  ArgsortContract argsort ->
  (forall (savings_summary : DataFrame) (threshold : float),
     has_column savings_summary (Name "SavingsPercentage") = true ->
     numeric_column savings_summary (Name "SavingsPercentage") ->
     exists out,
       rank_savings_opportunities argsort savings_summary threshold = Ok out
       /\ columns out = columns savings_summary
       /\ map label_of (rows out) = range_labels (length (rows out))
       /\ Permutation (map cells (rows out))
            (map cells (filter (above threshold) (rows savings_summary)))
       /\ StronglySorted
            (fun r s => (percentage s <=? percentage r)%float = true)
            (rows out)
       /\ (forall o, In o (rows out) ->
                     (threshold <? percentage o)%float = true))
  /\ (forall (data : DataFrame) (group_col cost_col claim_col : string),
        has_column data (Name group_col) = true ->
        has_column data (Name cost_col) = true ->
        has_column data (Name claim_col) = true ->
        numeric_column data (Name cost_col) ->
        numeric_column data (Name claim_col) ->
        ~ In group_col summary_names ->
        exists summary out,
          calculate_cost_savings data group_col cost_col claim_col
          = Ok summary
          /\ rank_savings_opportunities argsort summary default_threshold
             = Ok out
          /\ (forall o, In o (rows out) ->
                        (0 <? percentage o)%float = true)
          /\ StronglySorted
               (fun r s => (percentage s <=? percentage r)%float = true)
               (rows out)).
Proof.
  intros Hok.
  assert (General :
    forall (savings_summary : DataFrame) (threshold : float),
     has_column savings_summary (Name "SavingsPercentage") = true ->
     numeric_column savings_summary (Name "SavingsPercentage") ->
     exists out,
       rank_savings_opportunities argsort savings_summary threshold = Ok out
       /\ columns out = columns savings_summary
       /\ map label_of (rows out) = range_labels (length (rows out))
       /\ Permutation (map cells (rows out))
            (map cells (filter (above threshold) (rows savings_summary)))
       /\ StronglySorted
            (fun r s => (percentage s <=? percentage r)%float = true)
            (rows out)
       /\ (forall o, In o (rows out) ->
                     (threshold <? percentage o)%float = true)).
  { intros df threshold Hc Hn.
    rewrite (rank_savings_opportunities_rows argsort df threshold Hc Hn).
    cbv zeta. set (fl := filter (above threshold) (rows df)).
    destruct (sorted_rows_spec argsort Hok fl (above_notna threshold (rows df)))
      as (P & S & _).
    eexists. split; [reflexivity|]. simpl columns. simpl rows.
    split; [reflexivity|]. split; [apply renumber_labels|]. split; [|split].
    - rewrite renumber_keep_cells. apply Permutation_map, P.
    - apply (renumber_keep_sorted (fun x y => (y <=? x)%float = true)), S.
    - intros o Ho. apply renumber_keep_In in Ho. destruct Ho as [r [Hr E]].
      rewrite (percentage_ext o r E).
      apply (Permutation_in _ P) in Hr. apply filter_In in Hr.
      exact (proj2 Hr). }
  split; [exact General|].
  intros data group_col cost_col claim_col Hg Hcost Hclaim Ncost Nclaim Hname.
  pose proof (calculate_cost_savings_rows data group_col cost_col claim_col
                Hg Hcost Hclaim Ncost Nclaim Hname) as E.
  set (gs := group_by (fun r => cell r (Name group_col)) (rows data)) in *.
  eexists.
  destruct (General _ default_threshold
              (In_has_column
                 (mkDF (Name group_col :: map Name summary_names) _)
                 (Name "SavingsPercentage")
                 (or_intror (or_intror (or_intror (or_intror
                    (or_introl eq_refl))))))
              (summary_percentage_numeric group_col cost_col claim_col gs
                 Hname))
    as (out & Eo & _ & _ & _ & S & A).
  exists out. split; [exact E|]. split; [exact Eo|]. split; [exact A|exact S].
Qed.

Lemma province_summary_numeric :
  numeric_column province_summary (Name "SavingsPercentage").
Proof.
  intros r Hr. simpl in Hr.
  repeat (destruct Hr as [<-|Hr]; [eexists; reflexivity|]). contradiction.
Qed.

Lemma rank_savings_opportunities_ranked_witness :
  exists out,
    rank_savings_opportunities stable_argsort province_summary 0 = Ok out
    /\ columns out = columns province_summary
    /\ map label_of (rows out) = range_labels (length (rows out))
    /\ Permutation (map cells (rows out))
         (map cells (filter (above 0) (rows province_summary)))
    /\ StronglySorted
         (fun r s => (percentage s <=? percentage r)%float = true)
         (rows out)
    /\ (forall o, In o (rows out) -> (0 <? percentage o)%float = true).
Proof.
  apply (proj1 (rank_savings_opportunities_ranked stable_argsort
                  (insertion_argsort_contract false))).
  - reflexivity.
  - exact province_summary_numeric.
Defined.


(* ----------------------------------------------------------------- *)
(** ** numpy's quicksort on a short array *)

Section QuicksortInsertion.

Variable v : list float.
Hypothesis v_notna : forallb notna v = true.









End QuicksortInsertion.




(* ----------------------------------------------------------------- *)
(** ** The test runners *)

Section TestRunners.

Variable ttest_ind : list value -> list value -> res (float * float).
Variable chi2_contingency :
  DataFrame -> res (float * float * Z * list (list float)).
Variable f_oneway : list (list value) -> res (float * float).
Variable mannwhitneyu : list value -> list value -> res (float * float).

(** A runner's result holds the routine's p-value and its comparison with
    0.05. *)
Lemma returned_inv (r : TestResult) :
  returned ttest_ind chi2_contingency f_oneway mannwhitneyu r ->
  significant r = (p_value r <? 0.05)%float
  /\ ((exists a b s, ttest_ind a b = Ok (s, p_value r))
      \/ (exists t s d e, chi2_contingency t = Ok (s, p_value r, d, e))
      \/ (exists gs s, f_oneway gs = Ok (s, p_value r))
      \/ (exists a b s, mannwhitneyu a b = Ok (s, p_value r))).
Proof.
  intros [ga gb m r' H|t r' H|gs r' H|ga gb m r' H].
  - unfold perform_t_test in H.
    destruct (getitem ga (Name m)) as [a|]; [|discriminate].
    destruct (getitem gb (Name m)) as [b|]; [|discriminate].
    simpl in H. destruct (ttest_ind a b) as [[s p]|] eqn:E; [|discriminate].
    injection H as <-. simpl. split; [reflexivity|]. left. eauto.
  - unfold perform_chi2_test in H.
    destruct (chi2_contingency t) as [[[[s p] d] e]|] eqn:E; [|discriminate].
    injection H as <-. simpl. split; [reflexivity|]. right. left. eauto.
  - unfold perform_anova_test in H.
    destruct (f_oneway gs) as [[s p]|] eqn:E; [|discriminate].
    injection H as <-. simpl. split; [reflexivity|]. right. right. left. eauto.
  - unfold perform_mannwhitneyu_test in H.
    destruct (getitem ga (Name m)) as [a|]; [|discriminate].
    destruct (getitem gb (Name m)) as [b|]; [|discriminate].
    simpl in H. destruct (mannwhitneyu a b) as [[s p]|] eqn:E; [|discriminate].
    injection H as <-. simpl. split; [reflexivity|]. right. right. right.
    eauto.
Qed.

(** C1, as the code has it. For every result [r] of one of the four test
    runners, [significant r] is [p_value r < 0.05], with the constant 0.05
    of the code: a p-value of exactly 0.05 is not significant, and neither
    is a p-value that is NaN. [p_value r] is the p-value the statistical
    routine returned, which no runner checks: it is in [0, 1] or NaN, as
    the routines' p-values are. *)
Theorem test_result_significance (r : TestResult) :
  returned ttest_ind chi2_contingency f_oneway mannwhitneyu r ->
  significant r = (p_value r <? 0.05)%float
  /\ (p_value r = 0.05%float -> significant r = false)
  /\ (is_nan (p_value r) = true ->
      significant r = false /\ ~ unit_interval (p_value r))
  /\ (PValueContract ttest_ind chi2_contingency f_oneway mannwhitneyu ->
      unit_interval (p_value r) \/ is_nan (p_value r) = true).
Proof.
  intros H. destruct (returned_inv r H) as [S P].
  split; [exact S|]. split; [|split].
  - intros E. rewrite S, E. reflexivity.
  - intros N. split.
    + rewrite S, FloatOrder.ltb_fcmp, (FloatOrder.fcmp_nan_l _ _ N).
      reflexivity.
    + intros [_ L].
      rewrite FloatOrder.leb_fcmp, (FloatOrder.fcmp_nan_l _ _ N) in L.
      discriminate.
  - intros C.
    destruct P as [(a & b & s & E)|[(t & s & d & e & E)|[(gs & s & E)
                  |(a & b & s & E)]]].
    + exact (ttest_ind_p _ _ _ _ C _ _ _ _ E).
    + exact (chi2_contingency_p _ _ _ _ C _ _ _ _ _ E).
    + exact (f_oneway_p _ _ _ _ C _ _ _ E).
    + exact (mannwhitneyu_p _ _ _ _ C _ _ _ _ E).
Qed.

End TestRunners.

Lemma constant_tests_contract :
  PValueContract (constant_test 2.5 0.05)
    (fun _ => Ok (2.5%float, 0.05%float, 1%Z, []))
    (fun _ => Ok (2.5%float, 0.05%float))
    (constant_test 2.5 0.05).
Proof.
  split; unfold constant_test; intros;
    match goal with H : Ok _ = Ok _ |- _ => injection H as <- <- end;
    left; split; reflexivity.
Qed.

Lemma test_result_significance_witness :
  (false = (0.05 <? 0.05)%float
   /\ (unit_interval 0.05 \/ is_nan 0.05 = true))
  /\ (false = (nan <? 0.05)%float /\ ~ unit_interval nan).
Proof.
  split.
  - assert (R : returned (constant_test 2.5 0.05)
                  (fun _ => Ok (2.5%float, 0.05%float, 1%Z, []))
                  (fun _ => Ok (2.5%float, 0.05%float))
                  (constant_test 2.5 0.05)
                  (mkTestResult 2.5 0.05 false)).
    { apply (returned_t_test _ _ _ _ province_data province_data
               "TotalClaims"). reflexivity. }
    destruct (test_result_significance _ _ _ _ _ R) as (S & _ & _ & C).
    split; [exact S|exact (C constant_tests_contract)].
  - assert (R : returned (constant_test nan nan)
                  (fun _ => Raise ValueError)
                  (fun _ => Raise ValueError)
                  (fun _ _ => Raise ValueError)
                  (mkTestResult nan nan false)).
    { apply (returned_t_test _ _ _ _ single_a single_b "m"). reflexivity. }
    destruct (test_result_significance _ _ _ _ _ R) as (S & _ & N & _).
    split; [exact S|exact (proj2 (N eq_refl))].
Defined.

(** C1, as stated, fails on the range: on two samples of one observation
    the statistic of the t-test is not defined, the routine returns NaN
    for it and for the p-value, and the runner returns that p-value, which
    is not in [0, 1]. No routine that returns NaN there, as scipy's does,
    keeps the p-values of the runner in [0, 1]. *)
Lemma test_result_range_counterexample :
  (exists r,
     perform_t_test (constant_test nan nan) single_a single_b "m" = Ok r
     /\ is_nan (p_value r) = true
     /\ significant r = false
     /\ ~ unit_interval (p_value r))
  /\ ~ (exists ttest_ind,
          ttest_ind [VNum 1] [VNum 2] = Ok (nan, nan)
          /\ p_values_in_unit_interval ttest_ind).
Proof.
  split.
  - eexists. split; [reflexivity|]. split; [reflexivity|].
    split; [reflexivity|]. intros [L _]. discriminate L.
  - intros [ttest_ind [E C]].
    assert (R : perform_t_test ttest_ind single_a single_b "m"
                = Ok (mkTestResult nan nan false)).
    { unfold perform_t_test.
      change (getitem single_a (Name "m")) with (Ok [VNum 1%float]).
      change (getitem single_b (Name "m")) with (Ok [VNum 2%float]).
      cbn beta iota delta [bind]. rewrite E. reflexivity. }
    destruct (C (fun _ => Raise ValueError) (fun _ => Raise ValueError)
                (fun _ _ => Raise ValueError) _
                (returned_t_test _ _ _ _ _ _ _ _ R)) as [L _].
    discriminate L.
Qed.

(* ----------------------------------------------------------------- *)
(** ** The rank-sum statistic on swapped samples *)

Lemma sumZ_app (l m : list Z) : sumZ (l ++ m) = (sumZ l + sumZ m)%Z.
Proof.
  unfold sumZ. induction l as [|a l IH]; simpl; [reflexivity|].
  rewrite IH. lia.
Qed.

Lemma sumZ_cons (a : Z) (l : list Z) : sumZ (a :: l) = (a + sumZ l)%Z.
Proof. reflexivity. Qed.

Lemma count_score (pool : list float) (v : float) :
  (2 * count_lt pool v + count_eq pool v)%Z = sumZ (map (score v) pool).
Proof.
  unfold count_lt, count_eq, score.
  induction pool as [|w pool IH]; [reflexivity|].
  cbn [filter map]. rewrite sumZ_cons, <- IH.
  destruct (w <? v)%float, (w =? v)%float; cbn [length]; lia.
Qed.

Lemma rank2_app (x y : list float) (v : float) :
  rank2 (x ++ y) v
  = (sumZ (map (score v) x) + sumZ (map (score v) y) + 1)%Z.
Proof.
  unfold rank2. rewrite count_score, map_app, sumZ_app. reflexivity.
Qed.

Lemma double_sum_swap (f : float -> float -> Z) (x y : list float) :
  double_sum f x y = double_sum (fun v w => f w v) y x.
Proof.
  unfold double_sum. revert y. induction x as [|a x IH]; intros y; simpl.
  - induction y as [|b y IHy]; simpl; [reflexivity|]. rewrite <- IHy.
    reflexivity.
  - rewrite IH. clear IH. induction y as [|b y IHy]; simpl; [reflexivity|].
    rewrite <- IHy. lia.
Qed.

Lemma double_sum_plus (f g : float -> float -> Z) (x y : list float) :
  double_sum (fun v w => (f v w + g v w)%Z) x y
  = (double_sum f x y + double_sum g x y)%Z.
Proof.
  unfold double_sum. induction x as [|a x IH]; simpl; [reflexivity|].
  rewrite IH.
  assert (E : sumZ (map (fun w => (f a w + g a w)%Z) y)
              = (sumZ (map (f a) y) + sumZ (map (g a) y))%Z).
  { clear IH. induction y as [|b y IHy]; simpl; [reflexivity|].
    rewrite IHy. lia. }
  rewrite E. lia.
Qed.

Lemma double_sum_const (f : float -> float -> Z) (c : Z)
  (x y : list float) :
  (forall v w, In v x -> In w y -> f v w = c) ->
  double_sum f x y = (c * Z.of_nat (length x) * Z.of_nat (length y))%Z.
Proof.
  unfold double_sum. induction x as [|a x IH]; intros H.
  - simpl. lia.
  - cbn [map sumZ fold_right length].
    change (fold_right Z.add 0%Z
              (map (fun v => sumZ (map (f v) y)) x))
      with (sumZ (map (fun v => sumZ (map (f v) y)) x)).
    rewrite IH by (intros v w Hv Hw; apply H; [now right|exact Hw]).
    assert (E : sumZ (map (f a) y) = (c * Z.of_nat (length y))%Z).
    { assert (Ha : forall w, In w y -> f a w = c)
        by (intros w Hw; apply H; [now left|exact Hw]).
      clear IH H. induction y as [|b y IHy]; [simpl; lia|].
      cbn [map sumZ fold_right length].
      change (fold_right Z.add 0%Z (map (f a) y)) with (sumZ (map (f a) y)).
      rewrite IHy by (intros w Hw; apply Ha; now right).
      rewrite (Ha b (or_introl eq_refl)). lia. }
    rewrite E. lia.
Qed.

Lemma score_pair (v w : float) :
  notna v = true -> notna w = true -> (score v w + score w v = 2)%Z.
Proof.
  unfold notna. intros Hv Hw. apply negb_true_iff in Hv, Hw.
  unfold score.
  rewrite !FloatOrder.ltb_fcmp, !FloatOrder.eqb_fcmp.
  rewrite (FloatOrder.fcmp_antisym w v).
  destruct (FloatOrder.fcmp_total w v Hw Hv) as [c ->].
  destruct c; reflexivity.
Qed.

Lemma double_sum_score (x y : list float) :
  forallb notna x = true -> forallb notna y = true ->
  (double_sum score x y + double_sum score y x
   = 2 * Z.of_nat (length x) * Z.of_nat (length y))%Z.
Proof.
  intros Hx Hy. rewrite (double_sum_swap score y x).
  rewrite <- double_sum_plus. apply double_sum_const.
  intros v w Hv Hw. rewrite forallb_forall in Hx, Hy.
  apply score_pair; auto.
Qed.

Lemma rank_sum_score (l x y : list float) :
  sumZ (map (rank2 (x ++ y)) l)
  = (double_sum score l x + double_sum score l y + Z.of_nat (length l))%Z.
Proof.
  unfold double_sum. induction l as [|a l IH]; [reflexivity|].
  cbn [map length]. rewrite !sumZ_cons, IH, rank2_app. lia.
Qed.

Lemma mannwhitneyu_U2_score (x y : list float) :
  forallb notna x = true ->
  mannwhitneyu_U2 x y = double_sum score x y.
Proof.
  intros Hx. unfold mannwhitneyu_U2. rewrite rank_sum_score.
  pose proof (double_sum_score x x Hx Hx). lia.
Qed.

(** On samples without missing values the two statistics add up to the
    product of the sample sizes: [U(y, x) = n1 n2 - U(x, y)], and both are
    between 0 and [n1 n2]. *)
Lemma mannwhitneyu_U2_swap (x y : list float) :
  forallb notna x = true -> forallb notna y = true ->
  mannwhitneyu_U2 y x
  = (2 * Z.of_nat (length x) * Z.of_nat (length y) - mannwhitneyu_U2 x y)%Z
  /\ (0 <= mannwhitneyu_U2 x y
      <= 2 * Z.of_nat (length x) * Z.of_nat (length y))%Z.
Proof.
  intros Hx Hy. rewrite !mannwhitneyu_U2_score by assumption.
  pose proof (double_sum_score x y Hx Hy) as E.
  assert (N : forall a b, (0 <= double_sum score a b)%Z).
  { intros a b. unfold double_sum.
    induction a as [|v a IH]; simpl; [lia|].
    assert (0 <= sumZ (map (score v) b))%Z.
    { clear IH. induction b as [|w b IHb]; simpl; [lia|].
      unfold score at 1.
      destruct (w <? v)%float, (w =? v)%float; lia. }
    change (fold_right Z.add 0%Z (map (fun v0 => sumZ (map (score v0) b)) a))
      with (sumZ (map (fun v0 => sumZ (map (score v0) b)) a)).
    unfold sumZ in *. lia. }
  pose proof (N x y). pose proof (N y x). lia.
Qed.

Lemma complete_series (df : DataFrame) (c : colname) :
  complete_column df c ->
  map (fun r => cell r c) (rows df)
  = map VNum (map (fun r => num_cell r c) (rows df))
  /\ forallb notna (map (fun r => num_cell r c) (rows df)) = true.
Proof.
  unfold complete_column. induction (rows df) as [|r rs IH]; intros H.
  - split; reflexivity.
  - destruct (H r (or_introl eq_refl)) as [x [Ex Nx]].
    destruct (IH (fun s Hs => H s (or_intror Hs))) as [E1 E2].
    assert (En : num_cell r c = x) by (unfold num_cell; now rewrite Ex).
    cbn [map forallb]. rewrite E1, E2, En, Ex, Nx. split; reflexivity.
Qed.

(** C7, as the code has it. Swapping the two groups leaves the p-value and
    the significance flag of both tests unchanged. It negates the statistic
    of [perform_t_test]. The statistic of [perform_mannwhitneyu_test] is
    the rank-sum statistic [U] of the first group, between 0 and the
    product [n_a n_b] of the group sizes: swapping turns it into
    [n_a n_b - U], not into [-U]. *)
Theorem swap_groups_symmetry
  (ttest_ind mannwhitneyu : list value -> list value -> res (float * float)) :
  TTestSwap ttest_ind ->
  MannWhitneyContract mannwhitneyu ->
  (forall group_a group_b metric r,
     perform_t_test ttest_ind group_a group_b metric = Ok r ->
     exists r',
       perform_t_test ttest_ind group_b group_a metric = Ok r'
       /\ p_value r' = p_value r
       /\ significant r' = significant r
       /\ float_same (stat r') (- stat r)%float)
  /\ (forall group_a group_b metric,
        has_column group_a (Name metric) = true ->
        has_column group_b (Name metric) = true ->
        complete_column group_a (Name metric) ->
        complete_column group_b (Name metric) ->
        rows group_a <> [] -> rows group_b <> [] ->
        exists r r' u,
          perform_mannwhitneyu_test mannwhitneyu group_a group_b metric = Ok r
          /\ perform_mannwhitneyu_test mannwhitneyu group_b group_a metric
             = Ok r'
          /\ p_value r' = p_value r
          /\ significant r' = significant r
          /\ stat r = half u
          /\ stat r'
             = half (2 * Z.of_nat (length (rows group_a))
                     * Z.of_nat (length (rows group_b)) - u)
          /\ (0 <= u <= 2 * Z.of_nat (length (rows group_a))
                        * Z.of_nat (length (rows group_b)))%Z).
Proof.
  intros Ht Hm. split.
  - intros ga gb metric r H. unfold perform_t_test in *.
    destruct (getitem ga (Name metric)) as [a|]; [|discriminate].
    destruct (getitem gb (Name metric)) as [b|]; [|discriminate].
    simpl in *. destruct (ttest_ind a b) as [[s p]|] eqn:E; [|discriminate].
    injection H as <-. destruct (Ht a b s p E) as [s' [E' Hs]].
    rewrite E'. eexists. split; [reflexivity|]. simpl. auto.
  - intros ga gb metric Ha Hb Ca Cb Na Nb.
    destruct (complete_series ga (Name metric) Ca) as [Ea Xa].
    destruct (complete_series gb (Name metric) Cb) as [Eb Xb].
    set (xs := map (fun r => num_cell r (Name metric)) (rows ga)) in *.
    set (ys := map (fun r => num_cell r (Name metric)) (rows gb)) in *.
    assert (Nx : xs <> []).
    { unfold xs. destruct (rows ga); [contradiction|discriminate]. }
    assert (Ny : ys <> []).
    { unfold ys. destruct (rows gb); [contradiction|discriminate]. }
    destruct (Hm xs ys Xa Xb Nx Ny) as [p [E1 E2]].
    destruct (mannwhitneyu_U2_swap xs ys Xa Xb) as [Sw Bd].
    assert (Lx : length xs = length (rows ga)) by apply length_map.
    assert (Ly : length ys = length (rows gb)) by apply length_map.
    rewrite Lx, Ly in Sw, Bd.
    unfold perform_mannwhitneyu_test.
    rewrite (getitem_ok _ _ Ha), (getitem_ok _ _ Hb). simpl bind.
    rewrite Ea, Eb, E1, E2. simpl bind.
    eexists. eexists. exists (mannwhitneyu_U2 xs ys).
    split; [reflexivity|]. split; [reflexivity|]. simpl.
    split; [reflexivity|]. split; [reflexivity|]. split; [reflexivity|].
    split; [|exact Bd].
    unfold mannwhitneyu_statistic. rewrite Sw. reflexivity.
Qed.

Lemma rank_sum_test_contract (p : float) :
  MannWhitneyContract (rank_sum_test p).
Proof.
  intros xs ys _ _ _ _. exists p. unfold rank_sum_test.
  rewrite !(to_numeric_VNum (fun x => x)), !map_id. split; reflexivity.
Qed.

Lemma constant_test_swap (s p : float) :
  float_same s (- s)%float -> TTestSwap (constant_test s p).
Proof.
  intros H a b s0 p0 E. unfold constant_test in *. injection E as <- <-.
  exists s. split; [reflexivity|exact H].
Qed.

Lemma sample_complete (df : DataFrame) :
  df = sample_a \/ df = sample_b -> complete_column df (Name "m").
Proof.
  intros [->| ->] r Hr; simpl in Hr;
    repeat (destruct Hr as [<-|Hr];
            [eexists; split; reflexivity|]); contradiction.
Qed.

Lemma swap_groups_symmetry_witness :
  exists r r' u,
    perform_mannwhitneyu_test (rank_sum_test 1) sample_a sample_b "m" = Ok r
    /\ perform_mannwhitneyu_test (rank_sum_test 1) sample_b sample_a "m"
       = Ok r'
    /\ p_value r' = p_value r
    /\ significant r' = significant r
    /\ stat r = half u
    /\ stat r'
       = half (2 * Z.of_nat (length (rows sample_a))
               * Z.of_nat (length (rows sample_b)) - u)
    /\ (0 <= u <= 2 * Z.of_nat (length (rows sample_a))
                  * Z.of_nat (length (rows sample_b)))%Z.
Proof.
  apply (proj2 (swap_groups_symmetry (constant_test 0 1) (rank_sum_test 1)
                  (constant_test_swap 0 1 (or_introl eq_refl))
                  (rank_sum_test_contract 1))).
  - reflexivity.
  - reflexivity.
  - apply sample_complete. now left.
  - apply sample_complete. now right.
  - discriminate.
  - discriminate.
Defined.

(** C7, as stated, fails for the rank-sum test: on the samples 1, 2, 5 and
    3, 4 the statistic is 2, and 4 with the groups swapped, for every
    routine that computes the documented statistic. *)
Lemma mannwhitneyu_swap_counterexample :
  (exists r r',
     perform_mannwhitneyu_test (rank_sum_test 1) sample_a sample_b "m" = Ok r
     /\ perform_mannwhitneyu_test (rank_sum_test 1) sample_b sample_a "m"
        = Ok r'
     /\ stat r = 2%float /\ stat r' = 4%float
     /\ (stat r' =? - stat r)%float = false)
  /\ ~ (exists mannwhitneyu,
          MannWhitneyContract mannwhitneyu
          /\ swap_negates_statistic mannwhitneyu).
Proof.
  split.
  - eexists. eexists. split; [reflexivity|]. split; [reflexivity|].
    repeat split; reflexivity.
  - intros [mw [C N]].
    destruct (C [1; 2; 5]%float [3; 4]%float eq_refl eq_refl) as [p [E1 E2]];
      try discriminate.
    assert (R1 : perform_mannwhitneyu_test mw sample_a sample_b "m"
                 = Ok (mkTestResult 2 p (p <? 0.05)%float)).
    { unfold perform_mannwhitneyu_test.
      change (getitem sample_a (Name "m"))
        with (Ok (map VNum [1; 2; 5]%float)).
      change (getitem sample_b (Name "m")) with (Ok (map VNum [3; 4]%float)).
      cbn [bind]. rewrite E1. reflexivity. }
    assert (R2 : perform_mannwhitneyu_test mw sample_b sample_a "m"
                 = Ok (mkTestResult 4 p (p <? 0.05)%float)).
    { unfold perform_mannwhitneyu_test.
      change (getitem sample_a (Name "m"))
        with (Ok (map VNum [1; 2; 5]%float)).
      change (getitem sample_b (Name "m")) with (Ok (map VNum [3; 4]%float)).
      cbn [bind]. rewrite E2. reflexivity. }
    specialize (N sample_a sample_b "m"%string _ _ R1 R2).
    simpl in N. vm_compute in N. discriminate.
Qed.

(* ----------------------------------------------------------------- *)
(** ** The store-passing toolkit computes what the toolkit on values does *)

Module Refine.

Lemma read_fresh (s : Heap.Store) (t : DataFrame) :
  nth_error (s ++ [t]) (length s) = Some t.
Proof. rewrite nth_error_app2 by lia. rewrite Nat.sub_diag. reflexivity. Qed.

Lemma write_fresh (s : Heap.Store) (t t' : DataFrame) :
  Heap.write (length s) t' (s ++ [t]) = (Ok tt, s ++ [t']).
Proof.
  unfold Heap.write. rewrite length_app. cbn [length].
  replace (length s <? length s + 1) with true
    by (symmetry; apply Nat.ltb_lt; lia).
  rewrite firstn_app, Nat.sub_diag, firstn_all, firstn_O, app_nil_r.
  rewrite skipn_all2 by (rewrite length_app; simpl; lia). reflexivity.
Qed.

Lemma bindM_run {A B : Type} (m : Heap.M A) (f : A -> Heap.M B)
  (s s1 : Heap.Store) (r : res A) :
  m s = (r, s1) ->
  Heap.bindM m f s
  = match r with Ok a => f a s1 | Raise e => (Raise e, s1) end.
Proof. intros E. unfold Heap.bindM. rewrite E. reflexivity. Qed.

Lemma read_run (s : Heap.Store) (l : nat) (d : DataFrame) :
  nth_error s l = Some d -> Heap.read l s = (Ok d, s).
Proof. intros E. unfold Heap.read. rewrite E. reflexivity. Qed.

Lemma df_getitem_run (s : Heap.Store) (l : nat) (d : DataFrame) (c : colname) :
  nth_error s l = Some d -> Heap.df_getitem l c s = (getitem d c, s).
Proof.
  intros E. unfold Heap.df_getitem.
  rewrite (bindM_run _ _ _ _ _ (read_run s l d E)). reflexivity.
Qed.

Lemma df_groupby_run (s : Heap.Store) (l : nat) (d : DataFrame) (c : colname) :
  nth_error s l = Some d -> Heap.df_groupby l c s = (groupby d c, s).
Proof.
  intros E. unfold Heap.df_groupby.
  rewrite (bindM_run _ _ _ _ _ (read_run s l d E)). reflexivity.
Qed.

Lemma df_agg_run (s : Heap.Store) (l : nat) (d : DataFrame) gs spec :
  nth_error s l = Some d ->
  Heap.df_agg l gs spec s = allocated s (agg d gs spec).
Proof.
  intros E. unfold Heap.df_agg.
  rewrite (bindM_run _ _ _ _ _ (read_run s l d E)).
  unfold Heap.bindM, Heap.lift, Heap.alloc, allocated.
  destruct (agg d gs spec); reflexivity.
Qed.

Lemma df_reset_index_run (s : Heap.Store) (l : nat) (d : DataFrame) name :
  nth_error s l = Some d ->
  Heap.df_reset_index l name s = allocated s (reset_index d name).
Proof.
  intros E. unfold Heap.df_reset_index.
  rewrite (bindM_run _ _ _ _ _ (read_run s l d E)).
  unfold Heap.bindM, Heap.lift, Heap.alloc, allocated.
  destruct (reset_index d name); reflexivity.
Qed.

Lemma df_setitem_run (s : Heap.Store) (t : DataFrame) c v :
  Heap.df_setitem (length s) c v (s ++ [t])
  = match setitem t c v with
    | Ok t' => (Ok tt, s ++ [t'])
    | Raise e => (Raise e, s ++ [t])
    end.
Proof.
  unfold Heap.df_setitem.
  rewrite (bindM_run _ _ _ _ _ (read_run _ _ t (read_fresh s t))).
  unfold Heap.bindM, Heap.lift.
  destruct (setitem t c v); [apply write_fresh|reflexivity].
Qed.

Lemma lift_run {A : Type} (r : res A) (s : Heap.Store) :
  Heap.lift r s = (r, s).
Proof. reflexivity. Qed.

Lemma bindM_allocated {B : Type} (m : Heap.M nat) (f : nat -> Heap.M B)
  (s : Heap.Store) (r : res DataFrame) :
  m s = allocated s r ->
  Heap.bindM m f s
  = match r with
    | Ok t => f (length s) (s ++ [t])
    | Raise e => (Raise e, s)
    end.
Proof.
  intros E. unfold Heap.bindM. rewrite E. destruct r; reflexivity.
Qed.

Lemma bindM_setitem {B : Type} (f : unit -> Heap.M B) (s : Heap.Store)
  (t : DataFrame) c v :
  Heap.bindM (Heap.df_setitem (length s) c v) f (s ++ [t])
  = match setitem t c v with
    | Ok t' => f tt (s ++ [t'])
    | Raise e => (Raise e, s ++ [t])
    end.
Proof.
  unfold Heap.bindM at 1. rewrite df_setitem_run.
  destruct (setitem t c v); reflexivity.
Qed.

Ltac run E := rewrite (bindM_run _ _ _ _ _ E); cbv beta.
Ltac run_alloc E := rewrite (bindM_allocated _ _ _ _ E); cbv beta.

Lemma run_calculate_cost_savings (s : Heap.Store) (data : nat) (d : DataFrame)
  (group_col cost_col claim_col : string) :
  nth_error s data = Some d ->
  returns_table (Heap.calculate_cost_savings data group_col cost_col claim_col s)
    (calculate_cost_savings d group_col cost_col claim_col).
Proof.
  intros Hd. unfold Heap.calculate_cost_savings, calculate_cost_savings.
  run (df_groupby_run s data d (Name group_col) Hd).
  destruct (groupby d (Name group_col)) as [gs|e]; [|exact eq_refl].
  cbn [bind].
  run_alloc (df_agg_run s data d gs
         [(Name "TotalCost", Name cost_col, AggSum);
          (Name "TotalClaims", Name claim_col, AggSum)] Hd).
  destruct (agg d gs _) as [t|e]; [|exact eq_refl].
  cbn [bind].
  run (df_getitem_run _ _ t (Name "TotalCost") (read_fresh s t)).
  destruct (getitem t (Name "TotalCost")) as [tc|e]; [|exact eq_refl].
  cbn [bind].
  run (df_getitem_run _ _ t (Name "TotalClaims") (read_fresh s t)).
  destruct (getitem t (Name "TotalClaims")) as [tcl|e]; [|exact eq_refl].
  cbn [bind].
  run (lift_run (series_sub tc tcl) (s ++ [t])).
  destruct (series_sub tc tcl) as [pot|e]; [|exact eq_refl].
  cbn [bind].
  rewrite bindM_setitem.
  destruct (setitem t (Name "SavingsPotential") pot) as [t1|e];
    [|exact eq_refl].
  cbn [bind].
  run (df_getitem_run _ _ t1 (Name "SavingsPotential") (read_fresh s t1)).
  destruct (getitem t1 (Name "SavingsPotential")) as [pot1|e]; [|exact eq_refl].
  cbn [bind].
  run (df_getitem_run _ _ t1 (Name "TotalCost") (read_fresh s t1)).
  destruct (getitem t1 (Name "TotalCost")) as [tc1|e]; [|exact eq_refl].
  cbn [bind].
  run (lift_run (series_div pot1 tc1) (s ++ [t1])).
  destruct (series_div pot1 tc1) as [ratio|e]; [|exact eq_refl].
  cbn [bind].
  run (lift_run (series_mul ratio 100) (s ++ [t1])).
  destruct (series_mul ratio 100) as [pct|e]; [|exact eq_refl].
  cbn [bind].
  rewrite bindM_setitem.
  destruct (setitem t1 (Name "SavingsPercentage") pct) as [t2|e];
    [|exact eq_refl].
  cbn [bind].
  rewrite (df_reset_index_run _ _ t2 (Name group_col) (read_fresh s t2)).
  destruct (reset_index t2 (Name group_col)) as [out|e]; [|exact eq_refl].
  unfold returns_table, allocated. cbn [fst snd]. apply read_fresh.
Qed.

Lemma df_copy_run (s : Heap.Store) (l : nat) (d : DataFrame) :
  nth_error s l = Some d -> Heap.df_copy l s = allocated s (Ok (copy d)).
Proof.
  intros E. unfold Heap.df_copy.
  rewrite (bindM_run _ _ _ _ _ (read_run s l d E)). reflexivity.
Qed.

Lemma df_getitem_mask_run (s : Heap.Store) (l : nat) (d : DataFrame) mask :
  nth_error s l = Some d ->
  Heap.df_getitem_mask l mask s = allocated s (Ok (getitem_mask d mask)).
Proof.
  intros E. unfold Heap.df_getitem_mask.
  rewrite (bindM_run _ _ _ _ _ (read_run s l d E)). reflexivity.
Qed.

Lemma df_reset_index_drop_run (s : Heap.Store) (l : nat) (d : DataFrame) :
  nth_error s l = Some d ->
  Heap.df_reset_index_drop l s = allocated s (Ok (reset_index_drop d)).
Proof.
  intros E. unfold Heap.df_reset_index_drop.
  rewrite (bindM_run _ _ _ _ _ (read_run s l d E)). reflexivity.
Qed.

Lemma df_sort_values_run argsort (s : Heap.Store) (l : nat) (d : DataFrame)
  c ascending :
  nth_error s l = Some d ->
  Heap.df_sort_values argsort l c ascending s
  = allocated s (sort_values argsort d c ascending).
Proof.
  intros E. unfold Heap.df_sort_values.
  rewrite (bindM_run _ _ _ _ _ (read_run s l d E)).
  unfold Heap.bindM, Heap.lift, Heap.alloc, allocated.
  destruct (sort_values argsort d c ascending); reflexivity.
Qed.

Lemma df_require_columns_run (s : Heap.Store) (l : nat) (d : DataFrame) cs :
  nth_error s l = Some d ->
  Heap.df_require_columns l cs s = (require_columns d cs, s).
Proof.
  intros E. unfold Heap.df_require_columns.
  rewrite (bindM_run _ _ _ _ _ (read_run s l d E)). reflexivity.
Qed.

Lemma old_after_alloc (s : Heap.Store) (l : nat) (d t : DataFrame) :
  nth_error s l = Some d -> nth_error (s ++ [t]) l = Some d.
Proof.
  intros E. rewrite nth_error_app1; [exact E|].
  apply nth_error_Some. congruence.
Qed.

Lemma run_segment_data (s : Heap.Store) (data : nat) (d : DataFrame)
  (column : string) (values_group_a values_group_b : list value) :
  nth_error s data = Some d ->
  returns_tables
    (Heap.segment_data data column values_group_a values_group_b s)
    (segment_data d column values_group_a values_group_b).
Proof.
  intros Hd. unfold Heap.segment_data, segment_data.
  run (df_getitem_run s data d (Name column) Hd).
  destruct (getitem d (Name column)) as [sa|e] eqn:Eg; [|exact eq_refl].
  cbn [bind].
  run_alloc (df_getitem_mask_run s data d (isin sa values_group_a) Hd).
  set (ga := getitem_mask d (isin sa values_group_a)).
  run (df_getitem_run _ data d (Name column) (old_after_alloc s data d ga Hd)).
  rewrite Eg.
  rewrite (bindM_allocated _ _ _ _
             (df_getitem_mask_run _ data d (isin sa values_group_b)
                (old_after_alloc s data d ga Hd))).
  unfold returns_tables. cbn [Heap.ret fst snd]. split.
  - apply old_after_alloc, read_fresh.
  - apply read_fresh.
Qed.

Lemma run_aggregate_by_group (s : Heap.Store) (data : nat) (d : DataFrame)
  (group_column : string) (metrics : list string) :
  nth_error s data = Some d ->
  returns_table (Heap.aggregate_by_group data group_column metrics s)
    (aggregate_by_group d group_column metrics).
Proof.
  intros Hd. unfold Heap.aggregate_by_group, aggregate_by_group.
  run_alloc (df_copy_run s data d Hd). cbv zeta.
  set (c := copy d). set (s1 := s ++ [c]).
  assert (Hc : nth_error s1 (length s) = Some c) by apply read_fresh.
  run (df_groupby_run s1 _ c (Name group_column) Hc).
  destruct (groupby c (Name group_column)) as [gs|e]; [|exact eq_refl].
  cbn [bind].
  run (df_require_columns_run s1 _ c (map Name metrics) Hc).
  destruct (require_columns c (map Name metrics)) as [u|e];
    [|exact eq_refl].
  cbn [bind].
  rewrite (bindM_run _ _ _ _ _ (lift_run _ s1)).
  destruct metrics as [|m0 ms] eqn:Em; [exact eq_refl|]. rewrite <- Em.
  cbn [bind]. cbv beta.
  run_alloc (df_agg_run s1 _ c gs (sum_mean_spec metrics) Hc).
  destruct (agg c gs (sum_mean_spec metrics)) as [t|e]; [|exact eq_refl].
  cbn [bind].
  rewrite (df_reset_index_run _ _ t (Name2 group_column "") (read_fresh s1 t)).
  destruct (reset_index t (Name2 group_column "")) as [out|e];
    [|exact eq_refl].
  unfold returns_table, allocated. cbn [fst snd]. apply read_fresh.
Qed.

Lemma run_compute_metric (s : Heap.Store) (data : nat) (d : DataFrame)
  (column : string) (condition : value) (metric_col operation : string) :
  nth_error s data = Some d ->
  returns_value
    (Heap.compute_metric data column condition metric_col operation s)
    (compute_metric d column condition metric_col operation).
Proof.
  intros Hd. unfold Heap.compute_metric, compute_metric, returns_value.
  run (df_getitem_run s data d (Name column) Hd).
  destruct (getitem d (Name column)) as [sc|e]; [|reflexivity].
  cbn [bind].
  run_alloc (df_getitem_mask_run s data d (series_eq sc condition) Hd).
  set (subset := getitem_mask d (series_eq sc condition)).
  destruct (String.eqb operation "mean");
    [|destruct (String.eqb operation "sum")].
  - run (df_getitem_run _ _ subset (Name metric_col) (read_fresh s subset)).
    destruct (getitem subset (Name metric_col)) as [m|e]; [|reflexivity].
    cbn [bind]. run (lift_run (mean_of_series m) (s ++ [subset])).
    destruct (mean_of_series m); reflexivity.
  - run (df_getitem_run _ _ subset (Name metric_col) (read_fresh s subset)).
    destruct (getitem subset (Name metric_col)) as [m|e]; [|reflexivity].
    cbn [bind]. run (lift_run (sum_of_series m) (s ++ [subset])).
    destruct (sum_of_series m); reflexivity.
  - reflexivity.
Qed.

Lemma run_rank_savings_opportunities (argsort : list float -> list nat)
  (s : Heap.Store) (savings_summary : nat) (d : DataFrame)
  (threshold : float) :
  nth_error s savings_summary = Some d ->
  returns_table
    (Heap.rank_savings_opportunities argsort savings_summary threshold s)
    (rank_savings_opportunities argsort d threshold).
Proof.
  intros Hd.
  unfold Heap.rank_savings_opportunities, rank_savings_opportunities.
  run (df_getitem_run s _ d (Name "SavingsPercentage") Hd).
  destruct (getitem d (Name "SavingsPercentage")) as [pct|e];
    [|exact eq_refl].
  cbn [bind]. run (lift_run (series_gt pct threshold) s).
  destruct (series_gt pct threshold) as [mask|e]; [|exact eq_refl].
  cbn [bind].
  run_alloc (df_getitem_mask_run s _ d mask Hd).
  set (filtered := getitem_mask d mask).
  run_alloc (df_sort_values_run argsort _ _ filtered
               (Name "SavingsPercentage") false (read_fresh s filtered)).
  destruct (sort_values argsort filtered (Name "SavingsPercentage") false)
    as [sorted|e]; [|exact eq_refl].
  cbn [bind].
  rewrite (df_reset_index_drop_run _ _ sorted
             (read_fresh (s ++ [filtered]) sorted)).
  unfold returns_table, allocated. cbn [fst snd]. apply read_fresh.
Qed.

Lemma run_generate_contingency_table (s : Heap.Store) (df : nat)
  (d : DataFrame) (column1 column2 : string) (threshold : float) :
  nth_error s df = Some d ->
  returns_table
    (Heap.generate_contingency_table df column1 column2 threshold s)
    (generate_contingency_table d column1 column2 threshold).
Proof.
  intros Hd.
  unfold Heap.generate_contingency_table, generate_contingency_table.
  run (df_getitem_run s _ d (Name column1) Hd).
  destruct (getitem d (Name column1)) as [a|e]; [|exact eq_refl].
  cbn [bind]. run (df_getitem_run s _ d (Name column2) Hd).
  destruct (getitem d (Name column2)) as [b|e]; [|exact eq_refl].
  cbn [bind]. run (lift_run (series_gt b threshold) s).
  destruct (series_gt b threshold) as [flags|e]; [|exact eq_refl].
  cbn [bind]. unfold returns_table, Heap.alloc. cbn [fst snd].
  apply read_fresh.
Qed.

Section StatisticalTests.

Variable ttest_ind : list value -> list value -> res (float * float).
Variable chi2_contingency :
  DataFrame -> res (float * float * Z * list (list float)).
Variable f_oneway : list (list value) -> res (float * float).
Variable mannwhitneyu : list value -> list value -> res (float * float).

Lemma run_perform_t_test (s : Heap.Store) (group_a group_b : nat)
  (da db : DataFrame) (metric : string) :
  nth_error s group_a = Some da -> nth_error s group_b = Some db ->
  returns_value (Heap.perform_t_test ttest_ind group_a group_b metric s)
    (perform_t_test ttest_ind da db metric).
Proof.
  intros Ha Hb. unfold Heap.perform_t_test, perform_t_test, returns_value.
  run (df_getitem_run s _ da (Name metric) Ha).
  destruct (getitem da (Name metric)) as [a|e]; [|reflexivity].
  cbn [bind]. run (df_getitem_run s _ db (Name metric) Hb).
  destruct (getitem db (Name metric)) as [b|e]; [|reflexivity].
  cbn [bind]. run (lift_run (ttest_ind a b) s).
  destruct (ttest_ind a b) as [[st p]|e]; reflexivity.
Qed.

Lemma run_perform_chi2_test (s : Heap.Store) (contingency_table : nat)
  (d : DataFrame) :
  nth_error s contingency_table = Some d ->
  returns_value (Heap.perform_chi2_test chi2_contingency contingency_table s)
    (perform_chi2_test chi2_contingency d).
Proof.
  intros Hd. unfold Heap.perform_chi2_test, perform_chi2_test, returns_value.
  run (read_run s _ d Hd). run (lift_run (chi2_contingency d) s).
  destruct (chi2_contingency d) as [[[[st p] dof] ex]|e]; reflexivity.
Qed.

Lemma run_perform_anova_test (s : Heap.Store) (groups : list (list value)) :
  returns_value (Heap.perform_anova_test f_oneway groups s)
    (perform_anova_test f_oneway groups).
Proof.
  unfold Heap.perform_anova_test, perform_anova_test, returns_value.
  run (lift_run (f_oneway groups) s).
  destruct (f_oneway groups) as [[st p]|e]; reflexivity.
Qed.

Lemma run_perform_mannwhitneyu_test (s : Heap.Store) (group_a group_b : nat)
  (da db : DataFrame) (metric : string) :
  nth_error s group_a = Some da -> nth_error s group_b = Some db ->
  returns_value
    (Heap.perform_mannwhitneyu_test mannwhitneyu group_a group_b metric s)
    (perform_mannwhitneyu_test mannwhitneyu da db metric).
Proof.
  intros Ha Hb.
  unfold Heap.perform_mannwhitneyu_test, perform_mannwhitneyu_test,
    returns_value.
  run (df_getitem_run s _ da (Name metric) Ha).
  destruct (getitem da (Name metric)) as [a|e]; [|reflexivity].
  cbn [bind]. run (df_getitem_run s _ db (Name metric) Hb).
  destruct (getitem db (Name metric)) as [b|e]; [|reflexivity].
  cbn [bind]. run (lift_run (mannwhitneyu a b) s).
  destruct (mannwhitneyu a b) as [[st p]|e]; reflexivity.
Qed.

End StatisticalTests.

End Refine.

(* ----------------------------------------------------------------- *)
(** ** The toolkit leaves the caller's tables as they are *)

Module Frame.

Import Heap.

Lemma preserves_weaken {A : Type} (n : nat) (P Q : A -> Prop) (m : M A) :
  (forall a, P a -> Q a) -> preserves n P m -> preserves n Q m.
Proof.
  intros H Hm s Hs. destruct (Hm s Hs) as (E & L & R).
  repeat split; auto.
Qed.

Lemma preserves_ret {A : Type} (n : nat) (Q : A -> Prop) (a : A) :
  Q a -> preserves n Q (ret a).
Proof.
  intros H s Hs. simpl. repeat split; auto. intros b E.
  injection E as <-. exact H.
Qed.

Lemma preserves_lift {A : Type} (n : nat) (r : res A) :
  preserves n anything (lift r).
Proof. intros s Hs. simpl. repeat split; auto. Qed.

Lemma preserves_bind {A B : Type} (n : nat) (P : A -> Prop)
  (Q : B -> Prop) (m : M A) (f : A -> M B) :
  preserves n P m ->
  (forall a, P a -> preserves n Q (f a)) ->
  preserves n Q (bindM m f).
Proof.
  intros Hm Hf s Hs. unfold bindM.
  destruct (Hm s Hs) as (E & L & R).
  destruct (m s) as [[a|e] s'] eqn:Em; simpl in *.
  - destruct (Hf a (R a eq_refl) s' L) as (E' & L' & R').
    repeat split; [congruence|assumption|assumption].
  - repeat split; [assumption|assumption|discriminate].
Qed.

Lemma preserves_read (n l : nat) : preserves n anything (read l).
Proof.
  intros s Hs. unfold read. destruct (nth_error s l); simpl;
    repeat split; auto.
Qed.

Lemma preserves_alloc (n : nat) (d : DataFrame) :
  preserves n (fresh n) (alloc d).
Proof.
  intros s Hs. unfold alloc. simpl. repeat split.
  - rewrite firstn_app. replace (n - length s) with 0 by lia.
    simpl. apply app_nil_r.
  - rewrite length_app. lia.
  - intros a E. injection E as <-. exact Hs.
Qed.

Lemma preserves_write (n l : nat) (d : DataFrame) :
  fresh n l -> preserves n anything (write l d).
Proof.
  unfold fresh. intros Hl s Hs. unfold write.
  destruct (l <? length s) eqn:E; cbn [fst snd]; [|repeat split; auto].
  apply Nat.ltb_lt in E. repeat split.
  - rewrite firstn_app, length_firstn.
    replace (n - Nat.min l (length s)) with 0 by lia.
    rewrite firstn_O, app_nil_r, firstn_firstn. f_equal. lia.
  - rewrite length_app, length_firstn. cbn [length].
    rewrite length_skipn. lia.
Qed.

Lemma preserves_df_getitem (n l : nat) (c : colname) :
  preserves n anything (df_getitem l c).
Proof.
  unfold df_getitem. eapply preserves_bind; [apply preserves_read|].
  intros d _. apply preserves_lift.
Qed.

Lemma preserves_df_getitem_mask (n l : nat) (mask : list bool) :
  preserves n (fresh n) (df_getitem_mask l mask).
Proof.
  unfold df_getitem_mask. eapply preserves_bind; [apply preserves_read|].
  intros d _. apply preserves_alloc.
Qed.

Lemma preserves_df_copy (n l : nat) : preserves n (fresh n) (df_copy l).
Proof.
  unfold df_copy. eapply preserves_bind; [apply preserves_read|].
  intros d _. apply preserves_alloc.
Qed.

Lemma preserves_df_setitem (n l : nat) (c : colname) (s : list value) :
  fresh n l -> preserves n anything (df_setitem l c s).
Proof.
  intros Hl. unfold df_setitem.
  eapply preserves_bind; [apply preserves_read|]. intros d _.
  eapply preserves_bind; [apply preserves_lift|]. intros d' _.
  apply preserves_write, Hl.
Qed.

Lemma preserves_df_groupby (n l : nat) (c : colname) :
  preserves n anything (df_groupby l c).
Proof.
  unfold df_groupby. eapply preserves_bind; [apply preserves_read|].
  intros d _. apply preserves_lift.
Qed.

Lemma preserves_df_agg (n l : nat) (gs : list (value * list Row))
  (spec : list (colname * colname * aggfun)) :
  preserves n (fresh n) (df_agg l gs spec).
Proof.
  unfold df_agg. eapply preserves_bind; [apply preserves_read|]. intros d _.
  eapply preserves_bind; [apply preserves_lift|]. intros t _.
  apply preserves_alloc.
Qed.

Lemma preserves_df_reset_index (n l : nat) (name : colname) :
  preserves n (fresh n) (df_reset_index l name).
Proof.
  unfold df_reset_index.
  eapply preserves_bind; [apply preserves_read|]. intros d _.
  eapply preserves_bind; [apply preserves_lift|]. intros t _.
  apply preserves_alloc.
Qed.

Lemma preserves_df_reset_index_drop (n l : nat) :
  preserves n (fresh n) (df_reset_index_drop l).
Proof.
  unfold df_reset_index_drop.
  eapply preserves_bind; [apply preserves_read|]. intros d _.
  apply preserves_alloc.
Qed.

Lemma preserves_df_sort_values (argsort : list float -> list nat)
  (n l : nat) (c : colname) (ascending : bool) :
  preserves n (fresh n) (df_sort_values argsort l c ascending).
Proof.
  unfold df_sort_values.
  eapply preserves_bind; [apply preserves_read|]. intros d _.
  eapply preserves_bind; [apply preserves_lift|]. intros t _.
  apply preserves_alloc.
Qed.

Lemma preserves_df_require_columns (n l : nat) (cs : list colname) :
  preserves n anything (df_require_columns l cs).
Proof.
  unfold df_require_columns. eapply preserves_bind; [apply preserves_read|].
  intros d _. apply preserves_lift.
Qed.

Lemma preserves_any {A : Type} (n : nat) (Q : A -> Prop) (m : M A) :
  preserves n Q m -> preserves n anything m.
Proof. apply preserves_weaken. intros; exact I. Qed.

Section StatisticalTests.

Variable ttest_ind : list value -> list value -> res (float * float).
Variable chi2_contingency :
  DataFrame -> res (float * float * Z * list (list float)).
Variable f_oneway : list (list value) -> res (float * float).
Variable mannwhitneyu : list value -> list value -> res (float * float).

Lemma preserves_perform_t_test (n group_a group_b : nat) (metric : string) :
  preserves n anything
    (Heap.perform_t_test ttest_ind group_a group_b metric).
Proof.
  unfold Heap.perform_t_test.
  eapply preserves_bind; [apply preserves_df_getitem|]. intros a _.
  eapply preserves_bind; [apply preserves_df_getitem|]. intros b _.
  eapply preserves_bind; [apply preserves_lift|]. intros [s p] _.
  apply preserves_ret. exact I.
Qed.

Lemma preserves_perform_chi2_test (n contingency_table : nat) :
  preserves n anything
    (Heap.perform_chi2_test chi2_contingency contingency_table).
Proof.
  unfold Heap.perform_chi2_test.
  eapply preserves_bind; [apply preserves_read|]. intros t _.
  eapply preserves_bind; [apply preserves_lift|]. intros [[[s p] d] e] _.
  apply preserves_ret. exact I.
Qed.

Lemma preserves_perform_anova_test (n : nat) (groups : list (list value)) :
  preserves n anything (Heap.perform_anova_test f_oneway groups).
Proof.
  unfold Heap.perform_anova_test.
  eapply preserves_bind; [apply preserves_lift|]. intros [s p] _.
  apply preserves_ret. exact I.
Qed.

Lemma preserves_perform_mannwhitneyu_test (n group_a group_b : nat)
  (metric : string) :
  preserves n anything
    (Heap.perform_mannwhitneyu_test mannwhitneyu group_a group_b metric).
Proof.
  unfold Heap.perform_mannwhitneyu_test.
  eapply preserves_bind; [apply preserves_df_getitem|]. intros a _.
  eapply preserves_bind; [apply preserves_df_getitem|]. intros b _.
  eapply preserves_bind; [apply preserves_lift|]. intros [s p] _.
  apply preserves_ret. exact I.
Qed.

End StatisticalTests.

Lemma preserves_generate_contingency_table (n df : nat)
  (column1 column2 : string) (threshold : float) :
  preserves n anything
    (Heap.generate_contingency_table df column1 column2 threshold).
Proof.
  unfold Heap.generate_contingency_table.
  eapply preserves_bind; [apply preserves_df_getitem|]. intros a _.
  eapply preserves_bind; [apply preserves_df_getitem|]. intros b _.
  eapply preserves_bind; [apply preserves_lift|]. intros flags _.
  eapply preserves_any, preserves_alloc.
Qed.

Lemma preserves_segment_data (n data : nat) (column : string)
  (values_group_a values_group_b : list value) :
  preserves n anything
    (Heap.segment_data data column values_group_a values_group_b).
Proof.
  unfold Heap.segment_data.
  eapply preserves_bind; [apply preserves_df_getitem|]. intros sa _.
  eapply preserves_bind; [apply preserves_df_getitem_mask|]. intros ga _.
  eapply preserves_bind; [apply preserves_df_getitem|]. intros sb _.
  eapply preserves_bind; [apply preserves_df_getitem_mask|]. intros gb _.
  apply preserves_ret. exact I.
Qed.

Lemma preserves_aggregate_by_group (n data : nat) (group_column : string)
  (metrics : list string) :
  preserves n anything (Heap.aggregate_by_group data group_column metrics).
Proof.
  unfold Heap.aggregate_by_group.
  eapply preserves_bind; [apply preserves_df_copy|]. intros c _.
  eapply preserves_bind; [apply preserves_df_groupby|]. intros gs _.
  eapply preserves_bind;
    [apply preserves_df_require_columns|].
  intros _ _.
  eapply preserves_bind; [apply preserves_lift|]. intros _ _.
  eapply preserves_bind; [apply preserves_df_agg|]. intros t _.
  eapply preserves_any, preserves_df_reset_index.
Qed.

Lemma preserves_compute_metric (n data : nat) (column : string)
  (condition : value) (metric_col operation : string) :
  preserves n anything
    (Heap.compute_metric data column condition metric_col operation).
Proof.
  unfold Heap.compute_metric.
  eapply preserves_bind; [apply preserves_df_getitem|]. intros s _.
  eapply preserves_bind; [apply preserves_df_getitem_mask|]. intros subset _.
  destruct (String.eqb operation "mean");
    [|destruct (String.eqb operation "sum")].
  - eapply preserves_bind; [apply preserves_df_getitem|]. intros m _.
    eapply preserves_bind; [apply preserves_lift|]. intros xs _.
    apply preserves_ret. exact I.
  - eapply preserves_bind; [apply preserves_df_getitem|]. intros m _.
    eapply preserves_bind; [apply preserves_lift|]. intros xs _.
    apply preserves_ret. exact I.
  - apply preserves_ret. exact I.
Qed.

(** The two column assignments of [calculate_cost_savings] write the table
    the aggregation has allocated, never a table of the caller. *)
Lemma preserves_calculate_cost_savings (n data : nat)
  (group_col cost_col claim_col : string) :
  preserves n anything
    (Heap.calculate_cost_savings data group_col cost_col claim_col).
Proof.
  unfold Heap.calculate_cost_savings.
  eapply preserves_bind; [apply preserves_df_groupby|]. intros gs _.
  eapply preserves_bind; [apply preserves_df_agg|]. intros group_data Hf.
  eapply preserves_bind; [apply preserves_df_getitem|]. intros tc _.
  eapply preserves_bind; [apply preserves_df_getitem|]. intros tcl _.
  eapply preserves_bind; [apply preserves_lift|]. intros pot _.
  eapply preserves_bind; [apply preserves_df_setitem, Hf|]. intros _ _.
  eapply preserves_bind; [apply preserves_df_getitem|]. intros pot' _.
  eapply preserves_bind; [apply preserves_df_getitem|]. intros tc' _.
  eapply preserves_bind; [apply preserves_lift|]. intros ratio _.
  eapply preserves_bind; [apply preserves_lift|]. intros pct _.
  eapply preserves_bind; [apply preserves_df_setitem, Hf|]. intros _ _.
  eapply preserves_any, preserves_df_reset_index.
Qed.

Lemma preserves_rank_savings_opportunities
  (argsort : list float -> list nat) (n savings_summary : nat)
  (threshold : float) :
  preserves n anything
    (Heap.rank_savings_opportunities argsort savings_summary threshold).
Proof.
  unfold Heap.rank_savings_opportunities.
  eapply preserves_bind; [apply preserves_df_getitem|]. intros pct _.
  eapply preserves_bind; [apply preserves_lift|]. intros mask _.
  eapply preserves_bind; [apply preserves_df_getitem_mask|]. intros f _.
  eapply preserves_bind; [apply preserves_df_sort_values|]. intros sorted _.
  eapply preserves_any, preserves_df_reset_index_drop.
Qed.

Lemma unchanged {A : Type} (Q : A -> Prop) (m : M A) (s : Store) :
  preserves (length s) Q m -> firstn (length s) (snd (m s)) = s.
Proof.
  intros H. destruct (H s (le_n _)) as (E & _ & _).
  rewrite E. apply firstn_all.
Qed.

(** The copy [aggregate_by_group] makes: the first table it allocates
    holds the rows and columns of its input. *)
Lemma aggregate_by_group_copy (s : Store) (data : nat) (d : DataFrame)
  (group_column : string) (metrics : list string) :
  nth_error s data = Some d ->
  nth_error (snd (Heap.aggregate_by_group data group_column metrics s))
            (length s)
  = Some (copy d).
Proof.
  intros Hd.
  pose (rest := fun c : nat =>
    gs <~ df_groupby c (Name group_column) ;;
    _ <~ df_require_columns c (map Name metrics) ;;
    _ <~ lift (match metrics with
               | [] => Raise ValueError
               | _ :: _ => Ok tt
               end) ;;
    t <~ df_agg c gs (sum_mean_spec metrics) ;;
    df_reset_index t (Name2 group_column "")).
  assert (Hrest : preserves (S (length s)) anything (rest (length s))).
  { unfold rest.
    eapply preserves_bind; [apply preserves_df_groupby|]. intros gs _.
    eapply preserves_bind;
      [apply preserves_df_require_columns|].
    intros _ _.
    eapply preserves_bind; [apply preserves_lift|]. intros _ _.
    eapply preserves_bind; [apply preserves_df_agg|]. intros t _.
    eapply preserves_any, preserves_df_reset_index. }
  change (Heap.aggregate_by_group data group_column metrics)
    with (bindM (df_copy data) rest).
  assert (C : df_copy data s = (Ok (length s), s ++ [copy d])).
  { unfold df_copy, bindM, read, alloc. rewrite Hd. reflexivity. }
  unfold bindM at 1. rewrite C.
  destruct (Hrest (s ++ [copy d])) as (E & _ & _).
  { rewrite length_app. simpl. lia. }
  assert (F : nth_error (firstn (S (length s))
                           (snd (rest (length s) (s ++ [copy d]))))
                (length s) = Some (copy d)).
  { rewrite E. rewrite firstn_app, firstn_all2 by lia.
    replace (S (length s) - length s) with 1 by lia. simpl.
    rewrite nth_error_app2 by lia. rewrite Nat.sub_diag. reflexivity. }
  rewrite nth_error_firstn in F.
  destruct (length s <? S (length s)) eqn:L; [exact F|].
  apply Nat.ltb_ge in L. lia.
Qed.

End Frame.

(** C9. No function of the toolkit changes a table of its caller: whatever
    the store and the arguments, after the call every table the store held
    before it, the inputs among them, has the rows and columns it had.
    [aggregate_by_group] groups a copy of its input, which it allocates
    first. *)
Theorem toolkit_preserves_inputs :
  (forall ttest_ind s group_a group_b metric,
     firstn (length s)
       (snd (Heap.perform_t_test ttest_ind group_a group_b metric s)) = s)
  /\ (forall chi2_contingency s contingency_table,
        firstn (length s)
          (snd (Heap.perform_chi2_test chi2_contingency contingency_table s))
        = s)
  /\ (forall f_oneway s groups,
        firstn (length s) (snd (Heap.perform_anova_test f_oneway groups s))
        = s)
  /\ (forall mannwhitneyu s group_a group_b metric,
        firstn (length s)
          (snd (Heap.perform_mannwhitneyu_test mannwhitneyu
                  group_a group_b metric s)) = s)
  /\ (forall s df column1 column2 threshold,
        firstn (length s)
          (snd (Heap.generate_contingency_table df column1 column2
                  threshold s)) = s)
  /\ (forall s data column values_group_a values_group_b,
        firstn (length s)
          (snd (Heap.segment_data data column values_group_a
                  values_group_b s)) = s)
  /\ (forall s data group_column metrics,
        firstn (length s)
          (snd (Heap.aggregate_by_group data group_column metrics s)) = s
        /\ forall d, nth_error s data = Some d ->
             nth_error
               (snd (Heap.aggregate_by_group data group_column metrics s))
               (length s) = Some (copy d))
  /\ (forall s data column condition metric_col operation,
        firstn (length s)
          (snd (Heap.compute_metric data column condition metric_col
                  operation s)) = s)
  /\ (forall s data group_col cost_col claim_col,
        firstn (length s)
          (snd (Heap.calculate_cost_savings data group_col cost_col
                  claim_col s)) = s)
  /\ (forall argsort s savings_summary threshold,
        firstn (length s)
          (snd (Heap.rank_savings_opportunities argsort savings_summary
                  threshold s)) = s).
Proof.
  repeat split; intros.
  - eapply Frame.unchanged, Frame.preserves_perform_t_test.
  - eapply Frame.unchanged, Frame.preserves_perform_chi2_test.
  - eapply Frame.unchanged, Frame.preserves_perform_anova_test.
  - eapply Frame.unchanged, Frame.preserves_perform_mannwhitneyu_test.
  - eapply Frame.unchanged, Frame.preserves_generate_contingency_table.
  - eapply Frame.unchanged, Frame.preserves_segment_data.
  - eapply Frame.unchanged, Frame.preserves_aggregate_by_group.
  - apply Frame.aggregate_by_group_copy. assumption.
  - eapply Frame.unchanged, Frame.preserves_compute_metric.
  - eapply Frame.unchanged, Frame.preserves_calculate_cost_savings.
  - eapply Frame.unchanged, Frame.preserves_rank_savings_opportunities.
Qed.

(* ================================================================= *)
(** * Part III. Further properties of the toolkit *)

(* ----------------------------------------------------------------- *)
(** ** [generate_contingency_table] *)

Lemma combine_map {A B C : Type} (f : A -> B) (g : A -> C) (l : list A) :
  combine (map f l) (map g l) = map (fun x => (f x, g x)) l.
Proof.
  induction l as [|x l IH]; simpl; [reflexivity|]. rewrite IH. reflexivity.
Qed.

Lemma length_filter_map {A B : Type} (f : A -> B) (p : B -> bool)
  (l : list A) :
  length (filter p (map f l)) = length (filter (fun x => p (f x)) l).
Proof.
  induction l as [|x l IH]; simpl; [reflexivity|].
  destruct (p (f x)); simpl; rewrite IH; reflexivity.
Qed.

Lemma filter_filter {A : Type} (p q : A -> bool) (l : list A) :
  filter p (filter q l) = filter (fun x => q x && p x) l.
Proof.
  induction l as [|x l IH]; simpl; [reflexivity|].
  destruct (q x); simpl; [destruct (p x)|]; rewrite IH; reflexivity.
Qed.

Lemma lookup_flags (F : bool -> value) (cols : list bool) (b : bool) :
  In b cols ->
  lookup (NameB b) (map (fun c => (NameB c, F c)) cols) = Some (F b).
Proof.
  induction cols as [|c cols IH]; intros H; [contradiction|].
  cbn [map lookup colname_eqb].
  destruct (Bool.eqb b c) eqn:E.
  - apply Bool.eqb_prop in E. subst. reflexivity.
  - destruct H as [->|H]; [rewrite Bool.eqb_reflx in E; discriminate|].
    apply IH, H.
Qed.

Lemma has_flag_column (cols : list bool) (rs : list Row) (b : bool) :
  has_column (mkDF (map NameB cols) rs) (NameB b) = true <-> In b cols.
Proof.
  unfold has_column. cbn [columns]. rewrite existsb_exists. split.
  - intros [c [Hc E]]. apply in_map_iff in Hc. destruct Hc as [d [<- Hd]].
    simpl in E. apply Bool.eqb_prop in E. subst. exact Hd.
  - intros H. exists (NameB b). split; [apply in_map, H|].
    apply colname_eqb_refl.
Qed.

Lemma generate_contingency_table_crosstab
  (df : DataFrame) (column1 column2 : string) (threshold : float) :
  has_column df (Name column1) = true ->
  has_column df (Name column2) = true ->
  numeric_column df (Name column2) ->
  generate_contingency_table df column1 column2 threshold
  = Ok (crosstab (map (fun r => cell r (Name column1)) (rows df))
          (map (exceeds column2 threshold) (rows df))).
Proof.
  intros H1 H2 Hn. unfold generate_contingency_table.
  rewrite (getitem_ok _ _ H1), (getitem_ok _ _ H2). simpl bind.
  unfold series_gt. rewrite (to_numeric_cells _ _ Hn). simpl bind.
  rewrite map_map. reflexivity.
Qed.

(** X1. The table of [generate_contingency_table]. With both columns present
    and [column2] numeric, it has one row per distinct value of [column1]
    that is not missing, labelled by the value, in ascending order; a
    column for each of the flags [False] and [True] that some row with a
    key has; and in each cell the number of rows of the data with that key
    and that flag. A row whose [column2] is missing is counted under
    [False]. *)
Theorem generate_contingency_table_counts
  (df : DataFrame) (column1 column2 : string) (threshold : float) :
  has_column df (Name column1) = true ->
  has_column df (Name column2) = true ->
  numeric_column df (Name column2) ->
  exists out,
    generate_contingency_table df column1 column2 threshold = Ok out
    /\ StronglySorted (fun r s => value_ltb (key_of r) (key_of s) = true)
         (rows out)
    /\ (forall r, In r (rows out) ->
          isna (key_of r) = false
          /\ (exists x, In x (rows df) /\ cell x (Name column1) = key_of r)
          /\ forall b, has_column out (NameB b) = true ->
               cell r (NameB b)
               = VNum (float_of_nat
                         (cross_count df column1 column2 threshold
                            (key_of r) b)))
    /\ (forall x, In x (rows df) -> isna (cell x (Name column1)) = false ->
          (exists r, In r (rows out)
                     /\ value_eqb (cell x (Name column1)) (key_of r) = true)
          /\ has_column out (NameB (exceeds column2 threshold x)) = true)
    /\ (forall b, has_column out (NameB b) = true ->
          exists x, In x (rows df)
                    /\ isna (cell x (Name column1)) = false
                    /\ exceeds column2 threshold x = b).
Proof.
  intros H1 H2 Hn.
  rewrite (generate_contingency_table_crosstab _ _ _ _ H1 H2 Hn).
  eexists. split; [reflexivity|].
  unfold crosstab. rewrite combine_map.
  set (f := fun r : Row =>
              (cell r (Name column1), exceeds column2 threshold r)).
  set (pairs := filter (fun p : value * bool => negb (isna (fst p)))
                  (map f (rows df))).
  set (cols := filter (fun c => existsb (fun p : value * bool =>
                                           Bool.eqb (snd p) c) pairs)
                 [false; true]).
  destruct (group_by_spec _ (@fst value bool) pairs) as (S & P & M & C).
  assert (Hcols : forall b, In b cols <->
            exists x, In x (rows df) /\ isna (cell x (Name column1)) = false
                      /\ exceeds column2 threshold x = b).
  { intros b. unfold cols. rewrite filter_In, existsb_exists. split.
    - intros [_ [p [Hp E]]]. apply filter_In in Hp. destruct Hp as [Hp Np].
      apply in_map_iff in Hp. destruct Hp as [x [<- Hx]].
      exists x. simpl in *. apply negb_true_iff in Np.
      apply Bool.eqb_prop in E. auto.
    - intros [x (Hx & Nx & E)]. split; [destruct b; simpl; auto|].
      exists (f x). split.
      + apply filter_In. split; [apply in_map, Hx|].
        simpl. rewrite Nx. reflexivity.
      + simpl. rewrite E. apply Bool.eqb_reflx. }
  cbn [rows]. split; [|split; [|split]].
  - apply (proj2 (StronglySorted_map _ _ _)).
    eapply StronglySorted_impl; [|exact S].
    intros g h Hgh. exact Hgh.
  - intros r Hr. apply in_map_iff in Hr. destruct Hr as [[k ms] [<- Hkg]].
    unfold key_of. cbn [label_of label_value fst snd].
    destruct (M k ms Hkg) as [-> [p [Hp Ek]]].
    rewrite Forall_forall in P. specialize (P _ Hkg).
    split; [exact P|]. split.
    + apply filter_In in Hp. destruct Hp as [Hp _].
      apply in_map_iff in Hp. destruct Hp as [x [<- Hx]].
      exists x. split; [exact Hx|exact Ek].
    + intros b Hb. apply has_flag_column in Hb.
      unfold cell. cbn [cells].
      rewrite (lookup_flags
                 (fun c => VNum (float_of_nat
                    (length (filter (fun p : value * bool =>
                                       Bool.eqb (snd p) c)
                               (members (@fst value bool) k pairs)))))
                 cols b Hb).
      do 2 f_equal. unfold members, pairs, cross_count.
      rewrite !filter_filter, length_filter_map. f_equal.
      apply filter_ext. intros x. unfold f. cbn [fst snd].
      destruct (value_eqb (cell x (Name column1)) k) eqn:E.
      * rewrite (ValueOrder.value_eqb_notna_l _ _ E). reflexivity.
      * rewrite andb_false_r. reflexivity.
  - intros x Hx Nx. split.
    + destruct (C (f x)) as (k & ms & Hkg & E).
      * apply filter_In. split; [apply in_map, Hx|].
        simpl. rewrite Nx. reflexivity.
      * exact Nx.
      * eexists. split; [apply in_map, Hkg|]. exact E.
    + apply has_flag_column, Hcols. exists x. auto.
  - intros b Hb. apply has_flag_column in Hb. apply Hcols, Hb.
Qed.

Lemma province_premium_numeric :
  numeric_column province_data (Name "TotalPremium").
Proof.
  intros r Hr. simpl in Hr.
  repeat (destruct Hr as [<-|Hr]; [eexists; reflexivity|]). contradiction.
Qed.

Lemma province_claims_numeric :
  numeric_column province_data (Name "TotalClaims").
Proof.
  intros r Hr. simpl in Hr.
  repeat (destruct Hr as [<-|Hr]; [eexists; reflexivity|]). contradiction.
Qed.

Lemma generate_contingency_table_counts_witness :
  exists out,
    generate_contingency_table province_data "Province" "TotalClaims" 35
    = Ok out
    /\ StronglySorted (fun r s => value_ltb (key_of r) (key_of s) = true)
         (rows out)
    /\ (forall r, In r (rows out) ->
          isna (key_of r) = false
          /\ (exists x, In x (rows province_data)
                        /\ cell x (Name "Province") = key_of r)
          /\ forall b, has_column out (NameB b) = true ->
               cell r (NameB b)
               = VNum (float_of_nat
                         (cross_count province_data "Province" "TotalClaims"
                            35 (key_of r) b)))
    /\ (forall x, In x (rows province_data) ->
          isna (cell x (Name "Province")) = false ->
          (exists r, In r (rows out)
                     /\ value_eqb (cell x (Name "Province")) (key_of r)
                        = true)
          /\ has_column out (NameB (exceeds "TotalClaims" 35 x)) = true)
    /\ (forall b, has_column out (NameB b) = true ->
          exists x, In x (rows province_data)
                    /\ isna (cell x (Name "Province")) = false
                    /\ exceeds "TotalClaims" 35 x = b).
Proof.
  apply (generate_contingency_table_counts province_data "Province"
           "TotalClaims" 35);
    [reflexivity | reflexivity | exact province_claims_numeric].
Defined.

Lemma to_numeric_string (l : list value) (s : string) :
  In (VStr s) l -> to_numeric l = Raise TypeError.
Proof.
  unfold to_numeric. induction l as [|v l IH]; intros H; [contradiction|].
  cbn [mapM]. destruct v as [x|t]; [|reflexivity].
  destruct H as [H|H]; [discriminate|].
  cbn [as_float bind]. rewrite (IH H). reflexivity.
Qed.

(** X2. What [generate_contingency_table] raises. A missing [column1] is a
    [KeyError] on it; with [column1] present, a missing [column2] is a
    [KeyError] on [column2]; with both present, a string in [column2] is a
    [TypeError], from its comparison with the threshold. *)
Theorem generate_contingency_table_raises
  (df : DataFrame) (column1 column2 : string) (threshold : float) :
  (has_column df (Name column1) = false ->
   generate_contingency_table df column1 column2 threshold
   = Raise (KeyError (Name column1)))
  /\ (has_column df (Name column1) = true ->
      has_column df (Name column2) = false ->
      generate_contingency_table df column1 column2 threshold
      = Raise (KeyError (Name column2)))
  /\ (has_column df (Name column1) = true ->
      has_column df (Name column2) = true ->
      (exists r s, In r (rows df) /\ cell r (Name column2) = VStr s) ->
      generate_contingency_table df column1 column2 threshold
      = Raise TypeError).
Proof.
  unfold generate_contingency_table, getitem. repeat split.
  - intros ->. reflexivity.
  - intros -> ->. reflexivity.
  - intros -> -> (r & s & Hr & E). cbn [bind]. unfold series_gt.
    rewrite (to_numeric_string _ s); [reflexivity|].
    rewrite <- E. apply in_map_iff. exists r. auto.
Qed.

Lemma generate_contingency_table_raises_witness :
  generate_contingency_table province_data "Region" "TotalClaims" 0
  = Raise (KeyError (Name "Region"))
  /\ generate_contingency_table province_data "Province" "Claims" 0
     = Raise (KeyError (Name "Claims"))
  /\ generate_contingency_table province_data "TotalClaims" "Province" 0
     = Raise TypeError.
Proof.
  pose proof (generate_contingency_table_raises province_data
                "Region" "TotalClaims" 0) as (H1 & _ & _).
  pose proof (generate_contingency_table_raises province_data
                "Province" "Claims" 0) as (_ & H2 & _).
  pose proof (generate_contingency_table_raises province_data
                "TotalClaims" "Province" 0) as (_ & _ & H3).
  split; [apply H1; reflexivity|].
  split; [apply H2; reflexivity|].
  apply H3; [reflexivity | reflexivity |].
  exists (mkRow (LInt 0) [(Name "Province", VStr "A");
                          (Name "TotalPremium", VNum 100);
                          (Name "TotalClaims", VNum 40)]), "A"%string.
  split; [left; reflexivity | reflexivity].
Defined.

(* ----------------------------------------------------------------- *)
(** ** [compute_metric]: missing columns and missing conditions *)

Lemma compute_metric_subset (data : DataFrame) (column : string)
  (condition : value) :
  getitem_mask data
    (series_eq (map (fun r => cell r (Name column)) (rows data)) condition)
  = mkDF (columns data)
      (members (fun r => cell r (Name column)) condition (rows data)).
Proof.
  unfold getitem_mask, series_eq, members. f_equal.
  apply (select_mask_map2 (fun r => cell r (Name column))
           (fun v => value_eqb v condition)).
Qed.

(** [compute_metric] over the rows its filter keeps, for any operation,
    when these rows hold numbers in the metric column. *)
Lemma compute_metric_members
  (data : DataFrame) (column : string) (condition : value)
  (metric_col operation : string) :
  has_column data (Name column) = true ->
  has_column data (Name metric_col) = true ->
  (forall r, In r (rows data) ->
     value_eqb (cell r (Name column)) condition = true ->
     exists x, cell r (Name metric_col) = VNum x) ->
  let xs := map (fun r => num_cell r (Name metric_col))
              (members (fun r => cell r (Name column)) condition
                 (rows data)) in
  compute_metric data column condition metric_col operation
  = Ok (if String.eqb operation "mean" then Some (VNum (series_mean xs))
        else if String.eqb operation "sum" then Some (VNum (series_sum xs))
        else None).
Proof.
  intros Hc Hm Hn xs. unfold compute_metric.
  rewrite (getitem_ok _ _ Hc). cbn [bind].
  rewrite compute_metric_subset. unfold getitem.
  change (has_column (mkDF (columns data) ?l) (Name metric_col))
    with (has_column data (Name metric_col)).
  rewrite Hm. cbn [bind rows]. unfold mean_of_series, sum_of_series.
  rewrite to_numeric_cells.
  - destruct (String.eqb operation "mean"); [reflexivity|].
    destruct (String.eqb operation "sum"); reflexivity.
  - intros r Hr. apply filter_In in Hr. destruct Hr as [Hr E].
    exact (Hn r Hr E).
Qed.

Lemma not_summary_name_Province : ~ In "Province"%string summary_names.
Proof.
  simpl. intros H. repeat (destruct H as [H|H]; [discriminate|]).
  contradiction.
Qed.

(** X6. What [compute_metric] raises on a missing column. A missing filter
    column is a [KeyError] on it whatever the operation, an unknown one
    included; with the filter column present, a missing metric column is a
    [KeyError] on it for "mean" and for "sum", also when no row matches
    the condition. *)
Theorem compute_metric_raises
  (data : DataFrame) (column : string) (condition : value)
  (metric_col operation : string) :
  (has_column data (Name column) = false ->
   compute_metric data column condition metric_col operation
   = Raise (KeyError (Name column)))
  /\ (has_column data (Name column) = true ->
      has_column data (Name metric_col) = false ->
      operation = "mean"%string \/ operation = "sum"%string ->
      compute_metric data column condition metric_col operation
      = Raise (KeyError (Name metric_col))).
Proof.
  unfold compute_metric. split.
  - intros H. unfold getitem. rewrite H. reflexivity.
  - intros Hc Hm Hop. rewrite (getitem_ok _ _ Hc). cbn [bind].
    unfold getitem at 1 2.
    change (has_column (getitem_mask data ?m) (Name metric_col))
      with (has_column data (Name metric_col)).
    rewrite Hm. destruct Hop as [-> | ->]; reflexivity.
Qed.

Lemma compute_metric_raises_witness :
  compute_metric province_data "Region" (VStr "A") "TotalClaims" "median"
  = Raise (KeyError (Name "Region"))
  /\ compute_metric province_data "Province" (VStr "C") "Claims" "sum"
     = Raise (KeyError (Name "Claims")).
Proof.
  split.
  - apply (proj1 (compute_metric_raises province_data "Region" (VStr "A")
                    "TotalClaims" "median")). reflexivity.
  - apply (proj2 (compute_metric_raises province_data "Province" (VStr "C")
                    "Claims" "sum")); [reflexivity | reflexivity |].
    right. reflexivity.
Defined.

Lemma value_eqb_na_r (v k : value) : isna k = true -> value_eqb v k = false.
Proof.
  intros H. destruct (value_eqb v k) eqn:E; [|reflexivity].
  rewrite (ValueOrder.value_eqb_notna_r _ _ E) in H. discriminate.
Qed.

Lemma members_na {A : Type} (key : A -> value) (k : value) (xs : list A) :
  isna k = true -> members key k xs = [].
Proof.
  intros H. unfold members. apply filter_none.
  intros x _. apply value_eqb_na_r, H.
Qed.

(** X7. A missing value as the condition selects no row, the rows whose
    [column] is missing included, since [==] holds for no missing value:
    the sum is 0 and the mean is NaN. *)
Theorem compute_metric_missing_condition
  (data : DataFrame) (column : string) (condition : value)
  (metric_col : string) :
  has_column data (Name column) = true ->
  has_column data (Name metric_col) = true ->
  isna condition = true ->
  compute_metric data column condition metric_col "sum" = Ok (Some (VNum 0))
  /\ exists m,
       compute_metric data column condition metric_col "mean"
       = Ok (Some (VNum m))
       /\ is_nan m = true.
Proof.
  intros Hc Hm Hna.
  assert (Hn : forall r, In r (rows data) ->
            value_eqb (cell r (Name column)) condition = true ->
            exists x, cell r (Name metric_col) = VNum x).
  { intros r _ E. rewrite (value_eqb_na_r _ _ Hna) in E. discriminate. }
  pose proof (compute_metric_members data column condition metric_col "sum"
                Hc Hm Hn) as Es.
  pose proof (compute_metric_members data column condition metric_col "mean"
                Hc Hm Hn) as Em.
  cbv zeta in Es, Em. rewrite (members_na _ _ _ Hna) in Es, Em.
  split; [exact Es|]. eexists. split; [exact Em|]. reflexivity.
Qed.

Lemma compute_metric_missing_condition_witness :
  compute_metric province_data "TotalClaims" (VNum nan) "TotalPremium" "sum"
  = Ok (Some (VNum 0))
  /\ exists m,
       compute_metric province_data "TotalClaims" (VNum nan) "TotalPremium"
         "mean" = Ok (Some (VNum m))
       /\ is_nan m = true.
Proof.
  apply (compute_metric_missing_condition province_data "TotalClaims"
           (VNum nan) "TotalPremium"); reflexivity.
Defined.

(* ----------------------------------------------------------------- *)
(** ** [segment_data] on any two sets of values *)

Lemma row_isin_na (c : colname) (values : list value) (r : Row) :
  isna (cell r c) = true -> row_isin c values r = existsb isna values.
Proof.
  intros H. unfold row_isin. induction values as [|v vs IH]; [reflexivity|].
  cbn [existsb]. rewrite IH. f_equal. unfold value_same. rewrite H.
  rewrite ValueOrder.value_eqb_sym, (value_eqb_na_r _ _ H). reflexivity.
Qed.

(** X8. [segment_data] without the assumption that the sets are disjoint.
    A missing column is a [KeyError]. Otherwise each group has the columns
    of the data and, in the order and under the labels of the data, the
    rows whose value is in its set; a row whose value is in both sets is in
    both groups; and a row whose value is missing is in a group exactly
    when the group's set holds a missing value. *)
Theorem segment_data_groups
  (data : DataFrame) (column : string)
  (values_group_a values_group_b : list value) :
  (has_column data (Name column) = false ->
   segment_data data column values_group_a values_group_b
   = Raise (KeyError (Name column)))
  /\ (has_column data (Name column) = true ->
      exists group_a group_b,
        segment_data data column values_group_a values_group_b
        = Ok (group_a, group_b)
        /\ columns group_a = columns data
        /\ columns group_b = columns data
        /\ rows group_a
           = filter (row_isin (Name column) values_group_a) (rows data)
        /\ rows group_b
           = filter (row_isin (Name column) values_group_b) (rows data)
        /\ (forall r, In r (rows data) ->
              row_isin (Name column) values_group_a r = true ->
              row_isin (Name column) values_group_b r = true ->
              In r (rows group_a) /\ In r (rows group_b))
        /\ (forall r, In r (rows data) ->
              isna (cell r (Name column)) = true ->
              (In r (rows group_a) <-> existsb isna values_group_a = true)
              /\ (In r (rows group_b)
                  <-> existsb isna values_group_b = true))).
Proof.
  unfold segment_data. split.
  - intros H. unfold getitem. rewrite H. reflexivity.
  - intros Hc. rewrite (getitem_ok _ _ Hc). cbn [bind].
    eexists. eexists. split; [reflexivity|].
    rewrite !segment_rows. cbn [columns getitem_mask].
    repeat split; try reflexivity.
    + apply filter_In. auto.
    + apply filter_In. auto.
    + intros Hin. apply filter_In in Hin. destruct Hin as [_ Hin].
      rewrite <- (row_isin_na (Name column) values_group_a r H0).
      exact Hin.
    + intros E. apply filter_In. split; [assumption|].
      rewrite (row_isin_na (Name column) values_group_a r H0). exact E.
    + intros Hin. apply filter_In in Hin. destruct Hin as [_ Hin].
      rewrite <- (row_isin_na (Name column) values_group_b r H0).
      exact Hin.
    + intros E. apply filter_In. split; [assumption|].
      rewrite (row_isin_na (Name column) values_group_b r H0). exact E.
Qed.

Lemma segment_data_groups_witness :
  segment_data province_data "Region" [VStr "A"] [VStr "A"; VStr "B"]
  = Raise (KeyError (Name "Region"))
  /\ exists group_a group_b,
       segment_data province_data "Province" [VStr "A"] [VStr "A"; VStr "B"]
       = Ok (group_a, group_b)
       /\ columns group_a = columns province_data
       /\ columns group_b = columns province_data
       /\ rows group_a
          = filter (row_isin (Name "Province") [VStr "A"])
              (rows province_data)
       /\ rows group_b
          = filter (row_isin (Name "Province") [VStr "A"; VStr "B"])
              (rows province_data)
       /\ (forall r, In r (rows province_data) ->
             row_isin (Name "Province") [VStr "A"] r = true ->
             row_isin (Name "Province") [VStr "A"; VStr "B"] r = true ->
             In r (rows group_a) /\ In r (rows group_b))
       /\ (forall r, In r (rows province_data) ->
             isna (cell r (Name "Province")) = true ->
             (In r (rows group_a) <-> existsb isna [VStr "A"] = true)
             /\ (In r (rows group_b)
                 <-> existsb isna [VStr "A"; VStr "B"] = true)).
Proof.
  split.
  - apply (proj1 (segment_data_groups province_data "Region" [VStr "A"]
                    [VStr "A"; VStr "B"])). reflexivity.
  - apply (proj2 (segment_data_groups province_data "Province" [VStr "A"]
                    [VStr "A"; VStr "B"])). reflexivity.
Defined.

(* ----------------------------------------------------------------- *)
(** ** [rank_savings_opportunities]: thresholds and repeated ranking *)



Lemma take_nil {A : Type} (ix : list nat) : take (@nil A) ix = [].
Proof.
  unfold take. induction ix as [|i ix IH]; simpl; [reflexivity|].
  destruct i; exact IH.
Qed.






Lemma length_renumber
  (f : label -> list (colname * value) -> list (colname * value))
  (rs : list Row) :
  length (renumber f rs) = length rs.
Proof. unfold renumber. rewrite length_map. apply length_enumerate. Qed.





Lemma leb_ltb_trans (x y z : float) :
  (x <=? y)%float = true -> (y <? z)%float = true -> (x <? z)%float = true.
Proof.
  rewrite FloatOrder.leb_fcmp, !FloatOrder.ltb_fcmp.
  destruct (fcmp x y) as [[]|] eqn:E1; try discriminate;
    destruct (fcmp y z) as [[]|] eqn:E2; try discriminate; intros _ _.
  - rewrite (FloatOrder.fcmp_eq_l _ _ z E1), E2. reflexivity.
  - rewrite (FloatOrder.fcmp_trans _ _ _ _ E1 E2). reflexivity.
Qed.

Lemma ltb_nan_l (t x : float) : is_nan t = true -> (t <? x)%float = false.
Proof.
  intros H. rewrite FloatOrder.ltb_fcmp, (FloatOrder.fcmp_nan_l _ _ H).
  reflexivity.
Qed.

Lemma length_filter_le {A : Type} (p q : A -> bool) (l : list A) :
  (forall x, In x l -> p x = true -> q x = true) ->
  length (filter p l) <= length (filter q l).
Proof.
  induction l as [|x l IH]; intros H; simpl; [lia|].
  assert (IH' := IH (fun y Hy => H y (or_intror Hy))).
  destruct (p x) eqn:Ep.
  - rewrite (H x (or_introl eq_refl) Ep). simpl. lia.
  - destruct (q x); simpl; lia.
Qed.

(** X10. The threshold of [rank_savings_opportunities]. The output has as many
    rows as the summary has rows above the threshold; raising the
    threshold only removes rows, each row returned for the higher one
    being returned, with the same cells, for the lower one; and a NaN
    threshold, above which no percentage is, returns a table without
    rows. *)
Theorem rank_savings_opportunities_threshold
  (argsort : list float -> list nat) (savings_summary : DataFrame) :
  ArgsortContract argsort ->
  has_column savings_summary (Name "SavingsPercentage") = true ->
  numeric_column savings_summary (Name "SavingsPercentage") ->
  (forall t1 t2, (t1 <=? t2)%float = true ->
     exists out1 out2,
       rank_savings_opportunities argsort savings_summary t1 = Ok out1
       /\ rank_savings_opportunities argsort savings_summary t2 = Ok out2
       /\ length (rows out1)
          = length (filter (above t1) (rows savings_summary))
       /\ length (rows out2) <= length (rows out1)
       /\ forall o, In o (rows out2) ->
            exists o', In o' (rows out1) /\ cells o' = cells o)
  /\ (forall t, is_nan t = true ->
        rank_savings_opportunities argsort savings_summary t
        = Ok (mkDF (columns savings_summary) [])).
Proof.
  intros Hok Hc Hn. split.
  - intros t1 t2 Ht.
    rewrite !(rank_savings_opportunities_rows argsort savings_summary _
                Hc Hn).
    cbv zeta.
    destruct (sorted_rows_spec argsort Hok
                (filter (above t1) (rows savings_summary))
                (above_notna t1 (rows savings_summary))) as (P1 & _ & _).
    destruct (sorted_rows_spec argsort Hok
                (filter (above t2) (rows savings_summary))
                (above_notna t2 (rows savings_summary))) as (P2 & _ & _).
    assert (Mono : forall r, above t2 r = true -> above t1 r = true).
    { intros r. unfold above. apply leb_ltb_trans, Ht. }
    eexists. eexists. split; [reflexivity|]. split; [reflexivity|].
    cbn [rows]. rewrite !length_renumber.
    rewrite (Permutation_length P1), (Permutation_length P2).
    split; [reflexivity|]. split.
    + apply length_filter_le. intros r _. apply Mono.
    + intros o Ho. apply renumber_keep_In in Ho. destruct Ho as [r [Hr E]].
      apply (Permutation_in _ P2) in Hr. apply filter_In in Hr.
      destruct Hr as [Hr A].
      assert (Hr1 : In r (filter (above t1) (rows savings_summary)))
        by (apply filter_In; split; [exact Hr|apply Mono, A]).
      apply (Permutation_in _ (Permutation_sym P1)) in Hr1.
      apply (in_map cells) in Hr1.
      rewrite <- renumber_keep_cells in Hr1. apply in_map_iff in Hr1.
      destruct Hr1 as [o' [E' Ho']]. exists o'. split; [exact Ho'|].
      congruence.
  - intros t Ht.
    rewrite (rank_savings_opportunities_rows argsort savings_summary t
               Hc Hn).
    cbv zeta. rewrite filter_none.
    + rewrite take_nil. reflexivity.
    + intros r _. unfold above. apply ltb_nan_l, Ht.
Qed.

Lemma rank_savings_opportunities_threshold_witness :
  (forall t1 t2, (t1 <=? t2)%float = true ->
     exists out1 out2,
       rank_savings_opportunities stable_argsort province_summary t1
       = Ok out1
       /\ rank_savings_opportunities stable_argsort province_summary t2
          = Ok out2
       /\ length (rows out1)
          = length (filter (above t1) (rows province_summary))
       /\ length (rows out2) <= length (rows out1)
       /\ forall o, In o (rows out2) ->
            exists o', In o' (rows out1) /\ cells o' = cells o)
  /\ (forall t, is_nan t = true ->
        rank_savings_opportunities stable_argsort province_summary t
        = Ok (mkDF (columns province_summary) [])).
Proof.
  apply (rank_savings_opportunities_threshold stable_argsort
           province_summary (insertion_argsort_contract false)).
  - reflexivity.
  - exact province_summary_numeric.
Defined.

(** X11. What [rank_savings_opportunities] raises: a [KeyError] on a table
    without a SavingsPercentage column, and a [TypeError] when the column
    holds a string, from its comparison with the threshold. *)
Theorem rank_savings_opportunities_raises
  (argsort : list float -> list nat) (savings_summary : DataFrame)
  (threshold : float) :
  (has_column savings_summary (Name "SavingsPercentage") = false ->
   rank_savings_opportunities argsort savings_summary threshold
   = Raise (KeyError (Name "SavingsPercentage")))
  /\ (has_column savings_summary (Name "SavingsPercentage") = true ->
      (exists r s, In r (rows savings_summary)
                   /\ cell r (Name "SavingsPercentage") = VStr s) ->
      rank_savings_opportunities argsort savings_summary threshold
      = Raise TypeError).
Proof.
  unfold rank_savings_opportunities. split.
  - intros H. unfold getitem. rewrite H. reflexivity.
  - intros Hc (r & s & Hr & E). rewrite (getitem_ok _ _ Hc). cbn [bind].
    unfold series_gt. rewrite (to_numeric_string _ s); [reflexivity|].
    rewrite <- E. apply in_map_iff. exists r. auto.
Qed.

Lemma rank_savings_opportunities_raises_witness :
  rank_savings_opportunities stable_argsort province_data 0
  = Raise (KeyError (Name "SavingsPercentage"))
  /\ rank_savings_opportunities stable_argsort
       (mkDF [Name "SavingsPercentage"]
          [mkRow (LInt 0) [(Name "SavingsPercentage", VStr "high")]]) 0
     = Raise TypeError.
Proof.
  split.
  - apply (proj1 (rank_savings_opportunities_raises stable_argsort
                    province_data 0)).
    reflexivity.
  - apply (proj2 (rank_savings_opportunities_raises stable_argsort
                    (mkDF [Name "SavingsPercentage"]
                       [mkRow (LInt 0)
                          [(Name "SavingsPercentage", VStr "high")]]) 0));
      [reflexivity|].
    exists (mkRow (LInt 0) [(Name "SavingsPercentage", VStr "high")]),
      "high"%string.
    split; [left; reflexivity | reflexivity].
Defined.

(* ----------------------------------------------------------------- *)
(** ** [calculate_cost_savings]: a total cost of zero *)

Module FloatDivision.

Lemma is_nan_spec (r : float) :
  is_nan r = match Prim2SF r with S754_nan => true | _ => false end.
Proof.
  unfold is_nan. rewrite FloatAxioms.eqb_spec. unfold SFeqb.
  destruct (Prim2SF r) eqn:E; try reflexivity;
    rewrite FloatOrder.SFcompare_refl by discriminate; reflexivity.
Qed.

Lemma is_infinity_spec (r : float) :
  is_infinity r
  = match Prim2SF r with S754_infinity _ => true | _ => false end.
Proof.
  unfold is_infinity. rewrite FloatAxioms.eqb_spec, FloatAxioms.abs_spec.
  change (Prim2SF infinity) with (S754_infinity false).
  unfold SFeqb. destruct (Prim2SF r) as [s| s| |s m e]; reflexivity.
Qed.

Lemma is_zero_spec (z : float) :
  is_zero z = match Prim2SF z with S754_zero _ => true | _ => false end.
Proof.
  unfold is_zero. rewrite FloatAxioms.eqb_spec.
  change (Prim2SF zero) with (S754_zero false).
  unfold SFeqb. destruct (Prim2SF z) as [s| s| |s m e]; try reflexivity;
    destruct s; reflexivity.
Qed.

(** A ratio over zero, as a percentage, is NaN or infinite: NaN when the
    numerator is zero or NaN, infinite otherwise. *)
Lemma percentage_of_zero (x z : float) :
  is_zero z = true ->
  is_finite (x / z * 100) = false
  /\ is_nan (x / z * 100) = is_nan x || is_zero x.
Proof.
  rewrite (is_zero_spec z). intros Hz. unfold is_finite.
  rewrite (is_nan_spec (x / z * 100)), (is_infinity_spec (x / z * 100)).
  rewrite (is_nan_spec x), (is_zero_spec x).
  rewrite FloatAxioms.mul_spec, FloatAxioms.div_spec.
  assert (H100 : exists m e, Prim2SF 100 = S754_finite false m e)
    by (vm_compute; eauto).
  destruct H100 as (m & e & ->).
  destruct (Prim2SF z) as [sz| sz| |sz mz ez]; try discriminate.
  destruct (Prim2SF x) as [sx| sx| |sx mx ex]; split; reflexivity.
Qed.

End FloatDivision.

(** X12. A group whose total cost is zero raises nothing: its
    SavingsPercentage, a division by zero, is NaN when its
    SavingsPotential is zero or NaN and infinite otherwise. *)
Theorem calculate_cost_savings_zero_cost
  (data : DataFrame) (group_col cost_col claim_col : string) :
  has_column data (Name group_col) = true ->
  has_column data (Name cost_col) = true ->
  has_column data (Name claim_col) = true ->
  numeric_column data (Name cost_col) ->
  numeric_column data (Name claim_col) ->
  ~ In group_col summary_names ->
  exists summary,
    calculate_cost_savings data group_col cost_col claim_col = Ok summary
    /\ forall o, In o (rows summary) ->
         is_zero (num_cell o (Name "TotalCost")) = true ->
         is_finite (num_cell o (Name "SavingsPercentage")) = false
         /\ is_nan (num_cell o (Name "SavingsPercentage"))
            = is_nan (num_cell o (Name "SavingsPotential"))
              || is_zero (num_cell o (Name "SavingsPotential")).
Proof.
  intros Hg Hcost Hclaim Ncost Nclaim Hname.
  rewrite (calculate_cost_savings_rows data group_col cost_col claim_col)
    by assumption.
  eexists. split; [reflexivity|]. cbn [rows].
  intros o Ho Hz. apply in_map_iff in Ho. destruct Ho as [[i [k ms]] [<- _]].
  cbn [fst snd] in *.
  destruct (num_cell_summary (LInt (Z.of_nat i)) group_col cost_col claim_col
              k ms Hname) as (_ & _ & _ & E).
  rewrite E. apply FloatDivision.percentage_of_zero. exact Hz.
Qed.

Lemma zero_cost_numeric (c : string) :
  c = "TotalPremium"%string \/ c = "TotalClaims"%string ->
  numeric_column zero_cost_data (Name c).
Proof.
  intros [-> | ->] r Hr; simpl in Hr;
    repeat (destruct Hr as [<-|Hr]; [eexists; reflexivity|]); contradiction.
Qed.

(** Province A, without premium and with claims, has an infinite
    percentage; province B, without premium and without claims, has NaN. *)
Lemma calculate_cost_savings_zero_cost_witness :
  exists summary,
    calculate_cost_savings zero_cost_data "Province" "TotalPremium"
      "TotalClaims" = Ok summary
    /\ exists a b,
         In a (rows summary) /\ In b (rows summary)
         /\ cell a (Name "Province") = VStr "A"
         /\ cell b (Name "Province") = VStr "B"
         /\ is_zero (num_cell a (Name "TotalCost")) = true
         /\ is_zero (num_cell b (Name "TotalCost")) = true
         /\ is_finite (num_cell a (Name "SavingsPercentage")) = false
         /\ is_finite (num_cell b (Name "SavingsPercentage")) = false
         /\ is_nan (num_cell a (Name "SavingsPercentage")) = false
         /\ is_nan (num_cell b (Name "SavingsPercentage")) = true.
Proof.
  destruct (calculate_cost_savings_zero_cost zero_cost_data "Province"
              "TotalPremium" "TotalClaims" eq_refl eq_refl eq_refl
              (zero_cost_numeric _ (or_introl eq_refl))
              (zero_cost_numeric _ (or_intror eq_refl))
              not_summary_name_Province) as (summary & E & H).
  exists summary. split; [exact E|].
  assert (E' := E). vm_compute in E'. injection E' as <-.
  eexists. eexists.
  split; [left; reflexivity|]. split; [right; left; reflexivity|].
  split; [reflexivity|]. split; [reflexivity|].
  split; [reflexivity|]. split; [reflexivity|].
  split; [apply H; [left; reflexivity|reflexivity]|].
  split; [apply H; [right; left; reflexivity|reflexivity]|].
  split; reflexivity.
Defined.

(* ----------------------------------------------------------------- *)
(** ** [calculate_cost_savings]: exceptions *)

(** The steps after the aggregation when the group column is named as one
    of the output columns: [reset_index] cannot insert the key. *)
Lemma savings_columns_clash {A : Type} (k : A -> value) (tc tcl : A -> float)
  (l : list A) (group_col : string) :
  In group_col summary_names ->
  (let group_data :=
     mkDF [Name "TotalCost"; Name "TotalClaims"]
       (map (fun x => mkRow (LKey (k x))
                        [(Name "TotalCost", VNum (tc x));
                         (Name "TotalClaims", VNum (tcl x))]) l) in
   total_cost <- getitem group_data (Name "TotalCost") ;;
   total_claims <- getitem group_data (Name "TotalClaims") ;;
   potential <- series_sub total_cost total_claims ;;
   group_data <- setitem group_data (Name "SavingsPotential") potential ;;
   potential <- getitem group_data (Name "SavingsPotential") ;;
   total_cost <- getitem group_data (Name "TotalCost") ;;
   ratio <- series_div potential total_cost ;;
   percentage <- series_mul ratio 100 ;;
   group_data <- setitem group_data (Name "SavingsPercentage") percentage ;;
   reset_index group_data (Name group_col))
  = Raise ValueError.
Proof.
  intros Hname. cbv zeta.
  unfold getitem at 1 2. simpl. rewrite !map_map. unfold cell. simpl.
  unfold series_sub. rewrite !to_numeric_VNum. simpl.
  rewrite (zip_with_map (fun x y => VNum (x - y)%float) tc tcl l). simpl.
  rewrite (setitem_map _ _ (fun x => VNum (tc x - tcl x)%float)). simpl.
  rewrite !map_map. unfold cell. simpl.
  unfold series_div. rewrite !to_numeric_VNum. simpl.
  rewrite (zip_with_map (fun x y => VNum (x / y)%float)
             (fun x => (tc x - tcl x)%float) tc l). simpl.
  unfold series_mul. rewrite to_numeric_VNum. simpl. rewrite map_map.
  rewrite (setitem_map _ _
             (fun x => VNum ((tc x - tcl x) / tc x * 100)%float)). simpl.
  unfold reset_index.
  rewrite In_has_column; [reflexivity|].
  cbn [columns]. simpl in Hname.
  destruct Hname as [<-|[<-|[<-|[<-|[]]]]]; simpl; auto.
Qed.

(** X13. What [calculate_cost_savings] raises. A missing group column is a
    [KeyError] on it; with the group column present, a missing cost column
    or a missing claim column is a [KeyError] on that column; and with the
    three columns present and numeric, a group column that has the name of
    one of the four output columns is a [ValueError], the key having no
    column to go to. *)
Theorem calculate_cost_savings_raises
  (data : DataFrame) (group_col cost_col claim_col : string) :
  (has_column data (Name group_col) = false ->
   calculate_cost_savings data group_col cost_col claim_col
   = Raise (KeyError (Name group_col)))
  /\ (has_column data (Name group_col) = true ->
      has_column data (Name cost_col) = false ->
      has_column data (Name claim_col) = true ->
      calculate_cost_savings data group_col cost_col claim_col
      = Raise (KeyError (Name cost_col)))
  /\ (has_column data (Name group_col) = true ->
      has_column data (Name cost_col) = true ->
      has_column data (Name claim_col) = false ->
      calculate_cost_savings data group_col cost_col claim_col
      = Raise (KeyError (Name claim_col)))
  /\ (has_column data (Name group_col) = true ->
      has_column data (Name cost_col) = true ->
      has_column data (Name claim_col) = true ->
      numeric_column data (Name cost_col) ->
      numeric_column data (Name claim_col) ->
      In group_col summary_names ->
      calculate_cost_savings data group_col cost_col claim_col
      = Raise ValueError).
Proof.
  unfold calculate_cost_savings, groupby. repeat split.
  - intros ->. reflexivity.
  - intros -> Hcost Hclaim. unfold agg, missing_columns.
    cbn [map fst snd filter]. rewrite Hcost, Hclaim. reflexivity.
  - intros -> Hcost Hclaim. unfold agg, missing_columns.
    cbn [map fst snd filter]. rewrite Hcost, Hclaim. reflexivity.
  - intros Hg Hcost Hclaim Ncost Nclaim Hname. rewrite Hg.
    set (gs := group_by (fun r => cell r (Name group_col)) (rows data)).
    unfold agg. rewrite missing_columns_none.
    2:{ intros c [<-|[<-|[]]]; assumption. }
    cbn [sort_columns fold_right raise_missing]. unfold bind at 1 2.
    rewrite (mapM_ok _
      (fun kg => mkRow (LKey (fst kg))
         [(Name "TotalCost",
           VNum (group_sum
                   (map (fun r => num_cell r (Name cost_col)) (snd kg))));
          (Name "TotalClaims",
           VNum (group_sum
                   (map (fun r => num_cell r (Name claim_col)) (snd kg))))])).
    2:{ intros [k ms] Hin. simpl.
        rewrite (agg_cell_sum data), (agg_cell_sum data);
          try assumption;
          try (intros r Hr; eapply group_rows_in_data; eassumption).
        reflexivity. }
    exact (savings_columns_clash fst
             (fun kg => group_sum
                          (map (fun r => num_cell r (Name cost_col))
                             (snd kg)))
             (fun kg => group_sum
                          (map (fun r => num_cell r (Name claim_col))
                             (snd kg)))
             gs group_col Hname).
Qed.

Lemma summary_name_TotalClaims : In "TotalClaims"%string summary_names.
Proof. simpl. auto. Qed.

Lemma calculate_cost_savings_raises_witness :
  calculate_cost_savings province_data "Region" "TotalPremium" "TotalClaims"
  = Raise (KeyError (Name "Region"))
  /\ calculate_cost_savings province_data "Province" "Premium" "TotalClaims"
     = Raise (KeyError (Name "Premium"))
  /\ calculate_cost_savings province_data "Province" "TotalPremium" "Claims"
     = Raise (KeyError (Name "Claims"))
  /\ calculate_cost_savings province_data "TotalClaims" "TotalPremium"
       "TotalClaims" = Raise ValueError.
Proof.
  pose proof (calculate_cost_savings_raises province_data "Region"
                "TotalPremium" "TotalClaims") as (H1 & _).
  pose proof (calculate_cost_savings_raises province_data "Province"
                "Premium" "TotalClaims") as (_ & H2 & _).
  pose proof (calculate_cost_savings_raises province_data "Province"
                "TotalPremium" "Claims") as (_ & _ & H3 & _).
  pose proof (calculate_cost_savings_raises province_data "TotalClaims"
                "TotalPremium" "TotalClaims") as (_ & _ & _ & H4).
  split; [apply H1; reflexivity|].
  split; [apply H2; reflexivity|].
  split; [apply H3; reflexivity|].
  apply H4;
    [reflexivity | reflexivity | reflexivity
    | exact province_premium_numeric | exact province_claims_numeric
    | exact summary_name_TotalClaims].
Defined.

(* ----------------------------------------------------------------- *)
(** ** [aggregate_by_group]: exceptions *)

Lemma dedup_In (cs : list colname) (c : colname) :
  In c (dedup cs) <-> In c cs.
Proof.
  induction cs as [|d cs IH]; [reflexivity|]. cbn [dedup In].
  rewrite filter_In, IH. split.
  - intros [E|[H _]]; auto.
  - intros [E|H]; [now left|].
    destruct (colname_eqb c d) eqn:E.
    + left. symmetry. apply colname_eqb_eq, E.
    + right. split; [exact H|reflexivity].
Qed.

Lemma missing_columns_In (df : DataFrame) (cs : list colname) (c : colname) :
  In c (missing_columns df cs) <-> In c cs /\ has_column df c = false.
Proof.
  unfold missing_columns. rewrite dedup_In, filter_In, negb_true_iff.
  reflexivity.
Qed.

Lemma raise_missing_some (cs : list colname) :
  cs <> [] ->
  exists e, raise_missing cs = Raise e
            /\ is_key_error e = true /\ named_columns e = cs.
Proof.
  destruct cs as [|c [|d cs]]; intros H; [contradiction| |];
    eexists; repeat split; reflexivity.
Qed.

(** X14. What [aggregate_by_group] raises on a missing column: a
    [KeyError] on the group column when the data has none, and otherwise,
    when the data does not have all the listed metrics, one [KeyError]
    that names the metrics it does not have, all of them. *)
Theorem aggregate_by_group_raises
  (data : DataFrame) (group_column : string) (metrics : list string) :
  (has_column data (Name group_column) = false ->
   aggregate_by_group data group_column metrics
   = Raise (KeyError (Name group_column)))
  /\ (has_column data (Name group_column) = true ->
      (exists m, In m metrics /\ has_column data (Name m) = false) ->
      exists e,
        aggregate_by_group data group_column metrics = Raise e
        /\ is_key_error e = true
        /\ forall c,
             In c (named_columns e)
             <-> exists m, c = Name m /\ In m metrics
                           /\ has_column data (Name m) = false).
Proof.
  unfold aggregate_by_group, groupby, copy. cbn [columns rows].
  change (has_column (mkDF (columns data) (rows data)) (Name group_column))
    with (has_column data (Name group_column)).
  split.
  - intros H. rewrite H. reflexivity.
  - intros Hg (m & Hin & Hm). rewrite Hg. cbn [bind].
    unfold require_columns.
    set (d := mkDF (columns data) (rows data)).
    assert (Hmiss : forall c,
              In c (missing_columns d (map Name metrics))
              <-> exists m, c = Name m /\ In m metrics
                            /\ has_column data (Name m) = false).
    { intros c. rewrite missing_columns_In, in_map_iff. split.
      - intros [[m' [<- Hm']] Hc]. exists m'. auto.
      - intros (m' & -> & Hm' & Hc). split; [exists m'; auto|exact Hc]. }
    destruct (raise_missing_some (missing_columns d (map Name metrics)))
      as (e & Ee & Ke & Ne).
    { intros E. assert (H : In (Name m) (missing_columns d (map Name metrics)))
        by (apply Hmiss; exists m; auto).
      rewrite E in H. contradiction. }
    exists e. rewrite Ee. split; [reflexivity|]. split; [exact Ke|].
    rewrite Ne. exact Hmiss.
Qed.

Lemma aggregate_by_group_raises_witness :
  exists e,
    aggregate_by_group province_data "Province"
      ["TotalClaims"; "Premium"; "Claims"]%string = Raise e
    /\ is_key_error e = true
    /\ forall c,
         In c (named_columns e)
         <-> exists m, c = Name m
                       /\ In m ["TotalClaims"; "Premium"; "Claims"]%string
                       /\ has_column province_data (Name m) = false.
Proof.
  apply (proj2 (aggregate_by_group_raises province_data "Province"
                  ["TotalClaims"; "Premium"; "Claims"]%string));
    [reflexivity|].
  exists "Premium"%string. split; [simpl; auto|reflexivity].
Defined.

(* ----------------------------------------------------------------- *)
(** ** The test runners: exceptions and the order of p-values *)

Section TestRunnerEdges.

Variable ttest_ind : list value -> list value -> res (float * float).
Variable chi2_contingency :
  DataFrame -> res (float * float * Z * list (list float)).
Variable f_oneway : list (list value) -> res (float * float).
Variable mannwhitneyu : list value -> list value -> res (float * float).

(** X15. What the test runners raise. [perform_t_test] and
    [perform_mannwhitneyu_test] look the metric up in [group_a], then in
    [group_b], before the routine is called: a group without the metric is
    a [KeyError] on it whatever the routine does. Past that, and in
    [perform_chi2_test] and [perform_anova_test] from the start, an
    exception of the routine is the exception of the runner. *)
Theorem test_runners_raise :
  (forall group_a group_b metric,
     has_column group_a (Name metric) = false
     \/ has_column group_b (Name metric) = false ->
     perform_t_test ttest_ind group_a group_b metric
     = Raise (KeyError (Name metric))
     /\ perform_mannwhitneyu_test mannwhitneyu group_a group_b metric
        = Raise (KeyError (Name metric)))
  /\ (forall group_a group_b metric e,
        has_column group_a (Name metric) = true ->
        has_column group_b (Name metric) = true ->
        (ttest_ind (map (fun r => cell r (Name metric)) (rows group_a))
           (map (fun r => cell r (Name metric)) (rows group_b)) = Raise e ->
         perform_t_test ttest_ind group_a group_b metric = Raise e)
        /\ (mannwhitneyu (map (fun r => cell r (Name metric)) (rows group_a))
              (map (fun r => cell r (Name metric)) (rows group_b)) = Raise e ->
            perform_mannwhitneyu_test mannwhitneyu group_a group_b metric
            = Raise e))
  /\ (forall contingency_table e,
        chi2_contingency contingency_table = Raise e ->
        perform_chi2_test chi2_contingency contingency_table = Raise e)
  /\ (forall groups e,
        f_oneway groups = Raise e ->
        perform_anova_test f_oneway groups = Raise e).
Proof.
  unfold perform_t_test, perform_mannwhitneyu_test, perform_chi2_test,
    perform_anova_test.
  split; [|split; [|split]].
  - intros ga gb metric H. unfold getitem.
    destruct (has_column ga (Name metric)); [|split; reflexivity].
    destruct H as [H|H]; [discriminate|]. rewrite H. split; reflexivity.
  - intros ga gb metric e Ha Hb.
    rewrite (getitem_ok _ _ Ha), (getitem_ok _ _ Hb). cbn [bind].
    split; intros ->; reflexivity.
  - intros t e ->. reflexivity.
  - intros gs e ->. reflexivity.
Qed.

(** X16. The flag follows the order of the p-values: a result whose p-value is
    NaN is not significant, and of two results, the one with the smaller
    p-value is significant when the other one is. *)
Theorem test_result_order :
  (forall r,
     returned ttest_ind chi2_contingency f_oneway mannwhitneyu r ->
     is_nan (p_value r) = true -> significant r = false)
  /\ (forall r1 r2,
        returned ttest_ind chi2_contingency f_oneway mannwhitneyu r1 ->
        returned ttest_ind chi2_contingency f_oneway mannwhitneyu r2 ->
        (p_value r1 <=? p_value r2)%float = true ->
        significant r2 = true -> significant r1 = true).
Proof.
  split.
  - intros r H Hn.
    destruct (returned_inv ttest_ind chi2_contingency f_oneway mannwhitneyu
                r H) as [-> _].
    apply ltb_nan_l, Hn.
  - intros r1 r2 H1 H2 Hle.
    destruct (returned_inv ttest_ind chi2_contingency f_oneway mannwhitneyu
                r1 H1) as [-> _].
    destruct (returned_inv ttest_ind chi2_contingency f_oneway mannwhitneyu
                r2 H2) as [-> _].
    apply leb_ltb_trans, Hle.
Qed.

End TestRunnerEdges.

Lemma test_runners_raise_witness :
  (perform_t_test (constant_test 0 1) province_data province_data "Premium"
   = Raise (KeyError (Name "Premium"))
   /\ perform_mannwhitneyu_test (constant_test 0 1) province_data
        province_data "Premium" = Raise (KeyError (Name "Premium")))
  /\ perform_chi2_test (fun _ => Raise ValueError) province_data
     = Raise ValueError.
Proof.
  pose proof (test_runners_raise (constant_test 0 1)
                (fun _ => Raise ValueError)
                (fun _ => Raise ValueError) (constant_test 0 1))
    as (H1 & _ & H3 & _).
  split.
  - apply H1. left. reflexivity.
  - apply H3. reflexivity.
Defined.

Lemma test_result_order_witness :
  significant (mkTestResult 2.5 0.01 true) = true.
Proof.
  pose proof (test_result_order (constant_test 2.5 0.01)
                (fun _ => Ok (2.5%float, 0.03%float, 1%Z, []))
                (fun _ => Ok (2.5%float, 0.03%float))
                (constant_test 2.5 0.03)) as (_ & H).
  apply (H (mkTestResult 2.5 0.01 true) (mkTestResult 2.5 0.03 true)).
  - apply (returned_t_test _ _ _ _ province_data province_data "TotalClaims").
    reflexivity.
  - apply (returned_mannwhitneyu_test _ _ _ _ province_data province_data
             "TotalClaims").
    reflexivity.
  - reflexivity.
  - reflexivity.
Defined.

(* ----------------------------------------------------------------- *)
(** ** Tables without rows *)

(** X17. On a table that has the columns and no row, [calculate_cost_savings]
    returns a summary with its five columns and no row,
    [rank_savings_opportunities] a table without rows, whatever the sort
    primitive, and [segment_data] two groups without rows; no exception is
    raised. *)
Theorem empty_data (data : DataFrame) :
  rows data = [] ->
  (forall group_col cost_col claim_col,
     has_column data (Name group_col) = true ->
     has_column data (Name cost_col) = true ->
     has_column data (Name claim_col) = true ->
     ~ In group_col summary_names ->
     calculate_cost_savings data group_col cost_col claim_col
     = Ok (mkDF (Name group_col :: map Name summary_names) []))
  /\ (forall argsort threshold,
        has_column data (Name "SavingsPercentage") = true ->
        rank_savings_opportunities argsort data threshold
        = Ok (mkDF (columns data) []))
  /\ (forall column values_group_a values_group_b,
        has_column data (Name column) = true ->
        segment_data data column values_group_a values_group_b
        = Ok (mkDF (columns data) [], mkDF (columns data) [])).
Proof.
  intros E.
  assert (Hn : forall c, numeric_column data c)
    by (intros c r Hr; rewrite E in Hr; contradiction).
  split; [|split].
  - intros group_col cost_col claim_col Hg Hcost Hclaim Hname.
    rewrite (calculate_cost_savings_rows data group_col cost_col claim_col
               Hg Hcost Hclaim (Hn _) (Hn _) Hname).
    rewrite E. reflexivity.
  - intros argsort threshold Hc.
    rewrite (rank_savings_opportunities_rows argsort data threshold Hc
               (Hn _)).
    cbv zeta. rewrite E. cbn [filter]. rewrite take_nil. reflexivity.
  - intros column A B Hc. unfold segment_data.
    rewrite (getitem_ok _ _ Hc). cbn [bind]. unfold getitem_mask.
    rewrite E. reflexivity.
Qed.

Lemma empty_data_witness :
  calculate_cost_savings
    (mkDF [Name "Province"; Name "TotalPremium"; Name "TotalClaims"] [])
    "Province" "TotalPremium" "TotalClaims"
  = Ok (mkDF (Name "Province" :: map Name summary_names) []).
Proof.
  apply (proj1 (empty_data
                  (mkDF [Name "Province"; Name "TotalPremium";
                         Name "TotalClaims"] [])
                  eq_refl));
    [reflexivity | reflexivity | reflexivity
    | exact not_summary_name_Province].
Defined.

(* ----------------------------------------------------------------- *)
(** ** The two aggregations side by side *)

(** X18. [calculate_cost_savings] and [aggregate_by_group] over the cost and
    the claim column return the same groups in the same order, and the
    TotalCost and TotalClaims of a group are its "sum" of the cost column
    and its "sum" of the claim column. *)
Theorem cost_savings_aggregate_agree
  (data : DataFrame) (group_col cost_col claim_col : string) :
  has_column data (Name group_col) = true ->
  has_column data (Name cost_col) = true ->
  has_column data (Name claim_col) = true ->
  numeric_column data (Name cost_col) ->
  numeric_column data (Name claim_col) ->
  ~ In group_col summary_names ->
  exists summary out,
    calculate_cost_savings data group_col cost_col claim_col = Ok summary
    /\ aggregate_by_group data group_col [cost_col; claim_col] = Ok out
    /\ map (fun o => (label_of o, cell o (Name group_col),
                      num_cell o (Name "TotalCost"),
                      num_cell o (Name "TotalClaims"))) (rows summary)
       = map (fun o => (label_of o, cell o (Name2 group_col ""),
                        num_cell o (Name2 cost_col "sum"),
                        num_cell o (Name2 claim_col "sum"))) (rows out).
Proof.
  intros Hg Hcost Hclaim Ncost Nclaim Hname.
  rewrite (calculate_cost_savings_rows data group_col cost_col claim_col)
    by assumption.
  rewrite (aggregate_by_group_rows data group_col [cost_col; claim_col] Hg).
  - eexists. eexists. split; [reflexivity|]. split; [reflexivity|].
    cbn [rows]. rewrite !map_map. apply map_ext. intros [i [k ms]].
    cbn [fst snd label_of]. rewrite !cell_head.
    destruct (num_cell_summary (LInt (Z.of_nat i)) group_col cost_col
                claim_col k ms Hname) as (-> & -> & _).
    rewrite (num_cell_aggregate _ group_col k ms [cost_col; claim_col]
               cost_col AggSum (or_introl eq_refl)).
    rewrite (num_cell_aggregate _ group_col k ms [cost_col; claim_col]
               claim_col AggSum (or_intror (or_introl eq_refl))).
    reflexivity.
  - discriminate.
  - intros m [<-|[<-|[]]]; split; assumption.
Qed.

Lemma cost_savings_aggregate_agree_witness :
  exists summary out,
    calculate_cost_savings province_data "Province" "TotalPremium"
      "TotalClaims" = Ok summary
    /\ aggregate_by_group province_data "Province"
         ["TotalPremium"; "TotalClaims"]%string = Ok out
    /\ map (fun o => (label_of o, cell o (Name "Province"),
                      num_cell o (Name "TotalCost"),
                      num_cell o (Name "TotalClaims"))) (rows summary)
       = map (fun o => (label_of o, cell o (Name2 "Province" ""),
                        num_cell o (Name2 "TotalPremium" "sum"),
                        num_cell o (Name2 "TotalClaims" "sum"))) (rows out).
Proof.
  apply (cost_savings_aggregate_agree province_data "Province"
           "TotalPremium" "TotalClaims");
    [reflexivity | reflexivity | reflexivity
    | exact province_premium_numeric | exact province_claims_numeric
    | exact not_summary_name_Province].
Defined.

Lemma group_sum_all_missing (xs : list float) :
  forallb is_nan xs = true ->
  group_sum xs = 0%float /\ is_nan (group_mean xs) = true.
Proof.
  intros H. unfold group_mean, series_count, group_sum.
  rewrite filter_none; [split; reflexivity|].
  intros x Hx. rewrite forallb_forall in H. unfold notna.
  rewrite (H x Hx). reflexivity.
Qed.

(** X19. A group in which every value of a metric is missing: its "sum" of
    the metric is 0 and its "mean" is NaN, and nothing is raised. *)
Theorem aggregate_by_group_all_missing
  (data : DataFrame) (group_column : string) (metrics : list string) :
  has_column data (Name group_column) = true ->
  metrics <> [] ->
  (forall m, In m metrics ->
     has_column data (Name m) = true /\ numeric_column data (Name m)) ->
  exists out,
    aggregate_by_group data group_column metrics = Ok out
    /\ forall o m, In o (rows out) -> In m metrics ->
         (forall r, In r (rows data) ->
            value_eqb (cell r (Name group_column))
              (cell o (Name2 group_column "")) = true ->
            is_nan (num_cell r (Name m)) = true) ->
         num_cell o (Name2 m "sum") = 0%float
         /\ is_nan (num_cell o (Name2 m "mean")) = true.
Proof.
  intros Hg Hne Hm.
  rewrite (aggregate_by_group_rows data group_column metrics Hg Hne Hm).
  destruct (group_by_spec Row (fun r => cell r (Name group_column))
              (rows data)) as (_ & _ & Hmem & _).
  eexists. split; [reflexivity|]. cbn [rows].
  intros o m Ho Hmi. apply in_map_iff in Ho.
  destruct Ho as [[i [k ms]] [<- Hin]].
  apply in_combine_r in Hin. cbn [fst snd].
  destruct (Hmem k ms Hin) as [-> _]. rewrite cell_head. intros Hall.
  rewrite (num_cell_aggregate _ group_column k _ metrics m AggSum Hmi).
  rewrite (num_cell_aggregate _ group_column k _ metrics m AggMean Hmi).
  apply group_sum_all_missing. apply forallb_forall.
  intros x Hx. apply in_map_iff in Hx. destruct Hx as [r [<- Hr]].
  apply filter_In in Hr. destruct Hr as [Hr E]. exact (Hall r Hr E).
Qed.

Lemma all_missing_numeric : numeric_column all_missing_data (Name "m").
Proof.
  intros r Hr. simpl in Hr.
  repeat (destruct Hr as [<-|Hr]; [eexists; reflexivity|]). contradiction.
Qed.

(** The group A, whose two values are missing, has the sum 0 and the mean
    NaN. *)
Lemma aggregate_by_group_all_missing_witness :
  exists out,
    aggregate_by_group all_missing_data "g" ["m"%string] = Ok out
    /\ exists o,
         In o (rows out)
         /\ cell o (Name2 "g" "") = VStr "A"
         /\ num_cell o (Name2 "m" "sum") = 0%float
         /\ is_nan (num_cell o (Name2 "m" "mean")) = true.
Proof.
  destruct (aggregate_by_group_all_missing all_missing_data "g"
              ["m"%string] eq_refl) as (out & E & H).
  - discriminate.
  - intros m [<-|[]]. split; [reflexivity|exact all_missing_numeric].
  - exists out. split; [exact E|].
    assert (E' := E). vm_compute in E'. injection E' as <-.
    eexists. split; [left; reflexivity|]. split; [reflexivity|].
    apply H; [left; reflexivity|left; reflexivity|].
    intros r Hr. simpl in Hr.
    destruct Hr as [<-|[<-|[<-|[]]]]; intros Ek;
      try reflexivity; discriminate Ek.
Defined.
